(** * Ride-Rental booking modal: pricing, validation and submission fallback

    A shallow embedding of the booking form component
    (src/components/DateTimeBookingTest.tsx, [BookingModal]) and of the
    parts of the platform it calls, with the properties the specification
    states about them.

    Conventions of the embedding.
    - JavaScript numbers that hold integers (prices in rupees, day and week
      counts, time values in milliseconds) are [Z].  A double holds every
      integer up to 2^53, and sums and products of such integers are exact
      as long as the result stays below 2^53; the statements about prices
      name the range of original prices they are about.
    - The two discount products [Math.round(x * 0.65)] and
      [Math.round(x * 0.9)] are not integer operations: [Math_round_mul]
      computes them in IEEE binary64 (module [Binary64]), as the engine
      does.  The result is the exactly rounded product for 0 <= x < 2^45,
      and it is not for some larger [x].
    - Strings are [string], sequences of code units below 256; JavaScript
      objects used as records are records, objects used as maps (error
      tables, JSON payloads) are [gmap]s.
    - Dates are time values in milliseconds; the host's time zone is a
      parameter, an offset from UTC that may change with the time of the
      year.
    - Asynchronous calls are awaited one after the other by the source, so
      the submission path is sequential state passing over a [World] that
      records every external call in a trace. *)

From Stdlib Require Import ZArith Lia Bool List String Ascii DecimalString.
From Stdlib Require Import Floats.SpecFloat.
From stdpp Require Import base option list strings gmap.

Local Open Scope string_scope.
Local Open Scope list_scope.
Local Open Scope Z_scope.

(** ** Numbers *)

(** [Math.ceil(x / y)] for integers [x] and [y] with [y > 0]. *)
Definition Math_ceil_div (x y : Z) : Z := - ((- x) / y).

(** JavaScript truthiness of a number: everything but 0 (there is no NaN
    among integers). *)
Definition truthy (n : Z) : bool := negb (n =? 0).

(** Number to string, as in a template literal [`${n}`]. *)
Definition string_of_Z (n : Z) : string := NilZero.string_of_int (Z.to_int n).

(** ** Binary64

    [Math.round(x * 0.65)] the way the engine computes it: [x] and the
    literal are doubles, the product is rounded to the nearest double (ties
    to even), and [Math.round] takes the nearest integer, a half going up.
    The arithmetic is that of [SpecFloat] at precision 53. *)
Module Binary64.

Definition prec : Z := 53.
Definition emax : Z := 1024.

(** The double nearest to the integer [n]. *)
Definition of_Z (n : Z) : spec_float := binary_normalize prec emax n 0 false.

(** [x * y] *)
Definition mul : spec_float -> spec_float -> spec_float := SFmul prec emax.

(** The literals [0.65] and [0.9]: the doubles nearest to 65/100 and 9/10. *)
Definition lit_0_65 : spec_float := S754_finite false 5854679515581645 (-53).
Definition lit_0_9 : spec_float := S754_finite false 8106479329266893 (-53).

(** [Math.round(x)], the floor of [x + 1/2] computed exactly; [None] for
    NaN and the infinities, which are not integers. *)
Definition Math_round (x : spec_float) : option Z :=
  match x with
  | S754_zero _ => Some 0
  | S754_finite s m e =>
      let v := if s then Zneg m else Zpos m in
      Some (if 0 <=? e then v * 2 ^ e else (2 * v + 2 ^ (- e)) / 2 ^ (1 - e))
  | _ => None
  end.

(** [Math.round(x * c)] for an integer [x] and a double [c]. *)
Definition round_mul (x : Z) (c : spec_float) : option Z :=
  Math_round (mul (of_Z x) c).

End Binary64.

(** [Math.round(x * c)] as a number of the embedding.  The product of an
    integer and one of the two literals is finite unless [x] itself is
    beyond the doubles (2^1024 and more); 0 stands for the result then. *)
Definition Math_round_mul (x : Z) (c : spec_float) : Z :=
  default 0 (Binary64.round_mul x c).

(** ** Strings *)

Definition code (c : ascii) : Z := Z.of_N (N_of_ascii c).

Definition in_range (lo hi : ascii) (c : ascii) : bool :=
  (code lo <=? code c) && (code c <=? code hi).

(** The class [\s] (and the characters [trim] removes) among the code
    units below 256: TAB, LF, VT, FF, CR, space and no-break space. *)
Definition is_space (c : ascii) : bool :=
  ((9 <=? code c) && (code c <=? 13)) || (code c =? 32) || (code c =? 160).

(** The class [\d]. *)
Definition is_digit (c : ascii) : bool := in_range "0" "9" c.

(** [s.replace(/\s+/g, '')]: every run of white space is deleted. *)
Fixpoint strip_spaces (s : string) : string :=
  match s with
  | EmptyString => EmptyString
  | String c s' => if is_space c then strip_spaces s' else String c (strip_spaces s')
  end.

Fixpoint trimStart (s : string) : string :=
  match s with
  | EmptyString => EmptyString
  | String c s' => if is_space c then trimStart s' else s
  end.

Fixpoint trimEnd (s : string) : string :=
  match s with
  | EmptyString => EmptyString
  | String c s' =>
      let t := trimEnd s' in
      if is_space c && String.eqb t EmptyString then EmptyString else String c t
  end.

(** [s.trim()] *)
Definition trim (s : string) : string := trimEnd (trimStart s).

(** [s.startsWith(sub)] *)
Fixpoint startsWith (s sub : string) : bool :=
  match sub, s with
  | EmptyString, _ => true
  | String c sub', String c' s' => Ascii.eqb c c' && startsWith s' sub'
  | String _ _, EmptyString => false
  end.

(** [s.includes(sub)]: [sub] starts at some position of [s]. *)
Fixpoint includes (s sub : string) : bool :=
  startsWith s sub ||
  match s with
  | EmptyString => false
  | String _ s' => includes s' sub
  end.

(** [s.length] *)
Definition strlen (s : string) : Z := Z.of_nat (String.length s).

(** A string is truthy when it is not empty. *)
Definition nonempty (s : string) : bool := negb (String.eqb s EmptyString).

(** [parseInt(s)]: leading white space, a sign, an optional hexadecimal
    prefix, then the longest run of digits of the radix; [None] is NaN. *)
Definition digit_value (c : ascii) : option Z :=
  if in_range "0" "9" c then Some (code c - 48)
  else if in_range "a" "z" c then Some (code c - 87)
  else if in_range "A" "Z" c then Some (code c - 55)
  else None.

Fixpoint parse_digits (radix : Z) (s : string) (acc : option Z) : option Z :=
  match s with
  | EmptyString => acc
  | String c s' =>
      match digit_value c with
      | Some v =>
          if v <? radix
          then parse_digits radix s' (Some (default 0 acc * radix + v))
          else acc
      | None => acc
      end
  end.

Definition parseInt (s : string) : option Z :=
  let s := trimStart s in
  let '(sign, s) :=
    match s with
    | String "-" s' => (-1, s')
    | String "+" s' => (1, s')
    | _ => (1, s)
    end in
  let '(radix, s) :=
    match s with
    | String "0" (String "x" s') => (16, s')
    | String "0" (String "X" s') => (16, s')
    | _ => (10, s)
    end in
  match parse_digits radix s None with
  | Some n => Some (sign * n)
  | None => None
  end.

(** ** Regular expressions

    The two patterns of the validator are anchored at both ends, so
    [re.test(s)] is a match of the whole string.  [matches] decides it by
    Brzozowski derivatives; [lang] is the language of an expression. *)
Module Regex.

Inductive regex :=
| Void
| Eps
| Class (p : ascii -> bool)
| Cat (r1 r2 : regex)
| Alt (r1 r2 : regex)
| Star (r : regex).

Definition Chr (c : ascii) : regex := Class (Ascii.eqb c).
Definition Opt (r : regex) : regex := Alt r Eps.
Definition Plus (r : regex) : regex := Cat r (Star r).

Fixpoint Lit (s : string) : regex :=
  match s with
  | EmptyString => Eps
  | String c s' => Cat (Chr c) (Lit s')
  end.

Fixpoint Rep (n : nat) (r : regex) : regex :=
  match n with
  | O => Eps
  | S n' => Cat r (Rep n' r)
  end.

Fixpoint nullable (r : regex) : bool :=
  match r with
  | Void => false
  | Eps => true
  | Class _ => false
  | Cat r1 r2 => nullable r1 && nullable r2
  | Alt r1 r2 => nullable r1 || nullable r2
  | Star _ => true
  end.

Fixpoint deriv (c : ascii) (r : regex) : regex :=
  match r with
  | Void => Void
  | Eps => Void
  | Class p => if p c then Eps else Void
  | Cat r1 r2 =>
      if nullable r1
      then Alt (Cat (deriv c r1) r2) (deriv c r2)
      else Cat (deriv c r1) r2
  | Alt r1 r2 => Alt (deriv c r1) (deriv c r2)
  | Star r1 => Cat (deriv c r1) (Star r1)
  end.

Fixpoint matches (r : regex) (s : list ascii) : bool :=
  match s with
  | [] => nullable r
  | c :: s' => matches (deriv c r) s'
  end.

Inductive lang : regex -> list ascii -> Prop :=
| lang_eps : lang Eps []
| lang_class p c : p c = true -> lang (Class p) [c]
| lang_cat r1 r2 s1 s2 : lang r1 s1 -> lang r2 s2 -> lang (Cat r1 r2) (s1 ++ s2)
| lang_alt_l r1 r2 s : lang r1 s -> lang (Alt r1 r2) s
| lang_alt_r r1 r2 s : lang r2 s -> lang (Alt r1 r2) s
| lang_star_nil r : lang (Star r) []
| lang_star_app r s1 s2 : lang r s1 -> lang (Star r) s2 -> lang (Star r) (s1 ++ s2).

(** [re.test(s)] for a pattern of the form [/^re$/]. *)
Definition test (r : regex) (s : string) : bool :=
  matches r (list_ascii_of_string s).

End Regex.

(** [/^[a-zA-Z\s]+$/] *)
Definition re_name : Regex.regex :=
  Regex.Plus (Regex.Class (fun c => in_range "a" "z" c || in_range "A" "Z" c || is_space c)).

(** [/^(\+91)?[6-9]\d{9}$/] *)
Definition re_mobile : Regex.regex :=
  Regex.Cat (Regex.Opt (Regex.Lit "+91"))
    (Regex.Cat (Regex.Class (in_range "6" "9")) (Regex.Rep 9 (Regex.Class is_digit))).

(** ** Calendar and the [Date] object

    A time value is the number of milliseconds since 1970-01-01T00:00Z, a
    day number the number of days since then.  The host's time zone gives
    the offset of local time from UTC in milliseconds, which may change
    with the time of the year; a number [tz] used as a zone is the zone at
    that offset all year (India Standard Time, where the shop operates, is
    [19800000]). *)
Module JSDate.

Definition msPerDay : Z := 86400000.
Definition msPerMinute : Z := 60000.

(** Day number of the date [y]-[m]-[d] of the proleptic Gregorian
    calendar, months counted from 1. *)
Definition days_from_civil (y m d : Z) : Z :=
  let y := if m <=? 2 then y - 1 else y in
  let era := y / 400 in
  let yoe := y - era * 400 in
  let mp := if 2 <? m then m - 3 else m + 9 in
  let doy := (153 * mp + 2) / 5 + d - 1 in
  let doe := yoe * 365 + yoe / 4 - yoe / 100 + doy in
  era * 146097 + doe - 719468.

(** Year, month (from 1) and day of the month of a day number. *)
Definition civil_from_days (z : Z) : Z * Z * Z :=
  let z := z + 719468 in
  let era := z / 146097 in
  let doe := z - era * 146097 in
  let yoe := (doe - doe / 1460 + doe / 36524 - doe / 146096) / 365 in
  let y := yoe + era * 400 in
  let doy := doe - (365 * yoe + yoe / 4 - yoe / 100) in
  let mp := (5 * doy + 2) / 153 in
  let d := doy - (153 * mp + 2) / 5 + 1 in
  let m := if mp <? 10 then mp + 3 else mp - 9 in
  (if m <=? 2 then y + 1 else y, m, d).

Definition Day (t : Z) : Z := t / msPerDay.
Definition TimeWithinDay (t : Z) : Z := t mod msPerDay.

Definition YearFromTime (t : Z) : Z := fst (fst (civil_from_days (Day t))).
(** Months are counted from 0 by [MonthFromTime] and [MakeDay]. *)
Definition MonthFromTime (t : Z) : Z := snd (fst (civil_from_days (Day t))) - 1.
Definition DateFromTime (t : Z) : Z := snd (civil_from_days (Day t)).

Definition MakeDay (year month date : Z) : Z :=
  let ym := year + month / 12 in
  let mn := month mod 12 in
  days_from_civil ym (mn + 1) 1 + date - 1.

Definition MakeDate (day time : Z) : Z := day * msPerDay + time.

(** The host's time zone, as ECMAScript's [LocalTZA(t, isUTC)]: the offset
    in force at the UTC time value [t], or at the local time value [t]
    when [isUTC] is false (a local time that a change of the offset skips
    or repeats has the offset from before the change). *)
Record Zone := { LocalTZA : Z -> bool -> Z }.

(** A zone at the same offset all year. *)
Definition fixed (tz : Z) : Zone := {| LocalTZA := fun _ _ => tz |}.

Section Zone.
Variable zone : Zone.

Definition LocalTime (t : Z) : Z := t + LocalTZA zone t true.
Definition UTC (t : Z) : Z := t - LocalTZA zone t false.

(** [t.getDate()] *)
Definition getDate (t : Z) : Z := DateFromTime (LocalTime t).

(** [t.setDate(date)], the new time value. *)
Definition setDate (t date : Z) : Z :=
  let lt := LocalTime t in
  UTC (MakeDate (MakeDay (YearFromTime lt) (MonthFromTime lt) date)
         (TimeWithinDay lt)).

(** [new Date(`${date}T${time}`)]: a date with a time of day and no
    offset is local time.  [time] is in minutes after midnight. *)
Definition of_local (date time : Z) : Z :=
  UTC (MakeDate date (time * msPerMinute)).

(** [const today = new Date(); today.setHours(0, 0, 0, 0)] *)
Definition local_midnight (now : Z) : Z :=
  UTC (MakeDate (Day (LocalTime now)) 0).
End Zone.

(** [new Date(date)] for a date-only string: midnight UTC of that day. *)
Definition of_date (date : Z) : Z := MakeDate date 0.

(** [t.toISOString().split('T')[0]], as a day number. *)
Definition toISODate (t : Z) : Z := Day t.

(** Decimal digits of [n >= 0], padded with zeros up to [width]. *)
Definition pad (width : nat) (n : Z) : string :=
  let s := string_of_Z n in
  String.concat "" (repeat "0" (width - String.length s)) +:+ s.

Definition year_string (y : Z) : string :=
  if (0 <=? y) && (y <=? 9999) then pad 4 y
  else (if y <? 0 then "-" else "+") +:+ pad 6 (Z.abs y).

(** The text ["YYYY-MM-DD"] of a day number. *)
Definition date_string (date : Z) : string :=
  let '(y, m, d) := civil_from_days date in
  year_string y +:+ "-" +:+ pad 2 m +:+ "-" +:+ pad 2 d.

(** The text ["HH:MM"] of a time of day in minutes. *)
Definition time_string (time : Z) : string :=
  pad 2 (time / 60) +:+ ":" +:+ pad 2 (time mod 60).

(** [t.toISOString()] *)
Definition toISOString (t : Z) : string :=
  let ms := TimeWithinDay t in
  date_string (Day t) +:+ "T" +:+ pad 2 (ms / 3600000) +:+ ":" +:+
  pad 2 (ms / 60000 mod 60) +:+ ":" +:+ pad 2 (ms / 1000 mod 60) +:+ "." +:+
  pad 3 (ms mod 1000) +:+ "Z".

End JSDate.

(** A number where a zone is expected is the zone at that constant
    offset. *)
Coercion JSDate.fixed : Z >-> JSDate.Zone.

(** The date written [y]-[m]-[d], as the day number that stands for the
    value of a date input. *)
Definition ymd (y m d : Z) : Z := JSDate.days_from_civil y m d.

(** The time written [h]:[m], in minutes after midnight. *)
Definition hm (h m : Z) : Z := h * 60 + m.

(** ** Data of the component *)

Inductive BookingType := daily | weekly.

Inductive BookingStep := form | thank_you.

Record BookingData := {
  category : string;
  model : string;
  pricePerDay : Z
}.

(** The form.  A date field holds [''] ([None]) or the text of a valid
    date, which a date input delivers as ["YYYY-MM-DD"]; it is kept as its
    day number ([JSDate.date_string] gives the text back).  A time field
    holds [''] or ["HH:MM"], kept in minutes after midnight. *)
Record FormData := {
  name : string;
  contact : string;
  address : string;
  days : Z;
  bookingType : BookingType;
  weeks : Z;
  pickupDate : option Z;
  returnDate : option Z;
  pickupTime : option Z;
  returnTime : option Z
}.

(** [useState<FormData>] initial value, also set when the modal opens. *)
Definition initialFormData : FormData :=
  {| name := ""; contact := ""; address := ""; days := 1; bookingType := daily;
     weeks := 1; pickupDate := None; returnDate := None;
     pickupTime := Some (hm 9 0); returnTime := Some (hm 18 0) |}.

(** [FormErrors]: field name to message.  A value [None] is a key that is
    present and holds [undefined]. *)
Abbreviation FormErrors := (gmap string (option string)).

Record PriceQuote := {
  quote_pricePerDay : Z;
  totalPrice : Z;
  discount : bool;
  weeklyDiscount : bool;
  originalPrice : Z;
  savings : Z
}.

(** ** Pricing *)

Definition calculatePrice (bookingData : option BookingData) (formData : FormData)
  : PriceQuote :=
  match bookingData with
  | None =>
      {| quote_pricePerDay := 0; totalPrice := 0; discount := false;
         weeklyDiscount := false; originalPrice := 0; savings := 0 |}
  | Some bookingData =>
      let pricePerDay := pricePerDay bookingData in
      match bookingType formData with
      | weekly =>
          let daysInWeeks := weeks formData * 7 in
          let originalPrice := pricePerDay * daysInWeeks in
          let totalPrice := Math_round_mul originalPrice Binary64.lit_0_65 in
          {| quote_pricePerDay := pricePerDay; totalPrice := totalPrice;
             discount := false; weeklyDiscount := true;
             originalPrice := originalPrice;
             savings := originalPrice - totalPrice |}
      | daily =>
          let totalPrice := pricePerDay * days formData in
          let originalPrice := totalPrice in
          if (days formData =? 1) &&
             (includes (model bookingData) "Pulsar 150" ||
              includes (model bookingData) "Pulsar 125")
          then
            let totalPrice := Math_round_mul totalPrice Binary64.lit_0_9 in
            {| quote_pricePerDay := pricePerDay; totalPrice := totalPrice;
               discount := true; weeklyDiscount := false;
               originalPrice := originalPrice;
               savings := originalPrice - totalPrice |}
          else
            {| quote_pricePerDay := pricePerDay; totalPrice := totalPrice;
               discount := false; weeklyDiscount := false;
               originalPrice := originalPrice; savings := 0 |}
      end
  end.

(** ** Validation *)

(** [newErrors.key = msg] *)
Definition report (key msg : string) (errs : FormErrors) : FormErrors :=
  <[key := Some msg]> errs.

Section Validate.
(** The host's time zone and the current time, read by [new Date()]. *)
Variable zone : JSDate.Zone.
Variable now : Z.

Definition validate_name (formData : FormData) (newErrors : FormErrors) : FormErrors :=
  if negb (nonempty (trim (name formData))) then
    report "name" "Full name is required" newErrors
  else if strlen (trim (name formData)) <? 2 then
    report "name" "Name must be at least 2 characters" newErrors
  else if 60 <? strlen (trim (name formData)) then
    report "name" "Name must be less than 60 characters" newErrors
  else if negb (Regex.test re_name (trim (name formData))) then
    report "name" "Name can only contain letters and spaces" newErrors
  else newErrors.

Definition validate_contact (formData : FormData) (newErrors : FormErrors) : FormErrors :=
  let contactClean := strip_spaces (contact formData) in
  if negb (nonempty contactClean) then
    report "contact" "Contact number is required" newErrors
  else if negb (Regex.test re_mobile contactClean) then
    report "contact" "Enter a valid 10-digit Indian mobile number" newErrors
  else newErrors.

Definition validate_address (formData : FormData) (newErrors : FormErrors) : FormErrors :=
  if negb (nonempty (trim (address formData))) then
    report "address" "Pickup address is required" newErrors
  else if strlen (trim (address formData)) <? 10 then
    report "address" "Address must be at least 10 characters" newErrors
  else newErrors.

Definition validate_days (formData : FormData) (newErrors : FormErrors) : FormErrors :=
  if negb (truthy (days formData)) || (days formData <? 1) then
    report "days" "Number of days must be at least 1" newErrors
  else if 30 <? days formData then
    report "days" "Maximum rental period is 30 days" newErrors
  else newErrors.

Definition validate_weeks (formData : FormData) (newErrors : FormErrors) : FormErrors :=
  if negb (truthy (weeks formData)) || (weeks formData <? 1) then
    report "weeks" "Number of weeks must be at least 1" newErrors
  else if 12 <? weeks formData then
    report "weeks" "Maximum weekly rental period is 12 weeks" newErrors
  else newErrors.

(** The pickup date check; the two booking types differ in the message
    for a missing date only. *)
Definition validate_pickupDate (required : string) (formData : FormData)
    (newErrors : FormErrors) : FormErrors :=
  match pickupDate formData with
  | None => report "pickupDate" required newErrors
  | Some pickup =>
      let pickupDate := JSDate.of_date pickup in
      let today := JSDate.local_midnight zone now in
      if pickupDate <? today then
        report "pickupDate" "Pickup date cannot be in the past" newErrors
      else newErrors
  end.

Definition weekly_returnDate_message (formData : FormData) : string :=
  let expectedDays := weeks formData * 7 in
  "Return date should be approximately " +:+ string_of_Z expectedDays +:+
  " days after pickup date for " +:+ string_of_Z (weeks formData) +:+ " week" +:+
  (if 1 <? weeks formData then "s" else "").

Definition validate_weekly_returnDate (formData : FormData)
    (newErrors : FormErrors) : FormErrors :=
  match returnDate formData with
  | None => report "returnDate" "Return date is required for weekly bookings" newErrors
  | Some ret =>
      match pickupDate formData with
      | None => newErrors
      | Some pickup =>
          let pickupDate := JSDate.of_date pickup in
          let returnDate := JSDate.of_date ret in
          let newErrors :=
            if returnDate <=? pickupDate then
              report "returnDate" "Return date must be after pickup date" newErrors
            else newErrors in
          let daysDifference :=
            Math_ceil_div (returnDate - pickupDate) (1000 * 60 * 60 * 24) in
          let expectedDays := weeks formData * 7 in
          if 2 <? Z.abs (daysDifference - expectedDays) then
            report "returnDate" (weekly_returnDate_message formData) newErrors
          else newErrors
      end
  end.

Definition validate_daily_returnDate (formData : FormData)
    (newErrors : FormErrors) : FormErrors :=
  match returnDate formData, pickupDate formData with
  | None, Some _ =>
      if truthy (days formData) then
        report "returnDate"
          "Return date calculation error - please check pickup date and days"
          newErrors
      else newErrors
  | Some ret, Some pickup =>
      let pickupDate := JSDate.of_date pickup in
      let returnDate := JSDate.of_date ret in
      (* the day difference is compared with [days] next, and a corrected
         date is computed and dropped: nothing is reported for it *)
      if returnDate <? pickupDate then
        report "returnDate" "Return date cannot be before pickup date" newErrors
      else newErrors
  | _, None => newErrors
  end.

Definition validate_times (formData : FormData) (newErrors : FormErrors) : FormErrors :=
  let newErrors :=
    match pickupTime formData with
    | Some _ => newErrors
    | None => report "pickupTime" "Pickup time is required" newErrors
    end in
  let newErrors :=
    match returnTime formData with
    | Some _ => newErrors
    | None => report "returnTime" "Return time is required" newErrors
    end in
  match pickupDate formData, returnDate formData,
        pickupTime formData, returnTime formData with
  | Some pd, Some rd, Some pt, Some rt =>
      let pickupDateTime := JSDate.of_local zone pd pt in
      let returnDateTime := JSDate.of_local zone rd rt in
      if returnDateTime <=? pickupDateTime then
        report "returnTime" "Return time must be after pickup time" newErrors
      else newErrors
  | _, _, _, _ => newErrors
  end.

(** The table [validateForm] builds and stores with [setErrors]. *)
Definition validateForm_errors (formData : FormData) : FormErrors :=
  let newErrors : FormErrors := ∅ in
  let newErrors := validate_name formData newErrors in
  let newErrors := validate_contact formData newErrors in
  let newErrors := validate_address formData newErrors in
  let newErrors :=
    match bookingType formData with
    | daily => validate_days formData newErrors
    | weekly => newErrors
    end in
  let newErrors :=
    match bookingType formData with
    | weekly =>
        let newErrors := validate_weeks formData newErrors in
        let newErrors :=
          validate_pickupDate "Pickup date is required for weekly bookings"
            formData newErrors in
        validate_weekly_returnDate formData newErrors
    | daily => newErrors
    end in
  match bookingType formData with
  | daily =>
      let newErrors :=
        validate_pickupDate "Pickup date is required" formData newErrors in
      let newErrors := validate_daily_returnDate formData newErrors in
      validate_times formData newErrors
  | weekly => newErrors
  end.

(** The result of [validateForm]:
    [Object.keys(newErrors).length === 0]. *)
Definition validateForm (formData : FormData) : bool :=
  bool_decide (validateForm_errors formData = ∅).
End Validate.

(** ** Input changes *)

(** The calls [handleInputChange(field, value)] that are well typed for
    [FormData].  A duration arrives as a number from the duration input's
    handler, or as the text of one. *)
Inductive Change :=
| change_name (value : string)
| change_contact (value : string)
| change_address (value : string)
| change_days (value : string + Z)
| change_bookingType (value : BookingType)
| change_weeks (value : string + Z)
| change_pickupDate (value : option Z)
| change_returnDate (value : option Z)
| change_pickupTime (value : option Z)
| change_returnTime (value : option Z).

Definition field (c : Change) : string :=
  match c with
  | change_name _ => "name"
  | change_contact _ => "contact"
  | change_address _ => "address"
  | change_days _ => "days"
  | change_bookingType _ => "bookingType"
  | change_weeks _ => "weeks"
  | change_pickupDate _ => "pickupDate"
  | change_returnDate _ => "returnDate"
  | change_pickupTime _ => "pickupTime"
  | change_returnTime _ => "returnTime"
  end.

(** [typeof value === 'string' ? parseInt(value) || 1 : value] *)
Definition processedValue (value : string + Z) : Z :=
  match value with
  | inl s =>
      match parseInt s with
      | Some n => if truthy n then n else 1
      | None => 1
      end
  | inr n => n
  end.

(** [{ ...prev, [field]: processedValue }] *)
Definition assign (prev : FormData) (c : Change) : FormData :=
  match c with
  | change_name v =>
      {| name := v; contact := contact prev; address := address prev;
         days := days prev; bookingType := bookingType prev; weeks := weeks prev;
         pickupDate := pickupDate prev; returnDate := returnDate prev;
         pickupTime := pickupTime prev; returnTime := returnTime prev |}
  | change_contact v =>
      {| name := name prev; contact := v; address := address prev;
         days := days prev; bookingType := bookingType prev; weeks := weeks prev;
         pickupDate := pickupDate prev; returnDate := returnDate prev;
         pickupTime := pickupTime prev; returnTime := returnTime prev |}
  | change_address v =>
      {| name := name prev; contact := contact prev; address := v;
         days := days prev; bookingType := bookingType prev; weeks := weeks prev;
         pickupDate := pickupDate prev; returnDate := returnDate prev;
         pickupTime := pickupTime prev; returnTime := returnTime prev |}
  | change_days v =>
      {| name := name prev; contact := contact prev; address := address prev;
         days := processedValue v; bookingType := bookingType prev; weeks := weeks prev;
         pickupDate := pickupDate prev; returnDate := returnDate prev;
         pickupTime := pickupTime prev; returnTime := returnTime prev |}
  | change_bookingType v =>
      {| name := name prev; contact := contact prev; address := address prev;
         days := days prev; bookingType := v; weeks := weeks prev;
         pickupDate := pickupDate prev; returnDate := returnDate prev;
         pickupTime := pickupTime prev; returnTime := returnTime prev |}
  | change_weeks v =>
      {| name := name prev; contact := contact prev; address := address prev;
         days := days prev; bookingType := bookingType prev; weeks := processedValue v;
         pickupDate := pickupDate prev; returnDate := returnDate prev;
         pickupTime := pickupTime prev; returnTime := returnTime prev |}
  | change_pickupDate v =>
      {| name := name prev; contact := contact prev; address := address prev;
         days := days prev; bookingType := bookingType prev; weeks := weeks prev;
         pickupDate := v; returnDate := returnDate prev;
         pickupTime := pickupTime prev; returnTime := returnTime prev |}
  | change_returnDate v =>
      {| name := name prev; contact := contact prev; address := address prev;
         days := days prev; bookingType := bookingType prev; weeks := weeks prev;
         pickupDate := pickupDate prev; returnDate := v;
         pickupTime := pickupTime prev; returnTime := returnTime prev |}
  | change_pickupTime v =>
      {| name := name prev; contact := contact prev; address := address prev;
         days := days prev; bookingType := bookingType prev; weeks := weeks prev;
         pickupDate := pickupDate prev; returnDate := returnDate prev;
         pickupTime := v; returnTime := returnTime prev |}
  | change_returnTime v =>
      {| name := name prev; contact := contact prev; address := address prev;
         days := days prev; bookingType := bookingType prev; weeks := weeks prev;
         pickupDate := pickupDate prev; returnDate := returnDate prev;
         pickupTime := pickupTime prev; returnTime := v |}
  end.

(** [newData.returnDate = ...] *)
Definition set_returnDate (newData : FormData) (v : option Z) : FormData :=
  {| name := name newData; contact := contact newData; address := address newData;
     days := days newData; bookingType := bookingType newData; weeks := weeks newData;
     pickupDate := pickupDate newData; returnDate := v;
     pickupTime := pickupTime newData; returnTime := returnTime newData |}.

Definition is_weekly (t : BookingType) : bool :=
  match t with weekly => true | daily => false end.

Definition is_daily (t : BookingType) : bool :=
  match t with daily => true | weekly => false end.

Section Input.
Variable zone : JSDate.Zone.

(** [pickupDate + n] days, the way the handler computes it:
    [const returnDate = new Date(pickupDate);
     returnDate.setDate(returnDate.getDate() + n);
     returnDate.toISOString().split('T')[0]] *)
Definition date_plus (pickup n : Z) : Z :=
  let pickupDate := JSDate.of_date pickup in
  let returnDate := pickupDate in
  let returnDate := JSDate.setDate zone returnDate (JSDate.getDate zone returnDate + n) in
  JSDate.toISODate returnDate.

(** The updater passed to [setFormData]. *)
Definition updateFormData (c : Change) (prev : FormData) : FormData :=
  let newData := assign prev c in
  let newData :=
    if String.eqb (field c) "weeks" ||
       (String.eqb (field c) "pickupDate" && is_weekly (bookingType newData))
    then
      match pickupDate newData with
      | Some pickup =>
          if is_weekly (bookingType newData) && truthy (weeks newData)
          then set_returnDate newData (Some (date_plus pickup (weeks newData * 7)))
          else newData
      | None => newData
      end
    else newData in
  let newData :=
    if String.eqb (field c) "days" ||
       (String.eqb (field c) "pickupDate" && is_daily (bookingType newData))
    then
      match pickupDate newData with
      | Some pickup =>
          if is_daily (bookingType newData) && truthy (days newData)
          then set_returnDate newData (Some (date_plus pickup (days newData)))
          else newData
      | None => newData
      end
    else newData in
  newData.

(** [if (field in errors) setErrors(prev => ({ ...prev, [field]: undefined }))] *)
Definition clearError (c : Change) (errors : FormErrors) : FormErrors :=
  match errors !! field c with
  | Some _ => <[field c := None]> errors
  | None => errors
  end.

Definition handleInputChange (c : Change) (st : FormData * FormErrors)
  : FormData * FormErrors :=
  (updateFormData c (fst st), clearError c (snd st)).
End Input.

(** ** Payloads *)

(** The values of a payload field: a string or a number. *)
Inductive jvalue :=
| JStr (s : string)
| JNum (n : Z).

(** A payload object, as sent to the remote store, to the relay and to
    local storage. *)
Abbreviation jobject := (gmap string jvalue).

(** Truthiness of a property read: [undefined], [''] and [0] are falsy. *)
Definition jtruthy (v : option jvalue) : bool :=
  match v with
  | Some (JStr s) => nonempty s
  | Some (JNum n) => truthy n
  | None => false
  end.

(** [obj.key = v] when [v] is not [undefined]; a property set to
    [undefined] is not sent. *)
Definition put (key : string) (v : option jvalue) (obj : jobject) : jobject :=
  match v with
  | Some v => <[key := v]> obj
  | None => obj
  end.

(** The text of a date or time field. *)
Definition date_field (d : option Z) : jvalue :=
  JStr (match d with Some d => JSDate.date_string d | None => "" end).

Definition time_field (t : option Z) : jvalue :=
  JStr (match t with Some t => JSDate.time_string t | None => "" end).

Definition bookingType_string (t : BookingType) : string :=
  match t with daily => "daily" | weekly => "weekly" end.

(** ** The host *)

(** The [{ data, error }] a Supabase insert resolves to, or a rejection. *)
Record PostgrestError := {
  error_code : string;
  error_message : string;
  error_details : string;
  error_hint : string
}.

Inductive InsertReply :=
| insert_data
| insert_error (error : PostgrestError)
| insert_rejects.

Inductive FetchReply :=
| fetch_resolves
| fetch_rejects.

(** What the browser and the network answer during one submission. *)
Record Host := {
  VITE_SUPABASE_URL : option string;
  VITE_SUPABASE_ANON_KEY : option string;
  supabase_insert : string -> jobject -> InsertReply;
  google_fetch : jobject -> FetchReply;
  setItem_throws : bool;
  Date_now : Z
}.

(** The item ['pendingBookings'] of [localStorage]: missing (or empty),
    the JSON text of an array of bookings, or anything else, on which
    [JSON.parse] or [push] throws. *)
Inductive StorageItem :=
| item_missing
| item_array (bookings : list jobject)
| item_other.

Inductive Adapter :=
| remote_daily
| remote_weekly
| relay
| local.

(** What a submission does to the outside, in order. *)
Inductive Event :=
| Call (a : Adapter)
| Insert (table : string) (row : jobject)
| Fetch (url : string) (body : jobject)
| SetItem (key : string) (value : list jobject)
| Alert (message : string).

Record World := {
  pendingBookings : StorageItem;
  currentStep : BookingStep;
  errors : FormErrors;
  isSubmitting : bool;
  trace : list Event
}.

(** ** Sequential effects *)

Definition IO (A : Type) : Type := World -> A * World.

#[local] Instance IO_ret : MRet IO := fun A (x : A) w => (x, w).
#[local] Instance IO_bind : MBind IO :=
  fun A B (f : A -> IO B) (m : IO A) w => let '(x, w') := m w in f x w'.

Definition emit (e : Event) : IO unit := fun w =>
  (tt, {| pendingBookings := pendingBookings w; currentStep := currentStep w;
          errors := errors w;
          isSubmitting := isSubmitting w; trace := trace w ++ [e] |}).

Definition alert (message : string) : IO unit := emit (Alert message).

Definition setCurrentStep (s : BookingStep) : IO unit := fun w =>
  (tt, {| pendingBookings := pendingBookings w; currentStep := s;
          errors := errors w;
          isSubmitting := isSubmitting w; trace := trace w |}).

Definition setIsSubmitting (b : bool) : IO unit := fun w =>
  (tt, {| pendingBookings := pendingBookings w; currentStep := currentStep w;
          errors := errors w;
          isSubmitting := b; trace := trace w |}).

Definition setErrors (e : FormErrors) : IO unit := fun w =>
  (tt, {| pendingBookings := pendingBookings w; currentStep := currentStep w;
          errors := e; isSubmitting := isSubmitting w; trace := trace w |}).

Definition getItem : IO StorageItem := fun w => (pendingBookings w, w).

Definition storeItem (bookings : list jobject) : IO unit := fun w =>
  (tt, {| pendingBookings := item_array bookings; currentStep := currentStep w;
          errors := errors w;
          isSubmitting := isSubmitting w; trace := trace w |}).

(** The relay's address. *)
Definition google_form_url : string :=
  "https://script.google.com/macros/s/AKfycbxJQsVLGK7qgJ1bm9Ag0AEBL09pHf06vpjV7ZjnFYdNKM8y9HUhlQAnXwwG4gM-OCSs/exec".

Section Submission.
Variable host : Host.

(** [lib/supabase.ts], the module that creates the client: it throws when
    it is loaded without one of the two credentials,
    [if (!supabaseUrl || !supabaseAnonKey) throw new Error(...)].  The
    variables are those the two submit functions read, fixed when the
    program is built. *)
Definition lib_supabase_throws : bool :=
  negb (nonempty (default "" (VITE_SUPABASE_URL host))) ||
  negb (nonempty (default "" (VITE_SUPABASE_ANON_KEY host))).

(** The same test in the two submit functions, before the client is used:
    [!import.meta.env.VITE_SUPABASE_URL || !import.meta.env.VITE_SUPABASE_ANON_KEY] *)
Definition credentials_missing : bool :=
  negb (nonempty (default "" (VITE_SUPABASE_URL host))) ||
  negb (nonempty (default "" (VITE_SUPABASE_ANON_KEY host))).

(** [await supabase.from(table).insert([row]).select()] *)
Definition insert (table : string) (row : jobject) : IO InsertReply :=
  emit (Insert table row) ;; mret (supabase_insert host table row).

Definition error_alert (prefix : string) (error : PostgrestError) : string :=
  prefix +:+ error_message error +:+ String "010" "Code: " +:+ error_code error +:+
  String "010" "Details: " +:+
  (if nonempty (error_details error) then error_details error else "None").

(** The row [submitToSupabase] builds from its payload: the required
    columns, then the optional ones that are set. *)
Definition bookingPayload (payload : jobject) : jobject :=
  let bookingPayload : jobject :=
    put "name" (payload !! "name") (
    put "contact" (payload !! "contact") (
    put "address" (payload !! "address") (
    put "category" (payload !! "category") (
    put "model" (payload !! "model") (
    put "price_per_day" (payload !! "price_per_day") (
    put "status" (if jtruthy (payload !! "status") then payload !! "status"
                  else Some (JStr "pending")) (
    put "rental_type" (if jtruthy (payload !! "rental_type")
                       then payload !! "rental_type"
                       else Some (JStr "daily")) ∅))))))) in
  let bookingPayload := put "days" (payload !! "days") bookingPayload in
  let bookingPayload := put "total_price" (payload !! "total_price") bookingPayload in
  let bookingPayload :=
    if jtruthy (payload !! "pickup_date")
    then put "pickup_date" (payload !! "pickup_date") bookingPayload
    else bookingPayload in
  let bookingPayload :=
    if jtruthy (payload !! "return_date")
    then put "return_date" (payload !! "return_date") bookingPayload
    else bookingPayload in
  let bookingPayload :=
    if jtruthy (payload !! "pickup_time")
    then put "pickup_time" (payload !! "pickup_time") bookingPayload
    else bookingPayload in
  let bookingPayload :=
    if jtruthy (payload !! "return_time")
    then put "return_time" (payload !! "return_time") bookingPayload
    else bookingPayload in
  bookingPayload.

Definition submitToSupabase (payload : jobject) : IO bool :=
  emit (Call remote_daily) ;;
  if credentials_missing then mret false   (* thrown and caught *)
  else
    reply ← insert "bookings" (bookingPayload payload) ;
    match reply with
    | insert_error error => alert (error_alert "Supabase Error: " error) ;; mret false
    | insert_data => mret true
    | insert_rejects => mret false
    end.

Definition submitWeeklyBookingToSupabase (payload : jobject) : IO bool :=
  emit (Call remote_weekly) ;;
  if credentials_missing then mret false   (* thrown and caught *)
  else
    reply ← insert "weekly_bookings" payload ;
    match reply with
    | insert_error error =>
        alert (error_alert "Weekly Booking Supabase Error: " error) ;; mret false
    | insert_data => mret true
    | insert_rejects => mret false
    end.

Definition submitToGoogleForm (payload : jobject) : IO bool :=
  emit (Call relay) ;;
  emit (Fetch google_form_url payload) ;;
  match google_fetch host payload with
  | fetch_resolves => mret true
  | fetch_rejects => mret false
  end.

(** The entry [{ ...payload, savedAt, id }]. *)
Definition bookingWithTimestamp (payload : jobject) : jobject :=
  <["id" := JStr ("local-" +:+ string_of_Z (Date_now host))]> (
  <["savedAt" := JStr (JSDate.toISOString (Date_now host))]> payload).

Definition storeBookingLocally (payload : jobject) : IO bool :=
  emit (Call local) ;;
  item ← getItem ;
  match item with
  | item_other => mret false   (* thrown and caught *)
  | item_missing | item_array _ =>
      let existingBookings :=
        match item with item_array l => l | _ => [] end in
      let existingBookings := existingBookings ++ [bookingWithTimestamp payload] in
      emit (SetItem "pendingBookings" existingBookings) ;;
      if setItem_throws host then mret false   (* thrown and caught *)
      else storeItem existingBookings ;; mret true
  end.

Definition support_directive : string :=
  "There was an error submitting your booking. Please contact us directly with your booking details.".

Section Booking.
Variables (bookingData : BookingData) (formData : FormData).

Definition weeklyPayload : jobject :=
  let quote := calculatePrice (Some bookingData) formData in
  <["name" := JStr (trim (name formData))]> (
  <["contact" := JStr (strip_spaces (contact formData))]> (
  <["address" := JStr (trim (address formData))]> (
  <["category" := JStr (category bookingData)]> (
  <["model" := JStr (model bookingData)]> (
  <["price_per_day" := JNum (quote_pricePerDay quote)]> (
  <["weeks" := JNum (weeks formData)]> (
  <["total_weeks_price" := JNum (totalPrice quote)]> (
  <["weekly_discount_percent" := JNum 35]> (
  <["original_price" := JNum (originalPrice quote)]> (
  <["savings" := JNum (savings quote)]> (
  <["status" := JStr "pending"]> (
  <["pickup_date" := date_field (pickupDate formData)]> (
  <["return_date" := date_field (returnDate formData)]> ∅))))))))))))).

(** [{ ...weeklyPayload, bookingType: 'weekly', timestamp }] *)
Definition weeklyLocalPayload : jobject :=
  <["timestamp" := JStr (JSDate.toISOString (Date_now host))]> (
  <["bookingType" := JStr "weekly"]> weeklyPayload).

Definition supabasePayload : jobject :=
  let quote := calculatePrice (Some bookingData) formData in
  <["name" := JStr (trim (name formData))]> (
  <["contact" := JStr (strip_spaces (contact formData))]> (
  <["address" := JStr (trim (address formData))]> (
  <["category" := JStr (category bookingData)]> (
  <["model" := JStr (model bookingData)]> (
  <["price_per_day" := JNum (quote_pricePerDay quote)]> (
  <["days" := JNum (days formData)]> (
  <["total_price" := JNum (totalPrice quote)]> (
  <["status" := JStr "pending"]> (
  <["rental_type" := JStr "daily"]> (
  <["pickup_date" := date_field (pickupDate formData)]> (
  <["return_date" := date_field (returnDate formData)]> (
  <["pickup_time" := time_field (pickupTime formData)]> (
  <["return_time" := time_field (returnTime formData)]> ∅))))))))))))).

Definition commonPayload : jobject :=
  let quote := calculatePrice (Some bookingData) formData in
  <["name" := JStr (trim (name formData))]> (
  <["contact" := JStr (strip_spaces (contact formData))]> (
  <["address" := JStr (trim (address formData))]> (
  <["category" := JStr (category bookingData)]> (
  <["model" := JStr (model bookingData)]> (
  <["pricePerDay" := JNum (quote_pricePerDay quote)]> (
  <["days" := JNum (days formData)]> (
  <["totalPrice" := JNum (totalPrice quote)]> (
  <["timestamp" := JStr (JSDate.toISOString (Date_now host))]> ∅)))))))).

(** The body of [try] in [submitBooking].  Each adapter catches what
    it throws and answers with a boolean, so the [catch] clause of
    [submitBooking] is never entered. *)
Definition submitBooking_try : IO unit :=
  successfulSubmission ←
    match bookingType formData with
    | weekly =>
        supabaseSuccess ← submitWeeklyBookingToSupabase weeklyPayload ;
        if supabaseSuccess : bool then mret true
        else
          storeBookingLocally weeklyLocalPayload
    | daily =>
        supabaseSuccess ← submitToSupabase supabasePayload ;
        if supabaseSuccess : bool then mret true
        else
          googleFormSuccess ← submitToGoogleForm commonPayload ;
          if googleFormSuccess : bool then mret true
          else storeBookingLocally commonPayload
    end ;
  if successfulSubmission : bool then setCurrentStep thank_you
  else alert support_directive.

Definition submitBooking_body : IO unit :=
  setIsSubmitting true ;;
  submitBooking_try ;;
  setIsSubmitting false.
End Booking.

Definition submitBooking (bookingData : option BookingData) (formData : FormData)
  : IO unit :=
  match bookingData with
  | Some bookingData => submitBooking_body bookingData formData
  | None => mret tt
  end.

(** [handleSubmit]: nothing is submitted unless the form validates and
    a vehicle is selected. *)
Definition handleSubmit (zone : JSDate.Zone) (bookingData : option BookingData)
    (formData : FormData) : IO unit :=
  setErrors (validateForm_errors zone (Date_now host) formData) ;;
  if negb (validateForm zone (Date_now host) formData) ||
     negb (bool_decide (is_Some bookingData))
  then mret tt
  else submitBooking bookingData formData.

(** The component in the program.  Its module imports [supabase] from
    [lib/supabase.ts] (line 122), and a module that throws while it is
    loaded takes the modules that import it with it: there is a
    [BookingModal], and a [handleSubmit], only where [lib/supabase.ts] did
    not throw. *)
Definition BookingModal
  : option (JSDate.Zone -> option BookingData -> FormData -> IO unit) :=
  if lib_supabase_throws then None else Some handleSubmit.

(** The user submits the form, in the program as it is built: without the
    component there is no form, and nothing happens. *)
Definition submit_in_program (zone : JSDate.Zone) (bookingData : option BookingData)
    (formData : FormData) : IO unit :=
  match BookingModal with
  | Some handleSubmit => handleSubmit zone bookingData formData
  | None => mret tt
  end.
End Submission.

(** ** The duration input

    The handlers of the input for the number of days or weeks, and what
    the user can do to the form. *)

(** [value.replace(/[^0-9]/g, '')] *)
Fixpoint keep_digits (s : string) : string :=
  match s with
  | EmptyString => EmptyString
  | String c s' => if is_digit c then String c (keep_digits s') else keep_digits s'
  end.

(** [formData.bookingType === 'weekly' ? 12 : 30] *)
Definition maxValue (t : BookingType) : Z :=
  match t with weekly => 12 | daily => 30 end.

(** [handleInputChange(formData.bookingType === 'weekly' ? 'weeks' : 'days', n)] *)
Definition change_duration (t : BookingType) (n : Z) : Change :=
  match t with
  | weekly => change_weeks (inr n)
  | daily => change_days (inr n)
  end.

(** [onChange] of the duration input: the call of [handleInputChange] it
    makes, or [None] when it returns without one.  The text left after the
    clean-up is a nonempty run of digits, on which [parseInt] is a number
    ([parseInt_digits]), so the last [None] is not reached.  A run of digits
    too long for a double to hold exactly is above [maxValue] either way. *)
Definition duration_onChange (formData : FormData) (value : string) : option Change :=
  if String.eqb value "" then None
  else
    let value := keep_digits value in
    if String.eqb value "" then None
    else
      match parseInt value with
      | Some numValue =>
          let maxValue := maxValue (bookingType formData) in
          let numValue := if maxValue <? numValue then maxValue else numValue in
          let numValue := if numValue <? 1 then 1 else numValue in
          Some (change_duration (bookingType formData) numValue)
      | None => None
      end.

(** [onBlur] of the duration input. *)
Definition duration_onBlur (formData : FormData) (value : string) : option Change :=
  if String.eqb value "" ||
     match parseInt value with Some n => n <? 1 | None => false end
  then Some (change_duration (bookingType formData) 1)
  else None.

(** What the user does to the form: the modal opens, or one of the
    inputs changes.  The inputs for the dates and times are rendered for
    one booking type only; their events are kept for both. *)
Inductive UIEvent :=
| modal_opens
| input_name (value : string)
| click_bookingType (value : BookingType)
| input_contact (value : string)
| input_address (value : string)
| input_duration (value : string)
| blur_duration (value : string)
| input_pickupDate (value : option Z)
| input_returnDate (value : option Z)
| input_pickupTime (value : option Z)
| input_returnTime (value : option Z).

(** The call of [handleInputChange] an event leads to. *)
Definition ui_change (formData : FormData) (e : UIEvent) : option Change :=
  match e with
  | modal_opens => None
  | input_name v => Some (change_name v)
  | click_bookingType v => Some (change_bookingType v)
  | input_contact v => Some (change_contact v)
  | input_address v => Some (change_address v)
  | input_duration v => duration_onChange formData v
  | blur_duration v => duration_onBlur formData v
  | input_pickupDate v => Some (change_pickupDate v)
  | input_returnDate v => Some (change_returnDate v)
  | input_pickupTime v => Some (change_pickupTime v)
  | input_returnTime v => Some (change_returnTime v)
  end.

(** The form and its error table after an event.  Opening the modal
    resets both (the effect on [isOpen]). *)
Definition ui_step (zone : JSDate.Zone) (st : FormData * FormErrors) (e : UIEvent)
  : FormData * FormErrors :=
  match e with
  | modal_opens => (initialFormData, ∅)
  | _ =>
      match ui_change (fst st) e with
      | Some c => handleInputChange zone c st
      | None => st
      end
  end.

(** ** What the form shows *)

(** The tip under the duration input is shown:
    [formData.bookingType === 'daily' && bookingData.model.includes("Pulsar")
     && formData.days !== 1] *)
Definition shows_tip (bookingData : BookingData) (formData : FormData) : bool :=
  is_daily (bookingType formData) && includes (model bookingData) "Pulsar" &&
  negb (days formData =? 1).

(** The badge "10% OFF APPLIED!" of the daily summary is shown:
    [calculatePrice().discount && formData.days === 1] *)
Definition shows_discount (bookingData : BookingData) (formData : FormData) : bool :=
  is_daily (bookingType formData) &&
  discount (calculatePrice (Some bookingData) formData) && (days formData =? 1).

(** [Math.round(bookingData.pricePerDay * 0.9)], the price per day shown
    beside the badge. *)
Definition discounted_pricePerDay (bookingData : BookingData) : Z :=
  Math_round_mul (pricePerDay bookingData) Binary64.lit_0_9.

(** ** The return date of [NumberInputTest]

    The effect that runs when [pickupDate], [days], [weeks] or [inputType]
    changes: the [returnDate] it leaves. *)
Definition NumberInputTest_returnDate (zone : JSDate.Zone) (inputType : BookingType)
    (days weeks : Z) (pickupDate returnDate : option Z) : option Z :=
  match pickupDate with
  | Some pickup =>
      let pickup := JSDate.of_date pickup in
      let returnCalc := pickup in
      let returnCalc :=
        match inputType with
        | daily => JSDate.setDate zone returnCalc (JSDate.getDate zone returnCalc + days)
        | weekly =>
            JSDate.setDate zone returnCalc (JSDate.getDate zone returnCalc + weeks * 7)
        end in
      Some (JSDate.toISODate returnCalc)
  | None => returnDate
  end.

(** ** Contact messages

    [createContactMessage] of [lib/supabase.ts]: the message goes to the
    table [contacts], and to [bookings] in the shape of a booking when
    that table answers with an error. *)
Module Contact.

(** The argument of [createContactMessage]; [phone] is optional. *)
Record ContactData := {
  name : string;
  email : string;
  phone : option string;
  subject : string;
  message : string
}.

(** The values of a row: a string, a number or [null]. *)
Inductive cell :=
| text (s : string)
| number (n : Z)
| null.

Abbreviation row := (gmap string cell).

(** How the promise [createContactMessage] returns settles: it resolves,
    it rejects with [new Error(message)], or it rejects with whatever the
    client threw. *)
Inductive Outcome :=
| resolves
| throws (message : string)
| rethrows.

(** [contactData.phone || other] *)
Definition phone_or {A} (contactData : ContactData) (some : string -> A) (other : A) : A :=
  match phone contactData with
  | Some p => if nonempty p then some p else other
  | None => other
  end.

Definition contactsRow (contactData : ContactData) : row :=
  <["name" := text (name contactData)]> (
  <["email" := text (email contactData)]> (
  <["phone" := phone_or contactData text null]> (
  <["subject" := text (subject contactData)]> (
  <["message" := text (message contactData)]> (
  <["status" := text "new"]> ∅))))).

(** The contact form's data in the shape of a booking. *)
Definition bookingData (contactData : ContactData) : row :=
  <["name" := text (name contactData)]> (
  <["contact" := text (phone_or contactData id (email contactData))]> (
  <["address" := text (String.substring 0 255 (message contactData))]> (
  <["category" := text "Contact Form"]> (
  <["model" := text (subject contactData)]> (
  <["price_per_day" := number 0]> (
  <["days" := number 1]> (
  <["total_price" := number 0]> (
  <["rental_type" := text "contact"]> (
  <["status" := text ("CONTACT: " +:+ email contactData)]> ∅))))))))).

Section Client.
(** [await supabase.from(table).insert([row])] *)
Variable insert : string -> row -> InsertReply.

(** The inserts made, in order, and how the call settles. *)
Definition createContactMessage (contactData : ContactData)
  : list (string * row) * Outcome :=
  let first := ("contacts", contactsRow contactData) in
  match insert "contacts" (contactsRow contactData) with
  | insert_rejects => ([first], rethrows)
  | insert_data => ([first], resolves)
  | insert_error contactsError =>
      let second := ("bookings", bookingData contactData) in
      match insert "bookings" (bookingData contactData) with
      | insert_rejects => ([first; second], rethrows)
      | insert_data => ([first; second], resolves)
      | insert_error error =>
          ([first; second], throws ("Failed to save message: " +:+ error_message error))
      end
  end.
End Client.

End Contact.

(** * The specification's vocabulary

    What the sentences of the specification mean over the embedding, and
    the sample inputs the statements are run on. *)

(** ** Pricing *)

(** [t] is [round(x * num / den)]: the integer nearest to the product,
    a half going up. *)
Definition rounds_to (t x num den : Z) : Prop :=
  2 * den * t - den <= 2 * num * x < 2 * den * t + den.

(** That integer. *)
Definition round_half_up (x num den : Z) : Z :=
  (2 * x * num + den) / (2 * den).

(** Original prices below 2^45 rupees: the range in which the two discount
    products are the exactly rounded ones. *)
Definition exact_range (x : Z) : Prop := 0 <= x < 35184372088832.

(** Original prices that are safe integers, below 2^53: the range in which
    the integers of the embedding are the doubles of the code. *)
Definition safe_range (x : Z) : Prop := 0 <= x < 9007199254740992.

(** [s] contains the substring [sub]. *)
Definition contains (s sub : string) : Prop :=
  exists before after, s = before +:+ sub +:+ after.

(** The model qualifies for the one-day discount. *)
Definition qualifying_model (m : string) : Prop :=
  contains m "Pulsar 150" \/ contains m "Pulsar 125".

(** The duration the booking type selects. *)
Definition active_duration (formData : FormData) : Z :=
  match bookingType formData with
  | daily => days formData
  | weekly => weeks formData
  end.

(** The price per day is not negative; with no vehicle selected there is
    no price. *)
Definition nonnegative_price (bookingData : option BookingData) : Prop :=
  match bookingData with
  | Some bookingData => 0 <= pricePerDay bookingData
  | None => True
  end.

(** Both durations are within the limits the form keeps them in (and the
    validator checks). *)
Definition durations_within_limits (formData : FormData) : Prop :=
  1 <= days formData <= 30 /\ 1 <= weeks formData <= 12.

(** ** White space *)

(** The white space characters among the code units below 256: TAB, LF, VT,
    FF, CR, space and no-break space. *)
Definition white_space (c : ascii) : Prop :=
  c ∈ ["009"; "010"; "011"; "012"; "013"; " "; "160"]%char.

(** [s] with every white space character left out. *)
Definition without_white_space (s : string) : string :=
  string_of_list_ascii (filter (fun c => ~ white_space c) (list_ascii_of_string s)).

(** Every character of [s] is white space. *)
Definition blank (s : string) : Prop := Forall white_space (list_ascii_of_string s).

(** [t] is [s] without the white space at its two ends: [s] is [t] between
    two runs of white space, and [t] neither starts nor ends with white
    space. *)
Definition trimmed (s t : string) : Prop :=
  (exists before after, s = before +:+ t +:+ after /\ blank before /\ blank after) /\
  (forall c rest, t = String c rest -> ~ white_space c) /\
  (forall front c, t = front +:+ String c "" -> ~ white_space c).

(** ** Contact numbers *)

(** Every character of [s] is a decimal digit. *)
Definition all_digits (s : string) : Prop :=
  Forall (fun c => is_digit c = true) (list_ascii_of_string s).

(** A ten-digit mobile number whose first digit is 6 to 9, with or without
    the country code ["+91"] in front. *)
Definition mobile_number (t : string) : Prop :=
  exists (d : ascii) (rest : string),
    (t = String d rest \/ t = "+91" +:+ String d rest) /\
    in_range "6" "9" d = true /\
    String.length rest = 9%nat /\
    all_digits rest.

(** ** Return dates *)

(** The change is one of the pickup date or of the duration the booking
    type [t] selects. *)
Definition schedule_change (c : Change) (t : BookingType) : Prop :=
  match c, t with
  | change_pickupDate _, _ => True
  | change_days _, daily => True
  | change_weeks _, weekly => True
  | _, _ => False
  end.

(** The length of the rental in days. *)
Definition rental_days (formData : FormData) : Z :=
  match bookingType formData with
  | daily => days formData
  | weekly => weeks formData * 7
  end.

(** The two offsets the handler reads when it adds [n] days to a pickup
    date: the one in force at midnight UTC of the pickup date, and the one
    of the local time [n] days later. *)
Definition offset_at_pickup (zone : JSDate.Zone) (pickup : Z) : Z :=
  JSDate.LocalTZA zone (JSDate.of_date pickup) true.

Definition offset_at_return (zone : JSDate.Zone) (pickup n : Z) : Z :=
  JSDate.LocalTZA zone
    (JSDate.of_date pickup + offset_at_pickup zone pickup + n * JSDate.msPerDay) false.

(** The host's clock is at the same offset from UTC at both: no change to
    or from summer time falls between them. *)
Definition same_offset (zone : JSDate.Zone) (pickup n : Z) : Prop :=
  offset_at_return zone pickup n = offset_at_pickup zone pickup.

(** ** Submission *)

(** The adapters called, in order. *)
Fixpoint calls (events : list Event) : list Adapter :=
  match events with
  | [] => []
  | Call a :: rest => a :: calls rest
  | _ :: rest => calls rest
  end.

(** The world after the events [events]. *)
Definition after (events : list Event) (w : World) : World :=
  {| pendingBookings := pendingBookings w; currentStep := currentStep w;
     errors := errors w; isSubmitting := isSubmitting w;
     trace := trace w ++ events |}.

(** The world with [item] in local storage. *)
Definition with_item (item : StorageItem) (w : World) : World :=
  {| pendingBookings := item; currentStep := currentStep w;
     errors := errors w; isSubmitting := isSubmitting w; trace := trace w |}.

(** The bookings local storage holds, when it holds a sequence. *)
Definition stored (item : StorageItem) : option (list jobject) :=
  match item with
  | item_missing => Some []
  | item_array bookings => Some bookings
  | item_other => None
  end.

(** The remote store accepts the row: the credentials are there and the
    insert resolves without an error. *)
Definition remote_succeeds (host : Host) (table : string) (row : jobject) : bool :=
  negb (credentials_missing host) &&
  match supabase_insert host table row with
  | insert_data => true
  | _ => false
  end.

(** What the remote tier does besides being called: nothing without
    credentials, else one insert, and an alert when the store answers with
    an error. *)
Definition remote_events (host : Host) (table prefix : string) (row : jobject)
  : list Event :=
  if credentials_missing host then []
  else Insert table row ::
       match supabase_insert host table row with
       | insert_error error => [Alert (error_alert prefix error)]
       | _ => []
       end.

(** The relay's request does not throw. *)
Definition relay_succeeds (host : Host) (body : jobject) : bool :=
  match google_fetch host body with
  | fetch_resolves => true
  | fetch_rejects => false
  end.

(** Local storage takes the write: the item holds a sequence and
    [setItem] does not throw. *)
Definition local_succeeds (host : Host) (w : World) : bool :=
  bool_decide (is_Some (stored (pendingBookings w))) && negb (setItem_throws host).

(** What the local tier does besides being called. *)
Definition local_events (host : Host) (payload : jobject) (w : World) : list Event :=
  match stored (pendingBookings w) with
  | Some bookings =>
      [SetItem "pendingBookings" (bookings ++ [bookingWithTimestamp host payload])]
  | None => []
  end.

(** The item after the local tier ran. *)
Definition local_item (host : Host) (payload : jobject) (w : World) : StorageItem :=
  match stored (pendingBookings w) with
  | Some bookings =>
      if setItem_throws host then pendingBookings w
      else item_array (bookings ++ [bookingWithTimestamp host payload])
  | None => pendingBookings w
  end.

#[local] Instance Adapter_eq_dec : EqDecision Adapter.
Proof. solve_decision. Defined.

(** The remote adapter, the table and the alert prefix of a booking type. *)
Definition remote_adapter (t : BookingType) : Adapter :=
  match t with daily => remote_daily | weekly => remote_weekly end.

Definition remote_table (t : BookingType) : string :=
  match t with daily => "bookings" | weekly => "weekly_bookings" end.

Definition remote_prefix (t : BookingType) : string :=
  match t with
  | daily => "Supabase Error: "
  | weekly => "Weekly Booking Supabase Error: "
  end.

(** The row a submission sends to the remote store. *)
Definition remote_row (bookingData : BookingData) (formData : FormData) : jobject :=
  match bookingType formData with
  | daily => bookingPayload (supabasePayload bookingData formData)
  | weekly => weeklyPayload bookingData formData
  end.

(** Two hosts that differ at most in the credentials and in what the
    remote store answers. *)
Definition same_fallbacks (host host' : Host) : Prop :=
  (forall body, google_fetch host body = google_fetch host' body) /\
  setItem_throws host = setItem_throws host' /\
  Date_now host = Date_now host'.

(** ** Sample inputs *)

(** A bike that qualifies for the one-day discount. *)
Definition pulsar150 : BookingData :=
  {| category := "Bike"; model := "Bajaj Pulsar 150"; pricePerDay := 550 |}.

(** A scooter that does not. *)
Definition activa : BookingData :=
  {| category := "Scooter"; model := "Honda Activa 6G"; pricePerDay := 550 |}.

(** A filled-in form of the given type, duration and dates. *)
Definition sample_form (t : BookingType) (d w : Z) (pickup ret : option Z) : FormData :=
  {| name := "Asha Rao"; contact := "98765 43210";
     address := "12 MG Road, Bengaluru"; days := d; bookingType := t; weeks := w;
     pickupDate := pickup; returnDate := ret;
     pickupTime := Some (hm 9 0); returnTime := Some (hm 18 0) |}.

(** Central European time around the change to summer time of 2025: one
    hour ahead of UTC, and two hours from 30 March 2025, 01:00 UTC, when the
    local time 02:00 becomes 03:00.  (The change back in October is left
    out: the zone is the host's for dates before it.) *)
Definition central_europe_2025 : JSDate.Zone :=
  let change := JSDate.of_date (ymd 2025 3 30) + 3600000 in
  {| JSDate.LocalTZA := fun t isUTC =>
       if isUTC then (if t <? change then 3600000 else 7200000)
       else (if t <? change + 7200000 then 3600000 else 7200000) |}.

(** The world when the modal has just opened and nothing is stored. *)
Definition initial_world : World :=
  {| pendingBookings := item_missing; currentStep := form; errors := ∅;
     isSubmitting := false; trace := [] |}.

(** A configured browser that is off line: the insert and the relay's
    request both reject, local storage works. *)
Definition offline_host : Host :=
  {| VITE_SUPABASE_URL := Some "https://project.supabase.co";
     VITE_SUPABASE_ANON_KEY := Some "anon-key";
     supabase_insert := fun _ _ => insert_rejects;
     google_fetch := fun _ => fetch_rejects;
     setItem_throws := false;
     Date_now := 1736899200123 |}.

(** The same browser with local storage full: [setItem] throws. *)
Definition full_storage_host : Host :=
  {| VITE_SUPABASE_URL := Some "https://project.supabase.co";
     VITE_SUPABASE_ANON_KEY := Some "anon-key";
     supabase_insert := fun _ _ => insert_rejects;
     google_fetch := fun _ => fetch_rejects;
     setItem_throws := true;
     Date_now := 1736899200123 |}.

(** The same browser without the two [VITE_SUPABASE_] variables. *)
Definition unconfigured_host : Host :=
  {| VITE_SUPABASE_URL := None;
     VITE_SUPABASE_ANON_KEY := None;
     supabase_insert := fun _ _ => insert_rejects;
     google_fetch := fun _ => fetch_rejects;
     setItem_throws := false;
     Date_now := 1736899200123 |}.

(** ** Names and accepted forms *)

(** A letter of [a-zA-Z]. *)
Definition is_letter (c : ascii) : bool := in_range "a" "z" c || in_range "A" "Z" c.

(** Every character of [s] is a letter or white space. *)
Definition letters_and_spaces (s : string) : Prop :=
  Forall (fun c => is_letter c || is_space c = true) (list_ascii_of_string s).

(** No key of the table holds [undefined]. *)
Definition no_undefined (errs : FormErrors) : Prop :=
  forall key, errs !! key <> Some None.

(** Two tables hold the same under [key]. *)
Definition same_at (key : string) (errs errs' : FormErrors) : Prop :=
  errs !! key = errs' !! key.

(** What a form has to satisfy: a name that, without the white space at
    its ends, has 2 to 60 letters and spaces, a contact that is a mobile
    number once its white space is left out, an address of 10 characters or
    more between its ends, a pickup date not before the local midnight of
    today, and, for a weekly booking, 1 to 12 weeks and a return date after
    pickup within 2 days of weeks * 7; for a daily booking, 1 to 30 days, a
    return date not before pickup, both times, and the return moment (the
    local date and time) after the pickup moment. *)
Definition acceptable (zone : JSDate.Zone) (now : Z) (formData : FormData) : Prop :=
  (exists fullName, trimmed (name formData) fullName /\
                    2 <= strlen fullName <= 60 /\ letters_and_spaces fullName) /\
  mobile_number (without_white_space (contact formData)) /\
  (exists street, trimmed (address formData) street /\ 10 <= strlen street) /\
  exists pickup ret,
    pickupDate formData = Some pickup /\
    returnDate formData = Some ret /\
    JSDate.local_midnight zone now <= JSDate.of_date pickup /\
    match bookingType formData with
    | weekly =>
        1 <= weeks formData <= 12 /\
        pickup < ret /\ Z.abs (ret - pickup - weeks formData * 7) <= 2
    | daily =>
        1 <= days formData <= 30 /\
        pickup <= ret /\
        exists pt rt,
          pickupTime formData = Some pt /\ returnTime formData = Some rt /\
          JSDate.of_local zone pickup pt < JSDate.of_local zone ret rt
    end.

(** The same in terms of [trim] and [strip_spaces], the way the proofs use
    it. *)
Definition checks_hold (zone : JSDate.Zone) (now : Z) (formData : FormData) : Prop :=
  (2 <= strlen (trim (name formData)) <= 60 /\
   letters_and_spaces (trim (name formData))) /\
  mobile_number (strip_spaces (contact formData)) /\
  10 <= strlen (trim (address formData)) /\
  exists pickup ret,
    pickupDate formData = Some pickup /\
    returnDate formData = Some ret /\
    JSDate.local_midnight zone now <= JSDate.of_date pickup /\
    match bookingType formData with
    | weekly =>
        1 <= weeks formData <= 12 /\
        pickup < ret /\ Z.abs (ret - pickup - weeks formData * 7) <= 2
    | daily =>
        1 <= days formData <= 30 /\
        pickup <= ret /\
        exists pt rt,
          pickupTime formData = Some pt /\ returnTime formData = Some rt /\
          JSDate.of_local zone pickup pt < JSDate.of_local zone ret rt
    end.

(** ** Durations *)

(** The number a run of decimal digits writes. *)
Definition decimal (s : string) : Z :=
  fold_left (fun acc c => acc * 10 + (code c - 48)) (list_ascii_of_string s) 0.

(** [n] brought into the range from [lo] to [hi]. *)
Definition clamp (lo hi n : Z) : Z := Z.max lo (Z.min hi n).

(** Filling in the form from the top: name, booking type, contact,
    address, duration, pickup date. *)
Definition fill_in (fullName : string) (t : BookingType)
    (phone street typed : string) (pickup : Z) : list UIEvent :=
  [input_name fullName; click_bookingType t; input_contact phone; input_address street;
   input_duration typed; input_pickupDate (Some pickup)].

(** ** Rows and payloads *)

(** An event other than the alert that asks to contact the shop. *)
Definition not_support (e : Event) : Prop := e <> Alert support_directive.

(** The columns of a row of the table [bookings] that [submitToSupabase]
    can send. *)
Definition booking_columns : list string :=
  ["name"; "contact"; "address"; "category"; "model"; "price_per_day"; "status";
   "rental_type"; "days"; "total_price"; "pickup_date"; "return_date";
   "pickup_time"; "return_time"].

(** The fields of the payload that the relay and local storage get for a
    daily booking. *)
Definition common_fields : list string :=
  ["name"; "contact"; "address"; "category"; "model"; "pricePerDay"; "days";
   "totalPrice"; "timestamp"].

(** The columns of [row] hold what the validator has checked on the
    form: the name and the address without the white space at their ends,
    the contact without any white space, the two dates, and the
    duration. *)
Definition validated_columns (formData : FormData) (row : jobject) : Prop :=
  exists (fullName street : string) (pickup ret : Z),
    trimmed (name formData) fullName /\
    row !! "name" = Some (JStr fullName) /\
    2 <= strlen fullName <= 60 /\ letters_and_spaces fullName /\
    row !! "contact" = Some (JStr (without_white_space (contact formData))) /\
    mobile_number (without_white_space (contact formData)) /\
    trimmed (address formData) street /\
    row !! "address" = Some (JStr street) /\ 10 <= strlen street /\
    pickupDate formData = Some pickup /\
    returnDate formData = Some ret /\
    row !! "pickup_date" = Some (JStr (JSDate.date_string pickup)) /\
    row !! "return_date" = Some (JStr (JSDate.date_string ret)) /\
    row !! "status" = Some (JStr "pending") /\
    match bookingType formData with
    | daily =>
        pickup <= ret /\
        row !! "days" = Some (JNum (days formData)) /\ 1 <= days formData <= 30
    | weekly =>
        pickup < ret /\
        row !! "weeks" = Some (JNum (weeks formData)) /\ 1 <= weeks formData <= 12 /\
        Z.abs (ret - pickup - weeks formData * 7) <= 2
    end.

(** Bookings saved to local storage one after the other, each in the
    browser as it is at that time. *)
Definition save_all (saves : list (Host * jobject)) (w : World) : World :=
  fold_left (fun w save => snd (storeBookingLocally (fst save) (snd save) w)) saves w.

(** * Properties *)

(** ** Rounding *)

Lemma round_half_up_rounds x num den :
  0 < den -> rounds_to (round_half_up x num den) x num den.
Proof.
  intros Hden. unfold rounds_to, round_half_up.
  pose proof (Z.div_mod (2 * x * num + den) (2 * den) ltac:(lia)) as Hdm.
  pose proof (Z.mod_pos_bound (2 * x * num + den) (2 * den) ltac:(lia)) as Hb.
  lia.
Qed.

Lemma rounds_to_unique t t' x num den :
  0 < den -> rounds_to t x num den -> rounds_to t' x num den -> t = t'.
Proof. unfold rounds_to. intros. nia. Qed.

Lemma round_half_up_bounds x num den :
  0 < den -> 0 <= num <= den -> 0 <= x ->
  0 <= round_half_up x num den <= x.
Proof.
  intros Hden Hnum Hx. unfold round_half_up. split.
  - apply Z.div_pos; nia.
  - destruct (Z.eq_dec x 0) as [->|Hx0].
    + rewrite Z.mul_0_r, Z.mul_0_l, Z.add_0_l. rewrite Z.div_small; lia.
    + apply Z.lt_succ_r. apply Z.div_lt_upper_bound; nia.
Qed.

(** ** Binary64: the two discount products *)

Lemma digits2_pos_bounds p :
  2 ^ (Zpos (digits2_pos p) - 1) <= Zpos p < 2 ^ Zpos (digits2_pos p).
Proof.
  induction p as [p IH|p IH|]; cbn [digits2_pos];
    [| | split; [apply Z.leb_le | apply Z.ltb_lt]; reflexivity].
  - rewrite Pos2Z.inj_succ.
    replace (Z.succ (Zpos (digits2_pos p)) - 1) with (Z.succ (Zpos (digits2_pos p) - 1))
      by lia.
    rewrite !Z.pow_succ_r by lia. lia.
  - rewrite Pos2Z.inj_succ.
    replace (Z.succ (Zpos (digits2_pos p)) - 1) with (Z.succ (Zpos (digits2_pos p) - 1))
      by lia.
    rewrite !Z.pow_succ_r by lia. lia.
Qed.

Lemma digits2_pos_unique p d :
  2 ^ (d - 1) <= Zpos p < 2 ^ d -> Zpos (digits2_pos p) = d.
Proof.
  intros [Hlo Hhi]. pose proof (digits2_pos_bounds p) as [Hlo' Hhi'].
  assert (0 < d).
  { destruct (Z.le_gt_cases d 0) as [Hd|Hd]; [| done].
    assert (2 ^ d <= 2 ^ 0) by (apply Z.pow_le_mono_r; lia). simpl in *. lia. }
  destruct (Z.lt_trichotomy (Zpos (digits2_pos p)) d) as [Hlt | [Heq | Hgt]]; [| done |].
  - assert (2 ^ Zpos (digits2_pos p) <= 2 ^ (d - 1)) by (apply Z.pow_le_mono_r; lia). lia.
  - assert (2 ^ d <= 2 ^ (Zpos (digits2_pos p) - 1)) by (apply Z.pow_le_mono_r; lia). lia.
Qed.

Lemma shr_1_m mrs : 0 <= shr_m mrs -> shr_m (shr_1 mrs) = shr_m mrs / 2.
Proof.
  destruct mrs as [m r s]. cbn [shr_m]. intros Hm. unfold shr_1.
  destruct m as [|[p|p|]|p]; cbn [shr_m]; try reflexivity; try lia.
  - apply Z.div_unique with 1; lia.
  - apply Z.div_unique with 0; lia.
Qed.

Lemma iter_shr_1_m n mrs :
  0 <= shr_m mrs -> shr_m (SpecFloat.iter_pos shr_1 n mrs) = shr_m mrs / 2 ^ Zpos n.
Proof.
  revert mrs. induction n as [n IH|n IH|]; intros mrs Hm; cbn [SpecFloat.iter_pos].
  - assert (Hp : 0 < 2 ^ Zpos n) by (apply Z.pow_pos_nonneg; lia).
    assert (H1 : 0 <= shr_m (shr_1 mrs)) by (rewrite shr_1_m by done; apply Z.div_pos; lia).
    assert (H2 : 0 <= shr_m (SpecFloat.iter_pos shr_1 n (shr_1 mrs)))
      by (rewrite IH by done; apply Z.div_pos; lia).
    rewrite IH, IH, shr_1_m by done.
    rewrite !Z.div_div by lia. f_equal.
    replace (Zpos n~1) with (1 + Zpos n + Zpos n) by lia.
    rewrite !Z.pow_add_r by lia. change (2 ^ 1) with 2. lia.
  - assert (Hp : 0 < 2 ^ Zpos n) by (apply Z.pow_pos_nonneg; lia).
    assert (H2 : 0 <= shr_m (SpecFloat.iter_pos shr_1 n mrs))
      by (rewrite IH by done; apply Z.div_pos; lia).
    rewrite IH, IH by done. rewrite Z.div_div by lia. f_equal.
    replace (Zpos n~0) with (Zpos n + Zpos n) by lia.
    rewrite Z.pow_add_r by lia. lia.
  - by apply shr_1_m.
Qed.

Lemma shr_fexp_shift m e k :
  -1074 <= Zdigits2 m + e - 53 ->
  Zdigits2 m - 53 = Zpos k ->
  shr_fexp 53 1024 m e loc_Exact =
  (SpecFloat.iter_pos shr_1 k (Build_shr_record m false false), e + Zpos k).
Proof.
  intros Hmin Hk. unfold shr_fexp, fexp, emin, shr_record_of_loc.
  replace (Z.sub (Z.max (Z.sub (Z.add (Zdigits2 m) e) 53)
                    (Z.sub (Z.sub 3 1024) 53)) e) with (Zpos k) by lia.
  reflexivity.
Qed.

Lemma shr_fexp_noshift m e :
  Zdigits2 m = 53 -> -1074 <= e ->
  shr_fexp 53 1024 m e loc_Exact = (Build_shr_record m false false, e).
Proof.
  intros Hd Hmin. unfold shr_fexp, fexp, emin, shr_record_of_loc.
  replace (Z.sub (Z.max (Z.sub (Z.add (Zdigits2 m) e) 53)
                    (Z.sub (Z.sub 3 1024) 53)) e) with 0 by lia.
  reflexivity.
Qed.

Lemma round_nearest_even_bounds m l :
  m <= round_nearest_even m l <= m + 1.
Proof.
  unfold round_nearest_even. destruct l as [|[]]; try lia.
  destruct (Z.even m); lia.
Qed.

(** Rounding a positive integer of more than 53 bits to binary64: the
    mantissa is the integer shifted down to 53 bits, or one more. *)
Lemma binary_round_aux_shift (m : positive) (e : Z) (k : positive) :
  Zpos (digits2_pos m) - 53 = Zpos k ->
  -1074 <= e + Zpos k ->
  e + Zpos k + 1 <= 1024 - 53 ->
  exists (M : positive) (s : Z),
    binary_round_aux 53 1024 false (Zpos m) e loc_Exact =
      S754_finite false M (e + Zpos k + s) /\
    0 <= s <= 1 /\
    Zpos m / 2 ^ Zpos k <= Zpos M * 2 ^ s <= Zpos m / 2 ^ Zpos k + 1.
Proof.
  intros Hk Hmin Hmax.
  pose proof (digits2_pos_bounds m) as [Hlo Hhi].
  assert (Hpk : 0 < 2 ^ Zpos k) by (apply Z.pow_pos_nonneg; lia).
  set (m' := Zpos m / 2 ^ Zpos k).
  assert (Hm' : 4503599627370496 <= m' < 9007199254740992).
  { change 4503599627370496 with (2 ^ 52). change 9007199254740992 with (2 ^ 53).
    unfold m'. replace (Zpos (digits2_pos m)) with (53 + Zpos k) in Hhi by lia.
    replace (Zpos (digits2_pos m) - 1) with (52 + Zpos k) in Hlo by lia.
    rewrite Z.pow_add_r in Hlo, Hhi by lia. split.
    - apply Z.div_le_lower_bound; lia.
    - apply Z.div_lt_upper_bound; lia. }
  unfold binary_round_aux.
  rewrite (shr_fexp_shift (Zpos m) e k) by (simpl; lia).
  set (mrs' := SpecFloat.iter_pos shr_1 k (Build_shr_record (Zpos m) false false)).
  assert (Hshr : shr_m mrs' = m') by (unfold mrs'; by rewrite iter_shr_1_m).
  pose proof (round_nearest_even_bounds (shr_m mrs') (loc_of_shr_record mrs')) as Hrne.
  destruct (round_nearest_even (shr_m mrs') (loc_of_shr_record mrs')) as [|M1|M1];
    rewrite Hshr in Hrne; [lia | | lia].
  destruct (Z.eq_dec (Zpos M1) 9007199254740992) as [Hcarry | Hnocarry].
  - assert (Hd : Zdigits2 (Zpos M1) = 54).
    { cbn [Zdigits2]. apply digits2_pos_unique. rewrite Hcarry.
      split; [apply Z.leb_le | apply Z.ltb_lt]; reflexivity. }
    rewrite (shr_fexp_shift (Zpos M1) (e + Zpos k) 1) by lia.
    cbn [SpecFloat.iter_pos]. rewrite Hcarry. cbn [shr_1 shr_m].
    replace (Z.leb (e + Zpos k + 1) (Z.sub 1024 53)) with true
      by (symmetry; apply Z.leb_le; lia).
    exists 4503599627370496%positive, 1. split; [done |]. split; [lia |].
    fold m'. change (2 ^ 1) with 2. lia.
  - assert (Hd : Zdigits2 (Zpos M1) = 53).
    { cbn [Zdigits2]. apply digits2_pos_unique.
      change (2 ^ (53 - 1)) with 4503599627370496.
      change (2 ^ 53) with 9007199254740992. lia. }
    rewrite (shr_fexp_noshift (Zpos M1) (e + Zpos k)) by (done || lia).
    cbn [shr_m].
    replace (Z.leb (e + Zpos k) (Z.sub 1024 53)) with true
      by (symmetry; apply Z.leb_le; lia).
    exists M1, 0. rewrite Z.add_0_r. split; [done |]. split; [lia |].
    fold m'. change (2 ^ 0) with 1. lia.
Qed.

Lemma binary_round_aux_exact (m : positive) (e : Z) :
  Zpos (digits2_pos m) = 53 -> -1074 <= e <= 971 ->
  binary_round_aux 53 1024 false (Zpos m) e loc_Exact = S754_finite false m e.
Proof.
  intros Hd He. unfold binary_round_aux.
  rewrite (shr_fexp_noshift (Zpos m) e) by (done || lia).
  cbn [shr_m loc_of_shr_record round_nearest_even].
  rewrite (shr_fexp_noshift (Zpos m) e) by (done || lia).
  cbn [shr_m]. replace (Z.leb e (Z.sub 1024 53)) with true
    by (symmetry; apply Z.leb_le; lia).
  reflexivity.
Qed.

Lemma iter_xO p n : Zpos (Pos.iter xO p n) = Zpos p * 2 ^ Zpos n.
Proof.
  induction n as [|n IH] using Pos.peano_ind.
  - simpl. lia.
  - rewrite Pos.iter_succ, Pos2Z.inj_succ, Z.pow_succ_r by lia.
    change (Zpos (Pos.iter xO p n)~0) with (2 * Zpos (Pos.iter xO p n)). lia.
Qed.

(** An integer below 2^53 is a double: its mantissa is the integer
    shifted up to 53 bits. *)
Lemma of_Z_small x :
  0 < x < 9007199254740992 ->
  exists (mz : positive) (ez : Z),
    Binary64.of_Z x = S754_finite false mz ez /\
    Zpos mz = x * 2 ^ (- ez) /\
    -52 <= ez <= 0 /\
    Zpos (digits2_pos mz) = 53.
Proof.
  intros Hx. destruct x as [|p|p]; [lia | | lia].
  pose proof (digits2_pos_bounds p) as [Hlo Hhi].
  set (d := Zpos (digits2_pos p)) in *.
  assert (Hd : 1 <= d <= 53).
  { split; [unfold d; lia |].
    destruct (Z.le_gt_cases d 53) as [|Hgt]; [done |].
    assert (2 ^ 53 <= 2 ^ (d - 1)) by (apply Z.pow_le_mono_r; lia).
    change (2 ^ 53) with 9007199254740992 in *. lia. }
  unfold Binary64.of_Z, binary_normalize, binary_round, Binary64.prec, Binary64.emax.
  unfold fexp, emin. fold d.
  replace (Z.max (Z.sub (Z.add d 0) 53) (Z.sub (Z.sub 3 1024) 53)) with (d - 53) by lia.
  unfold shl_align.
  destruct (Z.sub (d - 53) 0) as [|n|n] eqn:Hn; [| lia |].
  - assert (d = 53) by lia.
    rewrite binary_round_aux_exact by (fold d; lia).
    exists p, 0. split; [done |]. split; [simpl; lia |]. split; [lia | done].
  - assert (Hdn : d = 53 - Zpos n) by lia.
    assert (Hm : Zpos (Pos.iter xO p n) = Zpos p * 2 ^ Zpos n) by apply iter_xO.
    assert (Hdig : Zpos (digits2_pos (Pos.iter xO p n)) = 53).
    { apply digits2_pos_unique. rewrite Hm.
      assert (E1 : 2 ^ (d - 1) * 2 ^ Zpos n = 2 ^ (53 - 1))
        by (rewrite <- Z.pow_add_r by lia; f_equal; lia).
      assert (E2 : 2 ^ d * 2 ^ Zpos n = 2 ^ 53)
        by (rewrite <- Z.pow_add_r by lia; f_equal; lia).
      assert (0 < 2 ^ Zpos n) by (apply Z.pow_pos_nonneg; lia).
      rewrite <- E1, <- E2.
      split; [apply Z.mul_le_mono_nonneg_r | apply Z.mul_lt_mono_pos_r]; lia. }
    rewrite binary_round_aux_exact by (done || lia).
    exists (Pos.iter xO p n), (d - 53). split; [done |].
    split; [rewrite Hm; f_equal; f_equal; lia |]. split; [lia | done].
Qed.

Lemma div_between a b q : 0 < b -> q * b <= a < (q + 1) * b -> a / b = q.
Proof. intros Hb H. symmetry. apply Z.div_unique with (a - q * b); lia. Qed.

(** The product of an integer below 2^45 and a double of [0.5, 1), rounded
    to a double and then to an integer by [Math.round], in terms of the
    53-bit mantissa [M] of the rounded product. *)
Lemma round_mul_value (C : positive) (x : Z) :
  4503599627370496 <= Zpos C < 9007199254740992 ->
  0 < x < 35184372088832 ->
  exists (M R c p : Z),
    Binary64.round_mul x (S754_finite false C (-53)) =
      Some ((2 * M + R * c) / (2 * (R * c))) /\
    128 <= R /\
    4503599627370496 <= 2 * (x * R) < 9007199254740992 /\
    ((c = 4 /\ p = 4503599627370496 /\ (2 * (x * R) * Zpos C) / p <= M <= (2 * (x * R) * Zpos C) / p + 1) \/
     (c = 2 /\ p = 4503599627370496 /\ (2 * (x * R) * Zpos C) / p <= 2 * M <= (2 * (x * R) * Zpos C) / p + 1) \/
     (c = 2 /\ p = 9007199254740992 /\ (2 * (x * R) * Zpos C) / p <= M <= (2 * (x * R) * Zpos C) / p + 1) \/
     (c = 1 /\ p = 9007199254740992 /\ (2 * (x * R) * Zpos C) / p <= 2 * M <= (2 * (x * R) * Zpos C) / p + 1)).
Proof.
  intros HC Hx.
  destruct (of_Z_small x ltac:(lia)) as (mz & ez & Hof & Hmz & Hez & Hdig).
  pose proof (digits2_pos_bounds mz) as Hbmz. rewrite Hdig in Hbmz.
  change (2 ^ (53 - 1)) with 4503599627370496 in Hbmz.
  change (2 ^ 53) with 9007199254740992 in Hbmz.
  (* the exponent is at most -8 *)
  assert (Hez8 : ez <= -8).
  { destruct (Z.le_gt_cases ez (-8)) as [|Hgt]; [done |].
    assert (2 ^ (- ez) <= 2 ^ 7) by (apply Z.pow_le_mono_r; lia).
    change (2 ^ 7) with 128 in *. nia. }
  set (R := 2 ^ (- ez - 1)).
  assert (HR : 128 <= R).
  { change 128 with (2 ^ 7). apply Z.pow_le_mono_r; lia. }
  assert (HP : 2 ^ (- ez) = 2 * R).
  { unfold R. rewrite <- Z.pow_succ_r by lia. f_equal. lia. }
  assert (Hmz' : Zpos mz = 2 * (x * R)) by (rewrite Hmz, HP; lia).
  (* the product of the mantissas has 105 or 106 bits *)
  pose proof (digits2_pos_bounds (mz * C)) as Hbp.
  assert (Hprod : 2 ^ 104 <= Zpos (mz * C) < 2 ^ 106).
  { rewrite Pos2Z.inj_mul.
    change (2 ^ 104) with (4503599627370496 * 4503599627370496).
    change (2 ^ 106) with (9007199254740992 * 9007199254740992). nia. }
  assert (HD : Zpos (digits2_pos (mz * C)) = 105 \/ Zpos (digits2_pos (mz * C)) = 106).
  { destruct (Z.lt_ge_cases (Zpos (mz * C)) (2 ^ 105)).
    - left. apply digits2_pos_unique. change (105 - 1) with 104. lia.
    - right. apply digits2_pos_unique. change (106 - 1) with 105. lia. }
  unfold Binary64.round_mul, Binary64.mul. rewrite Hof.
  unfold SFmul, Binary64.prec, Binary64.emax. cbn [xorb].
  destruct HD as [HD | HD].
  - destruct (binary_round_aux_shift (mz * C) (ez + -53) 52)
      as (M & s & Hres & Hs & HM); [lia | lia | lia |].
    rewrite Hres. unfold Binary64.Math_round.
    rewrite Pos2Z.inj_mul, Hmz' in HM.
    change (2 ^ Zpos 52) with 4503599627370496 in HM.
    replace (0 <=? ez + -53 + 52 + s) with false by (symmetry; apply Z.leb_gt; lia).
    assert (Hs' : s = 0 \/ s = 1) by lia. destruct Hs' as [-> | ->].
    + exists (Zpos M), R, 4, 4503599627370496. split.
      { f_equal. f_equal.
        - f_equal. unfold R. replace (- (ez + -53 + 52 + 0)) with ((- ez - 1) + 2) by lia.
          by rewrite Z.pow_add_r by lia.
        - unfold R. replace (1 - (ez + -53 + 52 + 0)) with (1 + ((- ez - 1) + 2)) by lia.
          by rewrite !Z.pow_add_r by lia. }
      split; [done |]. split; [lia |]. left. change (2 ^ 0) with 1 in HM. lia.
    + exists (Zpos M), R, 2, 4503599627370496. split.
      { f_equal. f_equal.
        - f_equal. unfold R. replace (- (ez + -53 + 52 + 1)) with ((- ez - 1) + 1) by lia.
          by rewrite Z.pow_add_r by lia.
        - unfold R. replace (1 - (ez + -53 + 52 + 1)) with (1 + ((- ez - 1) + 1)) by lia.
          by rewrite !Z.pow_add_r by lia. }
      split; [done |]. split; [lia |]. right. left. change (2 ^ 1) with 2 in HM. lia.
  - destruct (binary_round_aux_shift (mz * C) (ez + -53) 53)
      as (M & s & Hres & Hs & HM); [lia | lia | lia |].
    rewrite Hres. unfold Binary64.Math_round.
    rewrite Pos2Z.inj_mul, Hmz' in HM.
    change (2 ^ Zpos 53) with 9007199254740992 in HM.
    replace (0 <=? ez + -53 + 53 + s) with false by (symmetry; apply Z.leb_gt; lia).
    assert (Hs' : s = 0 \/ s = 1) by lia. destruct Hs' as [-> | ->].
    + exists (Zpos M), R, 2, 9007199254740992. split.
      { f_equal. f_equal.
        - f_equal. unfold R. replace (- (ez + -53 + 53 + 0)) with ((- ez - 1) + 1) by lia.
          by rewrite Z.pow_add_r by lia.
        - unfold R. replace (1 - (ez + -53 + 53 + 0)) with (1 + ((- ez - 1) + 1)) by lia.
          by rewrite !Z.pow_add_r by lia. }
      split; [done |]. split; [lia |]. right. right. left.
      change (2 ^ 0) with 1 in HM. lia.
    + exists (Zpos M), R, 1, 9007199254740992. split.
      { f_equal. f_equal.
        - f_equal. unfold R. replace (- (ez + -53 + 53 + 1)) with (- ez - 1) by lia. lia.
        - unfold R. replace (1 - (ez + -53 + 53 + 1)) with (1 + (- ez - 1)) by lia.
          rewrite !Z.pow_add_r by lia. lia. }
      split; [done |]. split; [lia |]. right. right. right.
      change (2 ^ 1) with 2 in HM. lia.
Qed.

Ltac round_mul_exact C num den :=
  match goal with
  | Hx : 0 <= ?x < _ |- Binary64.round_mul ?x _ = _ =>
      destruct (Z.eq_dec x 0) as [-> | Hx0]; [reflexivity |];
      destruct (round_mul_value C x) as (M & R & c & p & -> & HR & HxR & HM);
        [lia | lia |];
      f_equal; unfold round_half_up;
      set (q := (2 * x * num + den) / (2 * den));
      assert (Hq : q * (2 * den) <= 2 * x * num + den < (q + 1) * (2 * den))
        by (unfold q; Z.div_mod_to_equations; lia);
      assert (Hq1 : q * R * (2 * den) <= 2 * (x * R) * num + den * R) by nia;
      assert (Hq2 : 2 * (x * R) * num + den * R + R <= (q * R + R) * (2 * den)) by nia;
      apply div_between; [nia |];
      destruct HM as [(-> & -> & HM) | [(-> & -> & HM) | [(-> & -> & HM) | (-> & -> & HM)]]];
      revert HM; Z.div_mod_to_equations; lia
  end.

(** [Math.round(x * 0.65)] in binary64 is the exact rounding, for every
    integer [x] from 0 up to 2^45. *)
Lemma round_mul_0_65 x :
  0 <= x < 35184372088832 ->
  Binary64.round_mul x Binary64.lit_0_65 = Some (round_half_up x 65 100).
Proof.
  intros Hx. unfold Binary64.lit_0_65.
  round_mul_exact 5854679515581645%positive 65 100.
Qed.

(** [Math.round(x * 0.9)] in binary64 is the exact rounding, for every
    integer [x] from 0 up to 2^45. *)
Lemma round_mul_0_9 x :
  0 <= x < 35184372088832 ->
  Binary64.round_mul x Binary64.lit_0_9 = Some (round_half_up x 9 10).
Proof.
  intros Hx. unfold Binary64.lit_0_9.
  round_mul_exact 8106479329266893%positive 9 10.
Qed.

(** The same product for every integer from 10 up to 2^53 and a double of
    [0.5, 0.9]: it is not above the integer. *)
Lemma round_mul_le (C : positive) (x : Z) :
  4503599627370496 <= Zpos C <= 8106479329266893 ->
  10 <= x < 9007199254740992 ->
  exists t, Binary64.round_mul x (S754_finite false C (-53)) = Some t /\ 0 <= t <= x.
Proof.
  intros HC Hx.
  destruct (of_Z_small x ltac:(lia)) as (mz & ez & Hof & Hmz & Hez & Hdig).
  pose proof (digits2_pos_bounds mz) as Hbmz. rewrite Hdig in Hbmz.
  change (2 ^ (53 - 1)) with 4503599627370496 in Hbmz.
  change (2 ^ 53) with 9007199254740992 in Hbmz.
  set (P := 2 ^ (- ez)) in *.
  assert (HP : 1 <= P) by (unfold P; change 1 with (2 ^ 0); apply Z.pow_le_mono_r; lia).
  pose proof (digits2_pos_bounds (mz * C)) as Hbp.
  assert (Hprod : 2 ^ 104 <= Zpos (mz * C) < 2 ^ 106).
  { rewrite Pos2Z.inj_mul.
    change (2 ^ 104) with (4503599627370496 * 4503599627370496).
    change (2 ^ 106) with (9007199254740992 * 9007199254740992). nia. }
  assert (HD : Zpos (digits2_pos (mz * C)) = 105 \/ Zpos (digits2_pos (mz * C)) = 106).
  { destruct (Z.lt_ge_cases (Zpos (mz * C)) (2 ^ 105)).
    - left. apply digits2_pos_unique. change (105 - 1) with 104. lia.
    - right. apply digits2_pos_unique. change (106 - 1) with 105. lia. }
  assert (HyC : Zpos mz * Zpos C <= Zpos mz * 8106479329266893)
    by (apply Z.mul_le_mono_nonneg_l; lia).
  unfold Binary64.round_mul, Binary64.mul. rewrite Hof.
  unfold SFmul, Binary64.prec, Binary64.emax. cbn [xorb].
  destruct HD as [HD | HD].
  - destruct (binary_round_aux_shift (mz * C) (ez + -53) 52)
      as (M & s & Hres & Hs & HM); [lia | lia | lia |].
    rewrite Hres. unfold Binary64.Math_round. eexists. split; [reflexivity |].
    rewrite Pos2Z.inj_mul in HM.
    change (2 ^ Zpos 52) with 4503599627370496 in HM.
    assert (HM' : Zpos M * 2 ^ s * 4503599627370496
                  <= Zpos mz * 8106479329266893 + 4503599627370496).
    { destruct HM as [_ HM]. revert HM. Z.div_mod_to_equations. lia. }
    assert (Hs' : s = 0 \/ s = 1) by lia. destruct Hs' as [-> | ->].
    + change (2 ^ 0) with 1 in HM'.
      replace (0 <=? ez + -53 + 52 + 0) with false by (symmetry; apply Z.leb_gt; lia).
      replace (2 ^ (- (ez + -53 + 52 + 0))) with (2 * P)
        by (unfold P; rewrite <- Z.pow_succ_r by lia; f_equal; lia).
      replace (2 ^ (1 - (ez + -53 + 52 + 0))) with (2 * (2 * P))
        by (unfold P; rewrite <- !Z.pow_succ_r by lia; f_equal; lia).
      split; [apply Z.div_pos; lia |].
      apply Z.lt_succ_r, Z.div_lt_upper_bound; [lia |].
      replace (2 * (2 * P) * Z.succ x) with (4 * Zpos mz + 4 * P) by lia. lia.
    + change (2 ^ 1) with 2 in HM'.
      destruct (Z.eq_dec ez 0) as [Hez0 | Hez0].
      * replace (0 <=? ez + -53 + 52 + 1) with true by (symmetry; apply Z.leb_le; lia).
        replace (ez + -53 + 52 + 1) with 0 by lia.
        assert (P = 1) by (unfold P; by rewrite Hez0). lia.
      * replace (0 <=? ez + -53 + 52 + 1) with false by (symmetry; apply Z.leb_gt; lia).
        replace (2 ^ (- (ez + -53 + 52 + 1))) with P by (unfold P; f_equal; lia).
        replace (2 ^ (1 - (ez + -53 + 52 + 1))) with (2 * P)
          by (unfold P; rewrite <- Z.pow_succ_r by lia; f_equal; lia).
        split; [apply Z.div_pos; lia |].
        apply Z.lt_succ_r, Z.div_lt_upper_bound; [lia |].
        replace (2 * P * Z.succ x) with (2 * Zpos mz + 2 * P) by lia. lia.
  - destruct (binary_round_aux_shift (mz * C) (ez + -53) 53)
      as (M & s & Hres & Hs & HM); [lia | lia | lia |].
    rewrite Hres. unfold Binary64.Math_round. eexists. split; [reflexivity |].
    rewrite Pos2Z.inj_mul in HM.
    change (2 ^ Zpos 53) with 9007199254740992 in HM.
    assert (HM' : Zpos M * 2 ^ s * 9007199254740992
                  <= Zpos mz * 8106479329266893 + 9007199254740992).
    { destruct HM as [_ HM]. revert HM. Z.div_mod_to_equations. lia. }
    destruct (Z.eq_dec ez 0) as [Hez0 | Hez0].
    + replace (0 <=? ez + -53 + 53 + s) with true by (symmetry; apply Z.leb_le; lia).
      assert (P = 1) by (unfold P; by rewrite Hez0).
      replace (ez + -53 + 53 + s) with s by lia.
      assert (0 < 2 ^ s) by (apply Z.pow_pos_nonneg; lia). nia.
    + assert (HP2 : exists Q, P = 2 * Q /\ 1 <= Q).
      { exists (2 ^ (- ez - 1)). split.
        - unfold P. rewrite <- Z.pow_succ_r by lia. f_equal. lia.
        - change 1 with (2 ^ 0). apply Z.pow_le_mono_r; lia. }
      destruct HP2 as (Q & HPQ & HQ).
      assert (Hs' : s = 0 \/ s = 1) by lia. destruct Hs' as [-> | ->].
      * change (2 ^ 0) with 1 in HM'.
        replace (0 <=? ez + -53 + 53 + 0) with false by (symmetry; apply Z.leb_gt; lia).
        replace (2 ^ (- (ez + -53 + 53 + 0))) with P by (unfold P; f_equal; lia).
        replace (2 ^ (1 - (ez + -53 + 53 + 0))) with (2 * P)
          by (unfold P; rewrite <- Z.pow_succ_r by lia; f_equal; lia).
        split; [apply Z.div_pos; lia |].
        apply Z.lt_succ_r, Z.div_lt_upper_bound; [lia |].
        replace (2 * P * Z.succ x) with (2 * Zpos mz + 2 * P) by lia. lia.
      * change (2 ^ 1) with 2 in HM'.
        destruct (Z.eq_dec ez (-1)) as [Hez1 | Hez1].
        -- replace (0 <=? ez + -53 + 53 + 1) with true by (symmetry; apply Z.leb_le; lia).
           replace (ez + -53 + 53 + 1) with 0 by lia.
           assert (P = 2) by (unfold P; by rewrite Hez1). lia.
        -- replace (0 <=? ez + -53 + 53 + 1) with false by (symmetry; apply Z.leb_gt; lia).
           assert (HQ2 : Q = 2 ^ (- ez - 1)).
           { assert (P = 2 * 2 ^ (- ez - 1))
               by (unfold P; rewrite <- Z.pow_succ_r by lia; f_equal; lia). lia. }
           replace (2 ^ (- (ez + -53 + 53 + 1))) with Q by (rewrite HQ2; f_equal; lia).
           replace (2 ^ (1 - (ez + -53 + 53 + 1))) with P by (unfold P; f_equal; lia).
           split; [apply Z.div_pos; lia |].
           apply Z.lt_succ_r, Z.div_lt_upper_bound; [lia |].
           replace (P * Z.succ x) with (Zpos mz + P) by lia. lia.
Qed.

(** Within the safe integers the discounted amount is between 0 and the
    amount. *)
Lemma Math_round_mul_le_0_65 x :
  0 <= x < 9007199254740992 -> 0 <= Math_round_mul x Binary64.lit_0_65 <= x.
Proof.
  intros Hx. unfold Math_round_mul.
  destruct (Z.lt_ge_cases x 10) as [Hsmall | Hlarge].
  - assert (Hcases : x = 0 \/ x = 1 \/ x = 2 \/ x = 3 \/ x = 4 \/ x = 5 \/ x = 6 \/
                     x = 7 \/ x = 8 \/ x = 9) by lia.
    repeat (destruct Hcases as [-> | Hcases]; [vm_compute; split; discriminate |]).
    subst x. vm_compute. split; discriminate.
  - destruct (round_mul_le 5854679515581645 x) as (t & Ht & Hb); [lia | lia |].
    unfold Binary64.lit_0_65. by rewrite Ht.
Qed.

Lemma Math_round_mul_le_0_9 x :
  0 <= x < 9007199254740992 -> 0 <= Math_round_mul x Binary64.lit_0_9 <= x.
Proof.
  intros Hx. unfold Math_round_mul.
  destruct (Z.lt_ge_cases x 10) as [Hsmall | Hlarge].
  - assert (Hcases : x = 0 \/ x = 1 \/ x = 2 \/ x = 3 \/ x = 4 \/ x = 5 \/ x = 6 \/
                     x = 7 \/ x = 8 \/ x = 9) by lia.
    repeat (destruct Hcases as [-> | Hcases]; [vm_compute; split; discriminate |]).
    subst x. vm_compute. split; discriminate.
  - destruct (round_mul_le 8106479329266893 x) as (t & Ht & Hb); [lia | lia |].
    unfold Binary64.lit_0_9. by rewrite Ht.
Qed.

(** Below 2^45 it is the exactly rounded product. *)
Lemma Math_round_mul_0_65 x :
  exact_range x -> Math_round_mul x Binary64.lit_0_65 = round_half_up x 65 100.
Proof. intros Hx. unfold Math_round_mul. by rewrite round_mul_0_65. Qed.

Lemma Math_round_mul_0_9 x :
  exact_range x -> Math_round_mul x Binary64.lit_0_9 = round_half_up x 9 10.
Proof. intros Hx. unfold Math_round_mul. by rewrite round_mul_0_9. Qed.

(** The two literals are the correctly rounded quotients. *)
Lemma lit_0_65_nearest :
  SFdiv Binary64.prec Binary64.emax (Binary64.of_Z 65) (Binary64.of_Z 100) =
  Binary64.lit_0_65.
Proof. vm_compute. reflexivity. Qed.

Lemma lit_0_9_nearest :
  SFdiv Binary64.prec Binary64.emax (Binary64.of_Z 9) (Binary64.of_Z 10) =
  Binary64.lit_0_9.
Proof. vm_compute. reflexivity. Qed.


(** ** Substrings *)

Lemma startsWith_spec s sub :
  startsWith s sub = true <-> exists after, s = sub +:+ after.
Proof.
  revert s. induction sub as [|c sub IH]; intros s.
  - destruct s; simpl; (split; [intros _; by eexists | done]).
  - destruct s as [|c' s]; simpl.
    + split; [done | intros [after H]; discriminate].
    + rewrite andb_true_iff, IH, Ascii.eqb_eq.
      split; [intros [-> [after ->]]; by exists after |].
      intros [after H]. injection H as -> ->. split; [done | by exists after].
Qed.

Lemma includes_spec s sub : includes s sub = true <-> contains s sub.
Proof.
  unfold contains. induction s as [|c s IH].
  - cbn [includes]. rewrite orb_false_r, startsWith_spec. split.
    + intros [after H]. by exists "", after.
    + intros (before & after & H). destruct before; simpl in H; [by exists after | done].
  - cbn [includes]. rewrite orb_true_iff, startsWith_spec, IH. split.
    + intros [[after H] | (before & after & H)].
      * by exists "", after.
      * exists (String c before), after. simpl. by rewrite H.
    + intros (before & after & H). destruct before as [|c' before]; simpl in H.
      * left. by exists after.
      * right. exists before, after. by injection H.
Qed.

Lemma qualifying_model_spec m :
  includes m "Pulsar 150" || includes m "Pulsar 125" = true <-> qualifying_model m.
Proof. unfold qualifying_model. by rewrite orb_true_iff, !includes_spec. Qed.

(** ** Pricing *)

(** C1, as stated, fails: at 140737488355339 rupees a day for one week the
    original price is 985162418487373 and the total the code computes is
    640355572016793, while 65% of the original price rounds to
    640355572016792.  The double nearest to 0.65 is a little above 0.65, and
    the product is rounded to a double before [Math.round] sees it. *)
Lemma weekly_quote_counterexample :
  let bookingData :=
    {| category := "Car"; model := "Coach"; pricePerDay := 140737488355339 |} in
  let formData := sample_form weekly 1 1 None None in
  let quote := calculatePrice (Some bookingData) formData in
  bookingType formData = weekly /\
  1 <= weeks formData <= 12 /\
  0 <= pricePerDay bookingData /\
  originalPrice quote = 985162418487373 /\
  totalPrice quote = 640355572016793 /\
  ~ rounds_to (totalPrice quote) (originalPrice quote) 65 100.
Proof.
  cbv zeta. split; [reflexivity |]. split; [simpl; lia |]. split; [simpl; lia |].
  split; [by vm_compute |]. split; [by vm_compute |].
  replace (totalPrice _) with 640355572016793 by by vm_compute.
  replace (originalPrice _) with 985162418487373 by by vm_compute.
  unfold rounds_to. lia.
Qed.

(** C1, amended. A weekly booking of 1 to 12 weeks at a nonnegative price
    per day, with an original price below 2^45 rupees, is quoted
    originalPrice = pricePerDay * weeks * 7, totalPrice =
    round(originalPrice * 0.65), savings = originalPrice - totalPrice and the
    weekly-discount flag set, whatever the model; at 550 a day for 2 weeks
    that is 7700, 5005 and 2695. *)
Theorem weekly_quote (bookingData : BookingData) (formData : FormData) :
  bookingType formData = weekly ->
  1 <= weeks formData <= 12 ->
  0 <= pricePerDay bookingData ->
  exact_range (pricePerDay bookingData * weeks formData * 7) ->
  let quote := calculatePrice (Some bookingData) formData in
  originalPrice quote = pricePerDay bookingData * weeks formData * 7 /\
  rounds_to (totalPrice quote) (originalPrice quote) 65 100 /\
  savings quote = originalPrice quote - totalPrice quote /\
  weeklyDiscount quote = true /\
  (pricePerDay bookingData = 550 -> weeks formData = 2 ->
   originalPrice quote = 7700 /\ totalPrice quote = 5005 /\ savings quote = 2695).
Proof.
  intros Hweekly Hweeks Hprice Hrange. unfold calculatePrice. rewrite Hweekly. cbn.
  replace (pricePerDay bookingData * weeks formData * 7)
    with (pricePerDay bookingData * (weeks formData * 7)) in Hrange by lia.
  rewrite Math_round_mul_0_65 by done.
  split; [lia |]. split; [apply round_half_up_rounds; lia |].
  split; [reflexivity |]. split; [reflexivity |].
  intros -> ->. repeat split.
Qed.

Lemma weekly_quote_witness :
  bookingType (sample_form weekly 1 2 None None) = weekly /\
  1 <= weeks (sample_form weekly 1 2 None None) <= 12 /\
  0 <= pricePerDay activa /\
  exact_range (pricePerDay activa * weeks (sample_form weekly 1 2 None None) * 7) /\
  originalPrice (calculatePrice (Some activa) (sample_form weekly 1 2 None None)) = 7700 /\
  totalPrice (calculatePrice (Some activa) (sample_form weekly 1 2 None None)) = 5005 /\
  savings (calculatePrice (Some activa) (sample_form weekly 1 2 None None)) = 2695.
Proof.
  assert (Hw : bookingType (sample_form weekly 1 2 None None) = weekly) by reflexivity.
  assert (Hr : 1 <= weeks (sample_form weekly 1 2 None None) <= 12) by (simpl; lia).
  assert (Hp : 0 <= pricePerDay activa) by (simpl; lia).
  assert (He : exact_range
                 (pricePerDay activa * weeks (sample_form weekly 1 2 None None) * 7))
    by (unfold exact_range; simpl; lia).
  pose proof (weekly_quote activa (sample_form weekly 1 2 None None) Hw Hr Hp He) as H.
  cbv zeta in H. destruct H as (_ & _ & _ & _ & Hex).
  exact (conj Hw (conj Hr (conj Hp (conj He (Hex eq_refl eq_refl))))).
Defined.

(** C2, as stated, fails: one day of a "Pulsar 150" at 1250999896491806
    rupees a day is quoted 1125899906842626, while 90% of the original price
    rounds to 1125899906842625. *)
Lemma daily_quote_counterexample :
  let bookingData :=
    {| category := "Bike"; model := "Bajaj Pulsar 150";
       pricePerDay := 1250999896491806 |} in
  let formData := sample_form daily 1 1 None None in
  let quote := calculatePrice (Some bookingData) formData in
  bookingType formData = daily /\
  1 <= days formData <= 30 /\
  0 <= pricePerDay bookingData /\
  days formData = 1 /\ qualifying_model (model bookingData) /\
  originalPrice quote = 1250999896491806 /\
  totalPrice quote = 1125899906842626 /\
  ~ rounds_to (totalPrice quote) (originalPrice quote) 9 10.
Proof.
  cbv zeta. split; [reflexivity |]. split; [simpl; lia |]. split; [simpl; lia |].
  split; [reflexivity |]. split; [left; by exists "Bajaj ", "" |].
  split; [by vm_compute |]. split; [by vm_compute |].
  replace (totalPrice _) with 1125899906842626 by by vm_compute.
  replace (originalPrice _) with 1250999896491806 by by vm_compute.
  unfold rounds_to. lia.
Qed.

(** C2, amended. A daily booking of 1 to 30 days at a nonnegative price per
    day, with an original price below 2^45 rupees, is quoted totalPrice =
    originalPrice = pricePerDay * days, savings 0 and no discount flag,
    unless it is for exactly one day of a model whose name contains
    "Pulsar 150" or "Pulsar 125": then totalPrice =
    round(originalPrice * 0.9), savings = originalPrice - totalPrice and the
    daily-discount flag is set.  At 550 a day on a "Pulsar 150", one day
    costs 495 (55 saved) and two days cost 1100 with no discount. *)
Theorem daily_quote (bookingData : BookingData) (formData : FormData) :
  bookingType formData = daily ->
  1 <= days formData <= 30 ->
  0 <= pricePerDay bookingData ->
  exact_range (pricePerDay bookingData * days formData) ->
  let quote := calculatePrice (Some bookingData) formData in
  originalPrice quote = pricePerDay bookingData * days formData /\
  weeklyDiscount quote = false /\
  (days formData = 1 /\ qualifying_model (model bookingData) ->
   rounds_to (totalPrice quote) (originalPrice quote) 9 10 /\
   savings quote = originalPrice quote - totalPrice quote /\
   discount quote = true) /\
  (~ (days formData = 1 /\ qualifying_model (model bookingData)) ->
   totalPrice quote = originalPrice quote /\
   savings quote = 0 /\
   discount quote = false) /\
  (pricePerDay bookingData = 550 -> contains (model bookingData) "Pulsar 150" ->
   (days formData = 1 -> totalPrice quote = 495 /\ savings quote = 55) /\
   (days formData = 2 ->
    totalPrice quote = 1100 /\ savings quote = 0 /\ discount quote = false)).
Proof.
  intros Hdaily Hdays Hprice Hrange. unfold calculatePrice. rewrite Hdaily.
  destruct ((days formData =? 1) &&
            (includes (model bookingData) "Pulsar 150" ||
             includes (model bookingData) "Pulsar 125")) eqn:Hcond; cbn.
  - apply andb_true_iff in Hcond as [Hone Hmodel].
    apply Z.eqb_eq in Hone. apply qualifying_model_spec in Hmodel.
    rewrite Math_round_mul_0_9 by done.
    split; [reflexivity |]. split; [reflexivity |].
    split; [intros _; split; [apply round_half_up_rounds; lia | done] |].
    split; [tauto |].
    intros Hp _. split; [| lia]. intros _. rewrite Hp, Hone. by compute.
  - assert (Hnot : ~ (days formData = 1 /\ qualifying_model (model bookingData))).
    { intros [Hone Hmodel]. apply Z.eqb_eq in Hone.
      apply qualifying_model_spec in Hmodel.
      rewrite Hone in Hcond. simpl in Hcond. congruence. }
    split; [reflexivity |]. split; [reflexivity |].
    split; [tauto |]. split; [done |].
    intros Hp Hmodel. split.
    + intros Hone. exfalso. apply Hnot. split; [done | by left].
    + intros Htwo. rewrite Hp, Htwo. by compute.
Qed.

Lemma daily_quote_witness :
  bookingType (sample_form daily 1 1 None None) = daily /\
  1 <= days (sample_form daily 1 1 None None) <= 30 /\
  0 <= pricePerDay pulsar150 /\
  exact_range (pricePerDay pulsar150 * days (sample_form daily 1 1 None None)) /\
  totalPrice (calculatePrice (Some pulsar150) (sample_form daily 1 1 None None)) = 495 /\
  savings (calculatePrice (Some pulsar150) (sample_form daily 1 1 None None)) = 55.
Proof.
  assert (Hd : bookingType (sample_form daily 1 1 None None) = daily) by reflexivity.
  assert (Hr : 1 <= days (sample_form daily 1 1 None None) <= 30) by (simpl; lia).
  assert (Hp : 0 <= pricePerDay pulsar150) by (simpl; lia).
  assert (He : exact_range
                 (pricePerDay pulsar150 * days (sample_form daily 1 1 None None)))
    by (unfold exact_range; simpl; lia).
  assert (Hm : contains (model pulsar150) "Pulsar 150") by (by exists "Bajaj ", "").
  pose proof (daily_quote pulsar150 (sample_form daily 1 1 None None) Hd Hr Hp He) as H.
  cbv zeta in H. destruct H as (_ & _ & _ & _ & Hex).
  exact (conj Hd (conj Hr (conj Hp (conj He (proj1 (Hex eq_refl Hm) eq_refl))))).
Defined.



(** ** Regular expressions: the matcher decides the language *)

Lemma lang_Eps_inv l : Regex.lang Regex.Eps l <-> l = [].
Proof. split; [by inversion 1 | intros ->; constructor]. Qed.

Lemma lang_Class_inv p l :
  Regex.lang (Regex.Class p) l <-> exists c, l = [c] /\ p c = true.
Proof.
  split; [inversion 1; subst; eauto | intros (c & -> & H); by constructor].
Qed.

Lemma lang_Cat_inv r1 r2 l :
  Regex.lang (Regex.Cat r1 r2) l <->
  exists l1 l2, l = l1 ++ l2 /\ Regex.lang r1 l1 /\ Regex.lang r2 l2.
Proof.
  split; [inversion 1; subst; eauto | intros (l1 & l2 & -> & H1 & H2); by constructor].
Qed.

Lemma lang_Alt_inv r1 r2 l :
  Regex.lang (Regex.Alt r1 r2) l <-> Regex.lang r1 l \/ Regex.lang r2 l.
Proof.
  split; [inversion 1; subst; eauto |].
  intros [H | H]; [by apply Regex.lang_alt_l | by apply Regex.lang_alt_r].
Qed.

Lemma lang_Void_inv l : Regex.lang Regex.Void l <-> False.
Proof. split; [inversion 1 | done]. Qed.

Lemma lang_Star_cons r c l :
  Regex.lang (Regex.Star r) (c :: l) ->
  exists l1 l2, l = l1 ++ l2 /\ Regex.lang r (c :: l1) /\ Regex.lang (Regex.Star r) l2.
Proof.
  intros H. remember (Regex.Star r) as r' eqn:Hr. remember (c :: l) as t eqn:Ht.
  revert l Ht. induction H as [| | | | | |r0 s1 s2 H1 _ H2 IH2]; intros l Ht; try discriminate.
  injection Hr as ->. destruct s1 as [|c' s1]; simpl in Ht.
  - by apply IH2.
  - injection Ht as -> <-. by exists s1, s2.
Qed.

Lemma nullable_spec r : Regex.nullable r = true <-> Regex.lang r [].
Proof.
  induction r as [| |p|r1 IH1 r2 IH2|r1 IH1 r2 IH2|r IH]; simpl.
  - rewrite lang_Void_inv. done.
  - rewrite lang_Eps_inv. done.
  - rewrite lang_Class_inv. split; [done | by intros (c & ? & _)].
  - rewrite andb_true_iff, IH1, IH2, lang_Cat_inv. split.
    + intros [H1 H2]. by exists [], [].
    + intros (l1 & l2 & Hl & H1 & H2). symmetry in Hl.
      apply app_eq_nil in Hl as [-> ->]. done.
  - by rewrite orb_true_iff, IH1, IH2, lang_Alt_inv.
  - split; [intros _; constructor | done].
Qed.

Lemma deriv_spec c r l : Regex.lang (Regex.deriv c r) l <-> Regex.lang r (c :: l).
Proof.
  revert l. induction r as [| |p|r1 IH1 r2 IH2|r1 IH1 r2 IH2|r IH]; intros l; simpl.
  - by rewrite !lang_Void_inv.
  - rewrite lang_Void_inv, lang_Eps_inv. done.
  - rewrite lang_Class_inv. destruct (p c) eqn:Hp.
    + rewrite lang_Eps_inv. split; [intros ->; eauto |].
      by intros (c' & [= _ ->] & _).
    + rewrite lang_Void_inv. split; [done |].
      intros (c' & [= <- _] & Hp'). congruence.
  - assert (Hcat : Regex.lang (Regex.Cat (Regex.deriv c r1) r2) l <->
                   exists l1 l2, l = l1 ++ l2 /\ Regex.lang r1 (c :: l1) /\ Regex.lang r2 l2).
    { rewrite lang_Cat_inv. by setoid_rewrite IH1. }
    rewrite (lang_Cat_inv r1 r2). destruct (Regex.nullable r1) eqn:Hn.
    + rewrite lang_Alt_inv, Hcat, IH2. split.
      * intros [(l1 & l2 & -> & H1 & H2) | H2].
        -- by exists (c :: l1), l2.
        -- exists [], (c :: l). by rewrite <- nullable_spec.
      * intros (l1 & l2 & Hl & H1 & H2). destruct l1 as [|c' l1]; simpl in Hl.
        -- right. by rewrite Hl.
        -- injection Hl as <- ->. left. by exists l1, l2.
    + rewrite Hcat. split.
      * intros (l1 & l2 & -> & H1 & H2). by exists (c :: l1), l2.
      * intros (l1 & l2 & Hl & H1 & H2). destruct l1 as [|c' l1]; simpl in Hl.
        -- apply nullable_spec in H1. congruence.
        -- injection Hl as <- ->. by exists l1, l2.
  - by rewrite !lang_Alt_inv, IH1, IH2.
  - rewrite lang_Cat_inv. split.
    + intros (l1 & l2 & -> & H1 & H2). apply IH in H1.
      by apply (Regex.lang_star_app r (c :: l1) l2).
    + intros H. apply lang_Star_cons in H as (l1 & l2 & -> & H1 & H2).
      exists l1, l2. by rewrite IH.
Qed.

Lemma matches_spec r l : Regex.matches r l = true <-> Regex.lang r l.
Proof.
  revert r. induction l as [|c l IH]; intros r; simpl.
  - apply nullable_spec.
  - by rewrite IH, deriv_spec.
Qed.

Lemma lang_Lit_inv s l : Regex.lang (Regex.Lit s) l <-> l = list_ascii_of_string s.
Proof.
  revert l. induction s as [|c s IH]; intros l; simpl.
  - apply lang_Eps_inv.
  - rewrite lang_Cat_inv. unfold Regex.Chr. split.
    + intros (l1 & l2 & -> & H1 & H2). apply lang_Class_inv in H1 as (c' & -> & Hc).
      apply Ascii.eqb_eq in Hc as <-. apply IH in H2 as ->. done.
    + intros ->. exists [c], (list_ascii_of_string s). split; [done |].
      split; [| by apply IH]. apply lang_Class_inv. exists c.
      by rewrite Ascii.eqb_refl.
Qed.

Lemma lang_Rep_Class_inv n p l :
  Regex.lang (Regex.Rep n (Regex.Class p)) l <->
  length l = n /\ Forall (fun c => p c = true) l.
Proof.
  revert l. induction n as [|n IH]; intros l; simpl.
  - rewrite lang_Eps_inv. split; [by intros -> |].
    intros [Hl _]. by destruct l.
  - rewrite lang_Cat_inv. split.
    + intros (l1 & l2 & -> & H1 & H2). apply lang_Class_inv in H1 as (c & -> & Hc).
      apply IH in H2 as [<- H2]. split; [done | by constructor].
    + intros [Hl Hall]. destruct l as [|c l]; [done |].
      injection Hl as Hl. inversion Hall; subst.
      exists [c], l. split; [done |]. split; [| by apply IH].
      apply lang_Class_inv. by exists c.
Qed.

(** ** White space *)

(** The class [\s] is the white space. *)
Lemma is_space_spec c : is_space c = true <-> white_space c.
Proof.
  assert (H : is_space c = bool_decide (white_space c)).
  { destruct c as [[] [] [] [] [] [] [] []]; vm_compute; reflexivity. }
  rewrite H. apply bool_decide_eq_true.
Qed.

Lemma is_space_false c : is_space c = false <-> ~ white_space c.
Proof. rewrite <- is_space_spec. destruct (is_space c); split; congruence. Qed.

(** [replace(/\s+/g, '')] leaves out the white space, and nothing else. *)
Lemma strip_spaces_spec s : strip_spaces s = without_white_space s.
Proof.
  unfold without_white_space. induction s as [|c s IH]; [done |].
  cbn [strip_spaces list_ascii_of_string]. rewrite filter_cons.
  destruct (is_space c) eqn:Hc.
  - apply is_space_spec in Hc. rewrite decide_False by tauto. done.
  - apply is_space_false in Hc. rewrite decide_True by done. cbn. by rewrite IH.
Qed.

Lemma append_cons c s t : String c s +:+ t = String c (s +:+ t).
Proof. reflexivity. Qed.

Lemma append_nil s : "" +:+ s = s.
Proof. reflexivity. Qed.

Lemma blank_nil : blank "".
Proof. constructor. Qed.

Lemma blank_cons c s : blank (String c s) <-> white_space c /\ blank s.
Proof. unfold blank. cbn. apply Forall_cons. Qed.

Lemma trimStart_blank before s : blank before -> trimStart (before +:+ s) = trimStart s.
Proof.
  induction before as [|c before IH]; [done |].
  intros [Hc Hb]%blank_cons. rewrite append_cons. cbn [trimStart].
  apply is_space_spec in Hc. rewrite Hc. by apply IH.
Qed.

Lemma trimStart_tight c s : ~ white_space c -> trimStart (String c s) = String c s.
Proof. intros Hc%is_space_false. cbn. by rewrite Hc. Qed.

Lemma trimEnd_blank s : blank s -> trimEnd s = "".
Proof.
  induction s as [|c s IH]; [done |].
  intros [Hc Hb]%blank_cons. cbn. apply is_space_spec in Hc. by rewrite Hc, IH.
Qed.

Lemma trimEnd_app_blank s after : blank after -> trimEnd (s +:+ after) = trimEnd s.
Proof.
  intros Hb. induction s as [|c s IH]; [by apply trimEnd_blank |].
  rewrite append_cons. cbn [trimEnd]. by rewrite IH.
Qed.

Lemma trimEnd_tight front c : ~ white_space c ->
  trimEnd (front +:+ String c "") = front +:+ String c "".
Proof.
  intros Hc%is_space_false. induction front as [|a front IH].
  - rewrite append_nil. cbn. by rewrite Hc.
  - rewrite append_cons. cbn [trimEnd]. rewrite IH.
    destruct front; cbn [String.eqb]; by rewrite andb_false_r.
Qed.

(** A nonempty string is a front and a last character. *)
Lemma string_last s : s <> "" -> exists front c, s = front +:+ String c "".
Proof.
  induction s as [|a s IH]; [done |]. intros _.
  destruct s as [|b s].
  - by exists "", a.
  - destruct IH as (front & c & ->); [done |]. by exists (String a front), c.
Qed.

(** [trim] removes the white space at the two ends, and nothing else. *)
Lemma trimmed_unique s t : trimmed s t -> t = trim s.
Proof.
  intros ((before & after & -> & Hb & Ha) & Hfirst & Hlast). unfold trim.
  rewrite trimStart_blank by done.
  destruct t as [|c rest].
  - rewrite append_nil.
    assert (Hs : trimStart after = "").
    { clear -Ha. induction after as [|c after IH]; [done |].
      apply blank_cons in Ha as [Hc Ha]. cbn. apply is_space_spec in Hc. rewrite Hc.
      by apply IH. }
    by rewrite Hs.
  - rewrite append_cons, trimStart_tight by by eapply Hfirst.
    rewrite <- append_cons, trimEnd_app_blank by done.
    destruct (string_last (String c rest)) as (front & d & Heq); [done |].
    rewrite Heq. symmetry. apply trimEnd_tight. by eapply Hlast.
Qed.

Lemma trimStart_split s : exists before, s = before +:+ trimStart s /\ blank before.
Proof.
  induction s as [|c s (before & IH & Hb)];
    [exists ""; split; [done | apply blank_nil] |].
  cbn [trimStart]. destruct (is_space c) eqn:Hc.
  - exists (String c before). rewrite append_cons, <- IH. split; [done |].
    apply blank_cons. split; [by apply is_space_spec | done].
  - exists "". split; [done | apply blank_nil].
Qed.

Lemma trimEnd_split s : exists after, s = trimEnd s +:+ after /\ blank after.
Proof.
  induction s as [|c s (after & IH & Ha)];
    [exists ""; split; [done | apply blank_nil] |].
  cbn [trimEnd]. destruct (is_space c && String.eqb (trimEnd s) "") eqn:Hc.
  - apply andb_true_iff in Hc as [Hc He]. apply String.eqb_eq in He.
    rewrite He, append_nil in IH. exists (String c after). rewrite append_nil.
    split; [by rewrite <- IH |]. apply blank_cons. split; [by apply is_space_spec | done].
  - exists after. rewrite append_cons, <- IH. done.
Qed.

Lemma trimStart_first s c rest : trimStart s = String c rest -> ~ white_space c.
Proof.
  induction s as [|a s IH]; [done |]. cbn [trimStart].
  destruct (is_space a) eqn:Ha; [done |]. intros [= <- <-]. by apply is_space_false.
Qed.

Lemma trimEnd_first s c rest :
  (forall c rest, s = String c rest -> ~ white_space c) ->
  trimEnd s = String c rest -> ~ white_space c.
Proof.
  destruct s as [|a s]; [done |]. intros Hs. cbn [trimEnd].
  destruct (is_space a && _); [done |]. intros [= <- _]. by eapply Hs.
Qed.

Lemma trimEnd_last s front c : trimEnd s = front +:+ String c "" -> ~ white_space c.
Proof.
  revert front. induction s as [|a s IH]; intros front.
  - destruct front; done.
  - cbn [trimEnd]. destruct (is_space a && String.eqb (trimEnd s) "") eqn:Hc.
    { destruct front; done. }
    destruct front as [|b front].
    + rewrite append_nil. intros [= -> He]. rewrite He in Hc. cbn in Hc.
      rewrite andb_true_r in Hc. by apply is_space_false.
    + rewrite append_cons. intros [= _ He]. by eapply IH.
Qed.

Lemma trim_trimmed s : trimmed s (trim s).
Proof.
  unfold trim. destruct (trimStart_split s) as (before & Hs & Hb).
  destruct (trimEnd_split (trimStart s)) as (after & He & Ha).
  split; [| split].
  - exists before, after. split; [| done]. by rewrite <- He.
  - intros c rest. apply trimEnd_first. intros c' rest'. apply trimStart_first.
  - intros front c. apply trimEnd_last.
Qed.

Lemma trimmed_iff s t : trimmed s t <-> t = trim s.
Proof. split; [apply trimmed_unique | intros ->; apply trim_trimmed]. Qed.

(** ** Contact numbers *)

Lemma length_list_ascii_of_string s :
  length (list_ascii_of_string s) = String.length s.
Proof. induction s; simpl; congruence. Qed.

Lemma list_ascii_of_string_inj s t :
  list_ascii_of_string s = list_ascii_of_string t -> s = t.
Proof.
  intros H. rewrite <- (string_of_list_ascii_of_string s),
    <- (string_of_list_ascii_of_string t). by rewrite H.
Qed.

Lemma re_mobile_spec t : Regex.test re_mobile t = true <-> mobile_number t.
Proof.
  unfold Regex.test, re_mobile, Regex.Opt, mobile_number, all_digits.
  rewrite matches_spec, lang_Cat_inv. split.
  - intros (l1 & l2 & Ht & Hpre & Hnum).
    apply lang_Cat_inv in Hnum as (ld & lr & -> & Hd & Hr).
    apply lang_Class_inv in Hd as (d & -> & Hd).
    apply lang_Rep_Class_inv in Hr as [Hlen Hr].
    exists d, (string_of_list_ascii lr).
    rewrite list_ascii_of_string_of_list_ascii.
    rewrite <- length_list_ascii_of_string, list_ascii_of_string_of_list_ascii.
    split; [| done].
    apply lang_Alt_inv in Hpre as [Hpre | Hpre].
    + apply lang_Lit_inv in Hpre as ->. right.
      apply list_ascii_of_string_inj. rewrite Ht. simpl.
      by rewrite list_ascii_of_string_of_list_ascii.
    + apply lang_Eps_inv in Hpre as ->. left.
      apply list_ascii_of_string_inj. rewrite Ht. simpl.
      by rewrite list_ascii_of_string_of_list_ascii.
  - intros (d & rest & Ht & Hd & Hlen & Hr).
    assert (Hnum : Regex.lang
                     (Regex.Cat (Regex.Class (in_range "6" "9"))
                        (Regex.Rep 9 (Regex.Class is_digit)))
                     (d :: list_ascii_of_string rest)).
    { apply lang_Cat_inv. exists [d], (list_ascii_of_string rest).
      split; [done |]. split.
      - apply lang_Class_inv. by exists d.
      - apply lang_Rep_Class_inv. by rewrite length_list_ascii_of_string. }
    destruct Ht as [-> | ->].
    + exists [], (d :: list_ascii_of_string rest). split; [done |].
      split; [| done]. apply Regex.lang_alt_r. constructor.
    + exists (list_ascii_of_string "+91"), (d :: list_ascii_of_string rest).
      split; [done |]. split; [| done]. apply Regex.lang_alt_l.
      by apply lang_Lit_inv.
Qed.

(** ** Each check of the validator reports under its own key *)

Lemma report_other key msg errs k :
  k <> key -> report key msg errs !! k = errs !! k.
Proof. intros Hne. unfold report. by rewrite lookup_insert_ne. Qed.

Lemma report_same key msg errs : report key msg errs !! key = Some (Some msg).
Proof. unfold report. by rewrite lookup_insert_eq. Qed.

Ltac other_key :=
  intros; repeat case_match; rewrite ?report_other by done; done.

Lemma validate_name_other formData errs k :
  k <> "name" -> validate_name formData errs !! k = errs !! k.
Proof. unfold validate_name. other_key. Qed.

Lemma validate_contact_other formData errs k :
  k <> "contact" -> validate_contact formData errs !! k = errs !! k.
Proof. unfold validate_contact. other_key. Qed.

Lemma validate_address_other formData errs k :
  k <> "address" -> validate_address formData errs !! k = errs !! k.
Proof. unfold validate_address. other_key. Qed.

Lemma validate_days_other formData errs k :
  k <> "days" -> validate_days formData errs !! k = errs !! k.
Proof. unfold validate_days. other_key. Qed.

Lemma validate_weeks_other formData errs k :
  k <> "weeks" -> validate_weeks formData errs !! k = errs !! k.
Proof. unfold validate_weeks. other_key. Qed.

Lemma validate_pickupDate_other tz now required formData errs k :
  k <> "pickupDate" ->
  validate_pickupDate tz now required formData errs !! k = errs !! k.
Proof. unfold validate_pickupDate. other_key. Qed.

Lemma validate_weekly_returnDate_other formData errs k :
  k <> "returnDate" -> validate_weekly_returnDate formData errs !! k = errs !! k.
Proof. unfold validate_weekly_returnDate. other_key. Qed.

Lemma validate_daily_returnDate_other formData errs k :
  k <> "returnDate" -> validate_daily_returnDate formData errs !! k = errs !! k.
Proof. unfold validate_daily_returnDate. other_key. Qed.

Lemma validate_times_other tz formData errs k :
  k <> "pickupTime" -> k <> "returnTime" ->
  validate_times tz formData errs !! k = errs !! k.
Proof. unfold validate_times. other_key. Qed.

(** The contact entry of the table is the one [validate_contact] writes. *)
Lemma validateForm_errors_contact tz now formData :
  validateForm_errors tz now formData !! "contact" =
  validate_contact formData ∅ !! "contact".
Proof.
  unfold validateForm_errors. destruct (bookingType formData).
  - rewrite validate_times_other, validate_daily_returnDate_other,
      validate_pickupDate_other, validate_days_other, validate_address_other by done.
    unfold validate_contact.
    repeat case_match; by rewrite ?report_same, ?validate_name_other.
  - rewrite validate_weekly_returnDate_other, validate_pickupDate_other,
      validate_weeks_other, validate_address_other by done.
    unfold validate_contact.
    repeat case_match; by rewrite ?report_same, ?validate_name_other.
Qed.

Lemma nonempty_false s : nonempty s = false <-> s = "".
Proof. unfold nonempty. rewrite negb_false_iff. apply String.eqb_eq. Qed.

Lemma mobile_number_nonempty t : mobile_number t -> t <> "".
Proof. intros (d & rest & [-> | ->] & _); done. Qed.

(** C3. The validator reports no contact error exactly when the contact,
    with all white space left out, is a ten-digit mobile number whose first
    digit is 6 to 9, with or without the country code in front; it reports
    that the contact is required when nothing is left without the white
    space; it rejects "12345" and accepts "9876543210" and "+919876543210",
    also written with blanks. *)
Theorem contact_validation (zone : JSDate.Zone) (now : Z) (formData : FormData) :
  let error := validateForm_errors zone now formData !! "contact" in
  let stripped := without_white_space (contact formData) in
  (error = None <-> mobile_number stripped) /\
  (stripped = "" -> error = Some (Some "Contact number is required")) /\
  (contact formData = "12345" ->
   error = Some (Some "Enter a valid 10-digit Indian mobile number")) /\
  (contact formData = "9876543210" -> error = None) /\
  (contact formData = "+919876543210" -> error = None) /\
  (contact formData = " 98765 43210 " -> error = None) /\
  (contact formData = "+91 98765 43210" -> error = None) /\
  (contact formData = "   " -> error = Some (Some "Contact number is required")) /\
  (contact formData = "98765 4321" ->
   error = Some (Some "Enter a valid 10-digit Indian mobile number")).
Proof.
  cbv zeta. rewrite validateForm_errors_contact. unfold validate_contact.
  rewrite <- strip_spaces_spec.
  split; [| split].
  - destruct (nonempty (strip_spaces (contact formData))) eqn:Hne; simpl.
    + destruct (Regex.test re_mobile (strip_spaces (contact formData))) eqn:Hre; simpl.
      * apply re_mobile_spec in Hre. by rewrite lookup_empty.
      * rewrite report_same. split; [done |].
        intros H. apply re_mobile_spec in H. congruence.
    + rewrite report_same. split; [done |].
      intros H. apply mobile_number_nonempty in H.
      by apply nonempty_false in Hne.
  - intros ->. simpl. by rewrite report_same.
  - repeat split; intros ->; by vm_compute.
Qed.

(** ** Calendar *)

Lemma year_of_era_bounds doe :
  0 <= doe < 146097 ->
  let yoe := (doe - doe / 1460 + doe / 36524 - doe / 146096) / 365 in
  let doy := doe - (365 * yoe + yoe / 4 - yoe / 100) in
  0 <= yoe <= 399 /\ 0 <= doy <= 365.
Proof. intros H. cbv zeta. Z.div_mod_to_equations. lia. Qed.

(** A day number is the day number of its own year, month and day, and
    the month is one of the twelve. *)
Lemma days_from_civil_from_days z :
  let '(y, m, d) := JSDate.civil_from_days z in
  JSDate.days_from_civil y m d = z /\ 1 <= m <= 12.
Proof.
  unfold JSDate.civil_from_days.
  set (era := (z + 719468) / 146097).
  set (doe := z + 719468 - era * 146097).
  assert (Hdoe : 0 <= doe < 146097).
  { unfold doe, era. Z.div_mod_to_equations. lia. }
  pose proof (year_of_era_bounds doe Hdoe) as Hb. cbv zeta in Hb.
  set (yoe := (doe - doe / 1460 + doe / 36524 - doe / 146096) / 365) in *.
  set (doy := doe - (365 * yoe + yoe / 4 - yoe / 100)) in *.
  set (mp := (5 * doy + 2) / 153).
  assert (Hmp : 0 <= mp <= 11).
  { unfold mp. Z.div_mod_to_equations. lia. }
  assert (Hera : (yoe + era * 400) / 400 = era).
  { Z.div_mod_to_equations. lia. }
  unfold JSDate.days_from_civil.
  destruct (mp <? 10) eqn:Hlt; [apply Z.ltb_lt in Hlt | apply Z.ltb_ge in Hlt].
  - replace (mp + 3 <=? 2) with false by (symmetry; apply Z.leb_gt; lia).
    replace (2 <? mp + 3) with true by (symmetry; apply Z.ltb_lt; lia).
    rewrite Hera. replace (mp + 3 - 3) with mp by lia.
    replace (yoe + era * 400 - era * 400) with yoe by lia.
    split; [| lia]. unfold doy, doe. lia.
  - replace (mp - 9 <=? 2) with true by (symmetry; apply Z.leb_le; lia).
    replace (2 <? mp - 9) with false by (symmetry; apply Z.ltb_ge; lia).
    replace (yoe + era * 400 + 1 - 1) with (yoe + era * 400) by lia.
    rewrite Hera. replace (mp - 9 + 9) with mp by lia.
    replace (yoe + era * 400 - era * 400) with yoe by lia.
    split; [| lia]. unfold doy, doe. lia.
Qed.

Lemma days_from_civil_first y m d :
  JSDate.days_from_civil y m d = JSDate.days_from_civil y m 1 + d - 1.
Proof. unfold JSDate.days_from_civil. lia. Qed.

(** [MakeDay] of the year and month of [t] and of a day of the month
    counts days from the first of that month. *)
Lemma MakeDay_of_time t date :
  JSDate.MakeDay (JSDate.YearFromTime t) (JSDate.MonthFromTime t) date =
  JSDate.Day t + (date - JSDate.DateFromTime t).
Proof.
  unfold JSDate.MakeDay, JSDate.YearFromTime, JSDate.MonthFromTime, JSDate.DateFromTime.
  pose proof (days_from_civil_from_days (JSDate.Day t)) as H.
  destruct (JSDate.civil_from_days (JSDate.Day t)) as [[y m] d]. simpl.
  destruct H as [H Hm].
  replace ((m - 1) / 12) with 0 by (Z.div_mod_to_equations; lia).
  replace ((m - 1) mod 12 + 1) with m by (Z.div_mod_to_equations; lia).
  rewrite Z.add_0_r. rewrite (days_from_civil_first y m d) in H. lia.
Qed.

Lemma truthy_true n : truthy n = true <-> n <> 0.
Proof. unfold truthy. rewrite negb_true_iff. apply Z.eqb_neq. Qed.

(** [t.setDate(t.getDate() + n)] moves [t] by [n] days, in a zone of
    constant offset. *)
Lemma setDate_getDate_plus (tz : Z) t n :
  JSDate.setDate tz t (JSDate.getDate tz t + n) = t + n * JSDate.msPerDay.
Proof.
  unfold JSDate.setDate, JSDate.getDate. rewrite MakeDay_of_time.
  unfold JSDate.UTC, JSDate.MakeDate, JSDate.LocalTime, JSDate.Day,
    JSDate.TimeWithinDay, JSDate.msPerDay. cbn [JSDate.LocalTZA JSDate.fixed].
  Z.div_mod_to_equations. lia.
Qed.

(** The handler's date arithmetic adds day numbers, in every time zone of
    constant offset. *)
Lemma date_plus_spec (tz : Z) pickup n : date_plus tz pickup n = pickup + n.
Proof.
  unfold date_plus. rewrite setDate_getDate_plus.
  unfold JSDate.toISODate, JSDate.of_date, JSDate.MakeDate, JSDate.Day, JSDate.msPerDay.
  Z.div_mod_to_equations. lia.
Qed.

(** In any zone [setDate] moves the local time by [n] days; the time value
    follows when the offset is the same there. *)
Lemma setDate_getDate_local zone t n :
  JSDate.setDate zone t (JSDate.getDate zone t + n) =
  JSDate.UTC zone (JSDate.LocalTime zone t + n * JSDate.msPerDay).
Proof.
  unfold JSDate.setDate, JSDate.getDate. rewrite MakeDay_of_time. f_equal.
  unfold JSDate.MakeDate, JSDate.Day, JSDate.TimeWithinDay, JSDate.msPerDay.
  Z.div_mod_to_equations. lia.
Qed.

Lemma date_plus_same_offset zone pickup n :
  same_offset zone pickup n -> date_plus zone pickup n = pickup + n.
Proof.
  unfold same_offset, offset_at_return, offset_at_pickup. intros Hsame.
  unfold date_plus. rewrite setDate_getDate_local.
  unfold JSDate.UTC, JSDate.LocalTime. rewrite Hsame.
  unfold JSDate.toISODate, JSDate.of_date, JSDate.MakeDate, JSDate.Day, JSDate.msPerDay.
  Z.div_mod_to_equations. lia.
Qed.

(** What the updater leaves in [returnDate], in any zone. *)
Lemma updateFormData_date_plus zone c prev pickup :
  let next := updateFormData zone c prev in
  schedule_change c (bookingType next) ->
  pickupDate next = Some pickup ->
  active_duration next <> 0 ->
  returnDate next = Some (date_plus zone pickup (rental_days next)).
Proof.
  cbv zeta.
  unfold updateFormData, schedule_change, active_duration, rental_days.
  destruct c; cbn; try done;
    destruct (bookingType prev) eqn:Hbt; cbn; try done.
  all: repeat (case_match; cbn); try done.
  all: intros; simplify_eq; try done.
  all: try (exfalso; match goal with
                     | H : truthy _ = false |- _ =>
                         apply not_true_iff_false in H; apply H, truthy_true
                     end; assumption).
Qed.

(** ** Weekly return date *)

Lemma days_between ret pickup :
  Math_ceil_div (JSDate.of_date ret - JSDate.of_date pickup) (1000 * 60 * 60 * 24) =
  ret - pickup.
Proof.
  unfold Math_ceil_div, JSDate.of_date, JSDate.MakeDate, JSDate.msPerDay.
  Z.div_mod_to_equations. lia.
Qed.

(** The return date entry of a weekly booking's table is the one
    [validate_weekly_returnDate] writes. *)
Lemma validateForm_errors_weekly_returnDate tz now formData :
  bookingType formData = weekly ->
  validateForm_errors tz now formData !! "returnDate" =
  validate_weekly_returnDate formData ∅ !! "returnDate".
Proof.
  intros Hweekly. unfold validateForm_errors. rewrite Hweekly.
  unfold validate_weekly_returnDate.
  repeat case_match;
    rewrite ?report_same, ?report_other, ?validate_pickupDate_other,
      ?validate_weeks_other, ?validate_address_other, ?validate_contact_other,
      ?validate_name_other by done; done.
Qed.

Lemma weekly_returnDate_message_names formData :
  contains (weekly_returnDate_message formData) (string_of_Z (weeks formData * 7)).
Proof.
  unfold weekly_returnDate_message.
  exists "Return date should be approximately ",
    (" days after pickup date for " +:+ string_of_Z (weeks formData) +:+ " week" +:+
     (if 1 <? weeks formData then "s" else "")).
  reflexivity.
Qed.

(** C4. For a weekly booking whose return date is after its pickup date,
    the validator reports a return date error, which names the expected
    number of days weeks * 7, exactly when the number of days from pickup
    to return differs from weeks * 7 by more than 2; from 2025-01-15 to
    2025-01-20 for 2 weeks is rejected (14 days expected, 5 given). *)
Theorem weekly_returnDate_validation (tz now : Z) (formData : FormData)
    (pickup ret : Z) :
  bookingType formData = weekly ->
  pickupDate formData = Some pickup ->
  returnDate formData = Some ret ->
  pickup < ret ->
  let error := validateForm_errors tz now formData !! "returnDate" in
  let expectedDays := weeks formData * 7 in
  (2 < Z.abs (ret - pickup - expectedDays) <-> error <> None) /\
  (error <> None ->
   error = Some (Some (weekly_returnDate_message formData)) /\
   contains (weekly_returnDate_message formData) (string_of_Z expectedDays)) /\
  (pickup = ymd 2025 1 15 -> ret = ymd 2025 1 20 -> weeks formData = 2 ->
   error = Some (Some
     "Return date should be approximately 14 days after pickup date for 2 weeks")).
Proof.
  intros Hweekly Hpickup Hret Hafter. cbv zeta.
  rewrite validateForm_errors_weekly_returnDate by done.
  unfold validate_weekly_returnDate. rewrite Hpickup, Hret, days_between.
  replace (JSDate.of_date ret <=? JSDate.of_date pickup) with false.
  2:{ symmetry. apply Z.leb_gt. unfold JSDate.of_date, JSDate.MakeDate, JSDate.msPerDay.
      lia. }
  destruct (2 <? Z.abs (ret - pickup - weeks formData * 7)) eqn:Hfar.
  - apply Z.ltb_lt in Hfar. rewrite report_same.
    split; [done |]. split.
    + intros _. split; [done | apply weekly_returnDate_message_names].
    + intros -> -> Hweeks. unfold weekly_returnDate_message. by rewrite Hweeks.
  - apply Z.ltb_ge in Hfar. rewrite lookup_empty.
    split; [split; [lia | done] |]. split; [done |].
    intros -> -> Hweeks. rewrite Hweeks in Hfar. vm_compute in Hfar. by destruct Hfar.
Qed.

Lemma weekly_returnDate_validation_witness :
  bookingType (sample_form weekly 1 2 (Some (ymd 2025 1 15)) (Some (ymd 2025 1 20)))
    = weekly /\
  ymd 2025 1 15 < ymd 2025 1 20 /\
  validateForm_errors 19800000 (JSDate.of_date (ymd 2025 1 1))
    (sample_form weekly 1 2 (Some (ymd 2025 1 15)) (Some (ymd 2025 1 20)))
    !! "returnDate" =
  Some (Some "Return date should be approximately 14 days after pickup date for 2 weeks").
Proof.
  assert (Hlt : ymd 2025 1 15 < ymd 2025 1 20) by (vm_compute; reflexivity).
  pose proof (weekly_returnDate_validation 19800000 (JSDate.of_date (ymd 2025 1 1))
                (sample_form weekly 1 2 (Some (ymd 2025 1 15)) (Some (ymd 2025 1 20)))
                (ymd 2025 1 15) (ymd 2025 1 20) eq_refl eq_refl eq_refl Hlt) as H.
  cbv zeta in H. destruct H as (_ & _ & Hex).
  exact (conj eq_refl (conj Hlt (Hex eq_refl eq_refl eq_refl))).
Defined.

(** ** Automatic return date *)




(** ** Submission: what a run leaves behind *)

Lemma after_nil w : after [] w = w.
Proof. destruct w. unfold after. simpl. by rewrite app_nil_r. Qed.

Lemma after_after e1 e2 w : after e2 (after e1 w) = after (e1 ++ e2) w.
Proof. unfold after. simpl. by rewrite app_assoc. Qed.

Lemma emit_run e w : emit e w = (tt, after [e] w).
Proof. reflexivity. Qed.

Ltac io_run :=
  unfold mbind, IO_bind, mret, IO_ret, insert, alert, emit, getItem, storeItem,
    setCurrentStep, setIsSubmitting, setErrors, after; cbn -[bookingPayload].

Lemma submitToSupabase_run host payload w :
  submitToSupabase host payload w =
  (remote_succeeds host "bookings" (bookingPayload payload),
   after (Call remote_daily ::
          remote_events host "bookings" "Supabase Error: " (bookingPayload payload)) w).
Proof.
  unfold submitToSupabase, remote_succeeds, remote_events.
  destruct (credentials_missing host); [by io_run |].
  destruct (supabase_insert host "bookings" (bookingPayload payload)) eqn:Hreply;
    io_run; rewrite Hreply; io_run; by rewrite <- ?app_assoc.
Qed.

Lemma submitWeeklyBookingToSupabase_run host payload w :
  submitWeeklyBookingToSupabase host payload w =
  (remote_succeeds host "weekly_bookings" payload,
   after (Call remote_weekly ::
          remote_events host "weekly_bookings" "Weekly Booking Supabase Error: " payload)
     w).
Proof.
  unfold submitWeeklyBookingToSupabase, remote_succeeds, remote_events.
  destruct (credentials_missing host); [by io_run |].
  destruct (supabase_insert host "weekly_bookings" payload) eqn:Hreply;
    io_run; rewrite Hreply; io_run; by rewrite <- ?app_assoc.
Qed.

Lemma submitToGoogleForm_run host payload w :
  submitToGoogleForm host payload w =
  (relay_succeeds host payload, after [Call relay; Fetch google_form_url payload] w).
Proof.
  unfold submitToGoogleForm, relay_succeeds.
  destruct (google_fetch host payload); io_run; by rewrite <- ?app_assoc.
Qed.

Lemma storeBookingLocally_run host payload w :
  storeBookingLocally host payload w =
  (local_succeeds host w,
   with_item (local_item host payload w)
     (after (Call local :: local_events host payload w) w)).
Proof.
  unfold storeBookingLocally, local_succeeds, local_events, local_item, with_item.
  destruct w as [item step errs sub tr].
  destruct item as [|bookings|]; io_run; try done;
    destruct (setItem_throws host); io_run; by rewrite <- ?app_assoc.
Qed.

Ltac adapters_run :=
  rewrite ?submitToSupabase_run, ?submitWeeklyBookingToSupabase_run,
    ?submitToGoogleForm_run, ?storeBookingLocally_run.

(** The run of a daily submission, tier by tier. *)
Lemma submitBooking_daily_run host bookingData formData w :
  bookingType formData = daily ->
  let remote := remote_succeeds host "bookings" (bookingPayload (supabasePayload bookingData formData)) in
  let relayed := relay_succeeds host (commonPayload host bookingData formData) in
  let saved := local_succeeds host w in
  let tiers :=
    Call remote_daily ::
    remote_events host "bookings" "Supabase Error: "
      (bookingPayload (supabasePayload bookingData formData)) ++
    (if remote then []
     else Call relay :: Fetch google_form_url (commonPayload host bookingData formData) ::
          (if relayed then []
           else Call local ::
                local_events host (commonPayload host bookingData formData) w)) in
  let w' := snd (submitBooking host (Some bookingData) formData w) in
  trace w' =
    trace w ++ tiers ++
    (if remote || relayed || saved then [] else [Alert support_directive]) /\
  pendingBookings w' =
    (if remote || relayed then pendingBookings w
     else local_item host (commonPayload host bookingData formData) w) /\
  currentStep w' = (if remote || relayed || saved then thank_you else currentStep w) /\
  errors w' = errors w /\
  isSubmitting w' = false.
Proof.
  intros Hdaily. cbv zeta.
  unfold submitBooking, submitBooking_body, submitBooking_try. rewrite Hdaily.
  unfold mbind, IO_bind, setIsSubmitting. adapters_run.
  destruct (remote_succeeds host "bookings" _) eqn:Hremote; simpl.
  { io_run. rewrite <- ?app_assoc, ?app_nil_r. done. }
  unfold mbind, IO_bind. adapters_run.
  destruct (relay_succeeds host _) eqn:Hrelay; simpl.
  { io_run. by rewrite <- !app_assoc. }
  adapters_run. unfold local_succeeds, local_events, local_item, with_item. simpl.
  destruct (stored (pendingBookings w)) as [bookings|]; simpl.
  - destruct (setItem_throws host); io_run; by rewrite <- !app_assoc.
  - io_run. by rewrite <- !app_assoc.
Qed.

(** The run of a weekly submission, tier by tier. *)
Lemma submitBooking_weekly_run host bookingData formData w :
  bookingType formData = weekly ->
  let remote :=
    remote_succeeds host "weekly_bookings" (weeklyPayload bookingData formData) in
  let saved := local_succeeds host w in
  let tiers :=
    Call remote_weekly ::
    remote_events host "weekly_bookings" "Weekly Booking Supabase Error: "
      (weeklyPayload bookingData formData) ++
    (if remote then []
     else Call local ::
          local_events host (weeklyLocalPayload host bookingData formData) w) in
  let w' := snd (submitBooking host (Some bookingData) formData w) in
  trace w' =
    trace w ++ tiers ++ (if remote || saved then [] else [Alert support_directive]) /\
  pendingBookings w' =
    (if remote then pendingBookings w
     else local_item host (weeklyLocalPayload host bookingData formData) w) /\
  currentStep w' = (if remote || saved then thank_you else currentStep w) /\
  errors w' = errors w /\
  isSubmitting w' = false.
Proof.
  intros Hweekly. cbv zeta.
  unfold submitBooking, submitBooking_body, submitBooking_try. rewrite Hweekly.
  unfold mbind, IO_bind, setIsSubmitting. adapters_run.
  destruct (remote_succeeds host "weekly_bookings" _) eqn:Hremote; simpl.
  { io_run. rewrite <- ?app_assoc, ?app_nil_r. done. }
  adapters_run. unfold local_succeeds, local_events, local_item, with_item. simpl.
  destruct (stored (pendingBookings w)) as [bookings|]; simpl.
  - destruct (setItem_throws host); io_run; by rewrite <- !app_assoc.
  - io_run. by rewrite <- !app_assoc.
Qed.

Lemma calls_app e1 e2 : calls (e1 ++ e2) = calls e1 ++ calls e2.
Proof. induction e1 as [|[] e1 IH]; simpl; by rewrite ?IH. Qed.

Lemma calls_remote_events host table prefix row :
  calls (remote_events host table prefix row) = [].
Proof.
  unfold remote_events. destruct (credentials_missing host); [done |].
  by destruct (supabase_insert host table row).
Qed.

Lemma calls_local_events host payload w : calls (local_events host payload w) = [].
Proof. unfold local_events. by destruct (stored (pendingBookings w)). Qed.

Lemma local_item_saved host payload w :
  local_succeeds host w = true ->
  exists bookings,
    stored (pendingBookings w) = Some bookings /\
    local_item host payload w =
    item_array (bookings ++ [bookingWithTimestamp host payload]).
Proof.
  unfold local_succeeds, local_item. intros [Hsome Hset]%andb_true_iff.
  apply bool_decide_eq_true in Hsome as [bookings Hsome].
  apply negb_true_iff in Hset. rewrite Hsome, Hset. by exists bookings.
Qed.

Lemma local_item_not_saved host payload w :
  local_succeeds host w = false -> local_item host payload w = pendingBookings w.
Proof.
  unfold local_succeeds, local_item. intros H.
  destruct (stored (pendingBookings w)) as [bookings|]; [| done].
  destruct (setItem_throws host); [done |].
  rewrite bool_decide_eq_true_2 in H by eauto. done.
Qed.

(** ** Daily submission *)

(** C5, as stated, fails: when the remote store and the relay have failed
    and local storage throws on the write, no entry is written, and the
    submission stays on the form. *)
Lemma daily_submission_counterexample :
  remote_succeeds full_storage_host "bookings"
    (bookingPayload
       (supabasePayload activa
          (sample_form daily 2 1 (Some (ymd 2025 1 15)) (Some (ymd 2025 1 17)))))
    = false /\
  relay_succeeds full_storage_host
    (commonPayload full_storage_host activa
       (sample_form daily 2 1 (Some (ymd 2025 1 15)) (Some (ymd 2025 1 17))))
    = false /\
  pendingBookings
    (snd (submitBooking full_storage_host (Some activa)
            (sample_form daily 2 1 (Some (ymd 2025 1 15)) (Some (ymd 2025 1 17)))
            initial_world)) = item_missing /\
  currentStep
    (snd (submitBooking full_storage_host (Some activa)
            (sample_form daily 2 1 (Some (ymd 2025 1 15)) (Some (ymd 2025 1 17)))
            initial_world)) = form.
Proof. repeat split. Qed.

(** C5, amended. A daily submission calls the remote store, then the
    relay, then local storage, in that order, each at most once, and stops
    at the first that succeeds.  When the first two fail and local storage
    takes the write, exactly one entry is added to it; when it does not,
    nothing is added.  When a tier succeeds the run ends on the
    confirmation step, and when none does it ends with the alert that asks
    to contact the shop.  The relay succeeds exactly when its request does
    not throw. *)
Theorem daily_submission (host : Host) (bookingData : BookingData)
    (formData : FormData) (w : World) :
  bookingType formData = daily ->
  let remote :=
    remote_succeeds host "bookings" (bookingPayload (supabasePayload bookingData formData)) in
  let relayed := relay_succeeds host (commonPayload host bookingData formData) in
  let saved := local_succeeds host w in
  let w' := snd (submitBooking host (Some bookingData) formData w) in
  exists events,
    trace w' = trace w ++ events /\
    calls events =
      remote_daily :: (if remote then [] else relay :: (if relayed then [] else [local])) /\
    NoDup (calls events) /\
    (remote = false -> relayed = false -> saved = true ->
     exists bookings,
       stored (pendingBookings w) = Some bookings /\
       pendingBookings w' =
       item_array (bookings ++
                   [bookingWithTimestamp host (commonPayload host bookingData formData)])) /\
    (remote || relayed || negb saved = true -> pendingBookings w' = pendingBookings w) /\
    (remote || relayed || saved = true -> currentStep w' = thank_you) /\
    (remote || relayed || saved = false ->
     currentStep w' = currentStep w /\ last events = Some (Alert support_directive)) /\
    (forall payload w0,
       fst (submitToGoogleForm host payload w0) = true <->
       google_fetch host payload = fetch_resolves).
Proof.
  intros Hdaily. cbv zeta.
  destruct (submitBooking_daily_run host bookingData formData w Hdaily)
    as (Htrace & Hitem & Hstep & _ & _).
  eexists. split; [exact Htrace |].
  set (remote := remote_succeeds host "bookings" _) in *.
  set (relayed := relay_succeeds host _) in *.
  set (saved := local_succeeds host w) in *.
  split; [| split; [| split; [| split; [| split; [| split]]]]].
  - rewrite calls_app. cbn [calls]. rewrite calls_app, calls_remote_events.
    destruct remote; simpl; [by destruct (relayed || saved) |].
    destruct relayed; simpl; [done |].
    rewrite calls_local_events. by destruct saved.
  - rewrite calls_app. cbn [calls]. rewrite calls_app, calls_remote_events.
    destruct remote; simpl.
    { destruct (relayed || saved); simpl; by apply (bool_decide_unpack _). }
    destruct relayed; simpl.
    { by apply (bool_decide_unpack _). }
    rewrite calls_local_events. destruct saved; simpl; by apply (bool_decide_unpack _).
  - intros Hr Hg Hl. rewrite Hitem, Hr, Hg. simpl. by apply local_item_saved.
  - rewrite Hitem. destruct remote; [done |]. destruct relayed; [done |]. simpl.
    intros Hl%negb_true_iff. by apply local_item_not_saved.
  - intros H. by rewrite Hstep, H.
  - intros H. rewrite Hstep, H. split; [done | apply last_snoc].
  - intros payload w0. rewrite submitToGoogleForm_run. unfold relay_succeeds. simpl.
    by destruct (google_fetch host payload).
Qed.

Lemma daily_submission_witness :
  bookingType (sample_form daily 2 1 (Some (ymd 2025 1 15)) (Some (ymd 2025 1 17)))
    = daily /\
  currentStep
    (snd (submitBooking offline_host (Some activa)
            (sample_form daily 2 1 (Some (ymd 2025 1 15)) (Some (ymd 2025 1 17)))
            initial_world)) = thank_you.
Proof.
  pose proof (daily_submission offline_host activa
                (sample_form daily 2 1 (Some (ymd 2025 1 15)) (Some (ymd 2025 1 17)))
                initial_world eq_refl) as H.
  cbv zeta in H. destruct H as (events & _ & _ & _ & _ & _ & Hstep & _).
  exact (conj eq_refl (Hstep eq_refl)).
Defined.

(** ** Weekly submission *)

(** C6. A weekly submission never calls the relay and sends no request to
    it: it calls the remote store, with the weekly table, and only when
    that fails local storage.  When both fail the run stays on the form
    and ends with the alert that asks to contact the shop directly. *)
Theorem weekly_submission (host : Host) (bookingData : BookingData)
    (formData : FormData) (w : World) :
  bookingType formData = weekly ->
  let remote :=
    remote_succeeds host "weekly_bookings" (weeklyPayload bookingData formData) in
  let saved := local_succeeds host w in
  let w' := snd (submitBooking host (Some bookingData) formData w) in
  exists events,
    trace w' = trace w ++ events /\
    calls events = remote_weekly :: (if remote then [] else [local]) /\
    (forall url body, Fetch url body ∉ events) /\
    (forall table row, Insert table row ∈ events -> table = "weekly_bookings") /\
    (remote = false -> saved = true ->
     exists bookings,
       stored (pendingBookings w) = Some bookings /\
       pendingBookings w' =
       item_array (bookings ++
                   [bookingWithTimestamp host
                      (weeklyLocalPayload host bookingData formData)])) /\
    (remote || negb saved = true -> pendingBookings w' = pendingBookings w) /\
    (remote || saved = true -> currentStep w' = thank_you) /\
    (remote = false -> saved = false ->
     currentStep w' = currentStep w /\
     last events = Some (Alert support_directive) /\
     contains support_directive "contact us directly").
Proof.
  intros Hweekly. cbv zeta.
  destruct (submitBooking_weekly_run host bookingData formData w Hweekly)
    as (Htrace & Hitem & Hstep & _ & _).
  eexists. split; [exact Htrace |].
  set (remote := remote_succeeds host "weekly_bookings" _) in *.
  set (saved := local_succeeds host w) in *.
  assert (Hevents : Forall (fun e => match e with
                                    | Fetch _ _ => False
                                    | Insert table _ => table = "weekly_bookings"
                                    | _ => True
                                    end)
    ((Call remote_weekly ::
      remote_events host "weekly_bookings" "Weekly Booking Supabase Error: "
        (weeklyPayload bookingData formData) ++
      (if remote then []
       else Call local ::
            local_events host (weeklyLocalPayload host bookingData formData) w)) ++
     (if remote || saved then [] else [Alert support_directive]))).
  { apply Forall_app. split; [| by destruct (remote || saved); repeat constructor].
    constructor; [done |]. apply Forall_app. split.
    - unfold remote_events. destruct (credentials_missing host); [constructor |].
      constructor; [done |]. destruct (supabase_insert host _ _); by repeat constructor.
    - destruct remote; [constructor |]. constructor; [done |].
      unfold local_events. destruct (stored (pendingBookings w)); by repeat constructor. }
  rewrite Forall_forall in Hevents.
  split; [| split; [| split; [| split; [| split; [| split]]]]].
  - rewrite calls_app. cbn [calls]. rewrite calls_app, calls_remote_events.
    destruct remote; simpl; [done |].
    rewrite calls_local_events. by destruct saved.
  - intros url body He. by apply Hevents in He.
  - intros table row He. by apply Hevents in He.
  - intros Hr Hl. rewrite Hitem, Hr. by apply local_item_saved.
  - rewrite Hitem. destruct remote; [done |]. simpl.
    intros Hl%negb_true_iff. by apply local_item_not_saved.
  - intros H. by rewrite Hstep, H.
  - intros Hr Hl. rewrite Hstep, Hr, Hl. cbn [orb]. split; [done |].
    split; [apply last_snoc |].
    by exists "There was an error submitting your booking. Please ",
      " with your booking details.".
Qed.

Lemma weekly_submission_witness :
  bookingType (sample_form weekly 1 2 (Some (ymd 2025 1 15)) (Some (ymd 2025 1 29)))
    = weekly /\
  calls (trace
    (snd (submitBooking offline_host (Some activa)
            (sample_form weekly 1 2 (Some (ymd 2025 1 15)) (Some (ymd 2025 1 29)))
            initial_world))) = [remote_weekly; local].
Proof.
  pose proof (weekly_submission offline_host activa
                (sample_form weekly 1 2 (Some (ymd 2025 1 15)) (Some (ymd 2025 1 29)))
                initial_world eq_refl) as H.
  cbv zeta in H. destruct H as (events & Htrace & Hcalls & _).
  refine (conj eq_refl _). rewrite Htrace. exact Hcalls.
Defined.

(** ** Missing credentials *)

Lemma remote_missing host table prefix row :
  credentials_missing host = true ->
  remote_succeeds host table row = false /\ remote_events host table prefix row = [].
Proof. intros H. unfold remote_succeeds, remote_events. by rewrite H. Qed.

Lemma same_fallbacks_commonPayload host host' bookingData formData :
  same_fallbacks host host' ->
  commonPayload host bookingData formData = commonPayload host' bookingData formData.
Proof. intros (_ & _ & Hnow). unfold commonPayload. by rewrite Hnow. Qed.

Lemma same_fallbacks_weeklyLocalPayload host host' bookingData formData :
  same_fallbacks host host' ->
  weeklyLocalPayload host bookingData formData =
  weeklyLocalPayload host' bookingData formData.
Proof. intros (_ & _ & Hnow). unfold weeklyLocalPayload. by rewrite Hnow. Qed.

Lemma same_fallbacks_local host host' payload w :
  same_fallbacks host host' ->
  local_succeeds host w = local_succeeds host' w /\
  local_events host payload w = local_events host' payload w /\
  local_item host payload w = local_item host' payload w.
Proof.
  intros (_ & Hset & Hnow).
  unfold local_succeeds, local_events, local_item, bookingWithTimestamp.
  by rewrite Hset, Hnow.
Qed.

Lemma same_fallbacks_relay host host' body :
  same_fallbacks host host' -> relay_succeeds host body = relay_succeeds host' body.
Proof. intros (Hfetch & _). unfold relay_succeeds. by rewrite Hfetch. Qed.




(** ** Local storage *)

(** C10. A local write that succeeds on a storage item holding a sequence
    of bookings appends exactly one entry and leaves the entries before it
    as they were.  The entry has the payload's fields, a [savedAt] time
    stamp and an [id] that starts with "local-". *)
Theorem local_write_appends (host : Host) (payload : jobject) (w : World)
    (bookings : list jobject) :
  stored (pendingBookings w) = Some bookings ->
  fst (storeBookingLocally host payload w) = true ->
  let w' := snd (storeBookingLocally host payload w) in
  exists entry : jobject,
    pendingBookings w' = item_array (bookings ++ [entry]) /\
    length (bookings ++ [entry]) = S (length bookings) /\
    (forall (i : nat) (booking : jobject),
       bookings !! i = Some booking -> (bookings ++ [entry]) !! i = Some booking) /\
    (forall key, key <> "savedAt" -> key <> "id" -> entry !! key = payload !! key) /\
    entry !! "savedAt" = Some (JStr (JSDate.toISOString (Date_now host))) /\
    (exists digits, entry !! "id" = Some (JStr ("local-" +:+ digits))) /\
    currentStep w' = currentStep w /\
    errors w' = errors w /\
    isSubmitting w' = isSubmitting w.
Proof.
  intros Hstored. rewrite storeBookingLocally_run. cbn [fst snd]. intros Hok.
  destruct (local_item_saved host payload w Hok) as (bookings' & Hstored' & Hitem).
  assert (bookings' = bookings) as -> by congruence.
  exists (bookingWithTimestamp host payload).
  split; [exact Hitem |].
  split; [rewrite length_app; simpl; lia |].
  split; [intros i booking Hi; by apply lookup_app_l_Some |].
  unfold bookingWithTimestamp.
  split; [intros key Hs Hi; by rewrite !lookup_insert_ne |].
  split; [by rewrite lookup_insert_ne, lookup_insert_eq |].
  split; [exists (string_of_Z (Date_now host)); by rewrite lookup_insert_eq |].
  done.
Qed.

(** A third booking saved after two: the two are still there, in their
    places, and the new entry follows them. *)
Lemma local_write_appends_witness :
  let earlier : list jobject :=
    [{["name" := JStr "Ravi Kumar"]}; {["name" := JStr "Meera Nair"]}] in
  let payload : jobject := {["name" := JStr "Asha Rao"]} in
  let w := with_item (item_array earlier) initial_world in
  stored (pendingBookings w) = Some earlier /\
  fst (storeBookingLocally offline_host payload w) = true /\
  exists entry : jobject,
    pendingBookings (snd (storeBookingLocally offline_host payload w)) =
      item_array (earlier ++ [entry]) /\
    length (earlier ++ [entry]) = 3%nat /\
    (earlier ++ [entry]) !! 0%nat = Some {["name" := JStr "Ravi Kumar"]} /\
    (earlier ++ [entry]) !! 1%nat = Some {["name" := JStr "Meera Nair"]} /\
    entry !! "name" = Some (JStr "Asha Rao") /\
    entry !! "savedAt" = Some (JStr "2025-01-15T00:00:00.123Z") /\
    entry !! "id" = Some (JStr "local-1736899200123").
Proof.
  cbv zeta.
  pose proof (local_write_appends offline_host {["name" := JStr "Asha Rao"]}
                (with_item
                   (item_array [{["name" := JStr "Ravi Kumar"]};
                                {["name" := JStr "Meera Nair"]}])
                   initial_world)
                [{["name" := JStr "Ravi Kumar"]}; {["name" := JStr "Meera Nair"]}]
                eq_refl eq_refl) as H.
  cbv zeta in H.
  destruct H as (entry & Hitem & Hlen & Hkeep & Hfields & Hsaved & _).
  refine (conj eq_refl (conj eq_refl (ex_intro _ entry
            (conj Hitem (conj Hlen (conj (Hkeep 0%nat _ eq_refl)
               (conj (Hkeep 1%nat _ eq_refl) (conj _ (conj Hsaved _))))))))).
  - rewrite (Hfields "name") by discriminate. reflexivity.
  - injection Hitem as <-. reflexivity.
Defined.

(** ** Validation gates submission *)

(** A form that validates, for a selected vehicle, is submitted. *)
Lemma handleSubmit_validated host tz bookingData formData w :
  validateForm tz (Date_now host) formData = true ->
  handleSubmit host tz (Some bookingData) formData w =
  submitBooking host (Some bookingData) formData (snd (setErrors ∅ w)).
Proof.
  intros Hvalid. unfold handleSubmit. rewrite Hvalid.
  rewrite bool_decide_eq_true_2 by eauto. cbn [negb orb].
  apply bool_decide_eq_true in Hvalid. rewrite Hvalid. reflexivity.
Qed.

(** A form that does not validate is not: no adapter is called. *)
Lemma handleSubmit_rejected host tz bookingData formData w :
  validateForm tz (Date_now host) formData = false ->
  trace (snd (handleSubmit host tz bookingData formData w)) = trace w.
Proof. intros Hinvalid. unfold handleSubmit. by rewrite Hinvalid. Qed.

(** * Further properties of the code

    Properties of the same component, and of the modules beside it, that
    the code shows by itself. *)

(** ** The name check *)

Lemma lang_Star_Class_inv p l :
  Regex.lang (Regex.Star (Regex.Class p)) l <-> Forall (fun c => p c = true) l.
Proof.
  induction l as [|c l IH].
  - split; [constructor | intros _; constructor].
  - split.
    + intros H. apply lang_Star_cons in H as (l1 & l2 & -> & H1 & H2).
      apply lang_Class_inv in H1 as (c' & [= <- ->] & Hc). simpl in *.
      constructor; [done |]. by apply IH.
    + intros H. inversion H; subst.
      apply (Regex.lang_star_app (Regex.Class p) [c] l); [by constructor | by apply IH].
Qed.

Lemma re_name_spec t :
  Regex.test re_name t = true <-> t <> "" /\ letters_and_spaces t.
Proof.
  unfold Regex.test, re_name, Regex.Plus, letters_and_spaces, is_letter.
  rewrite matches_spec, lang_Cat_inv. split.
  - intros (l1 & l2 & Ht & H1 & H2).
    apply lang_Class_inv in H1 as (c & -> & Hc).
    apply lang_Star_Class_inv in H2. split.
    + intros ->. discriminate.
    + rewrite Ht. by constructor.
  - intros [Hne Hall]. destruct t as [|c t]; [done |]. simpl in *.
    inversion Hall; subst.
    exists [c], (list_ascii_of_string t). split; [done |]. split.
    + apply lang_Class_inv. by exists c.
    + by apply lang_Star_Class_inv.
Qed.

Lemma validateForm_errors_name tz now formData :
  validateForm_errors tz now formData !! "name" =
  validate_name formData ∅ !! "name".
Proof.
  unfold validateForm_errors. destruct (bookingType formData).
  - by rewrite validate_times_other, validate_daily_returnDate_other,
      validate_pickupDate_other, validate_days_other, validate_address_other,
      validate_contact_other by done.
  - by rewrite validate_weekly_returnDate_other, validate_pickupDate_other,
      validate_weeks_other, validate_address_other, validate_contact_other by done.
Qed.

(** X1. The validator reports no name error exactly when the name, without
    the white space at its two ends, has 2 to 60 characters, all of them
    letters or white space (a name of 60 characters passes, whatever the
    message says).  An empty name, a name of one character, a name of more
    than 60 characters and a name with another character each get their
    own message. *)
Theorem name_validation (zone : JSDate.Zone) (now : Z) (formData : FormData)
    (fullName : string) :
  trimmed (name formData) fullName ->
  let error := validateForm_errors zone now formData !! "name" in
  (error = None <-> 2 <= strlen fullName <= 60 /\ letters_and_spaces fullName) /\
  (fullName = "" -> error = Some (Some "Full name is required")) /\
  (strlen fullName = 1 -> error = Some (Some "Name must be at least 2 characters")) /\
  (60 < strlen fullName -> error = Some (Some "Name must be less than 60 characters")) /\
  (2 <= strlen fullName <= 60 -> ~ letters_and_spaces fullName ->
   error = Some (Some "Name can only contain letters and spaces")).
Proof.
  intros ->%trimmed_unique.
  cbv zeta. rewrite validateForm_errors_name. unfold validate_name.
  set (t := trim (name formData)).
  destruct (nonempty t) eqn:Hne; simpl.
  2:{ apply nonempty_false in Hne. rewrite Hne, report_same. simpl.
      unfold strlen; simpl. repeat split; try done; try lia;
      try (intros [? _]; lia). }
  assert (Ht : t <> "").
  { intros H. apply nonempty_false in H. congruence. }
  assert (Hlen : 1 <= strlen t).
  { unfold strlen. destruct t; [done | simpl; lia]. }
  destruct (strlen t <? 2) eqn:H2; [apply Z.ltb_lt in H2 | apply Z.ltb_ge in H2].
  { rewrite report_same. repeat split; try done; try lia; try (intros [? _]; lia). }
  destruct (60 <? strlen t) eqn:H60; [apply Z.ltb_lt in H60 | apply Z.ltb_ge in H60].
  { rewrite report_same. repeat split; try done; try lia; try (intros [? _]; lia). }
  destruct (Regex.test re_name t) eqn:Hre; simpl.
  - apply re_name_spec in Hre as [_ Hre]. rewrite lookup_empty.
    repeat split; try done; try lia.
  - rewrite report_same.
    assert (Hnot : ~ letters_and_spaces t).
    { intros H. assert (Regex.test re_name t = true) by by apply re_name_spec.
      congruence. }
    repeat split; try done; try lia; try (intros [_ ?]; done).
Qed.

(** A name typed with blanks around it. *)
Lemma name_validation_witness :
  let formData :=
    {| name := "  Asha Rao "; contact := ""; address := ""; days := 1;
       bookingType := daily; weeks := 1; pickupDate := None; returnDate := None;
       pickupTime := None; returnTime := None |} in
  trimmed (name formData) "Asha Rao" /\
  validateForm_errors 19800000 0 formData !! "name" = None.
Proof.
  cbv zeta.
  assert (Htrim : trimmed "  Asha Rao " "Asha Rao") by (by apply trimmed_iff).
  pose proof (name_validation 19800000 0
                {| name := "  Asha Rao "; contact := ""; address := ""; days := 1;
                   bookingType := daily; weeks := 1; pickupDate := None;
                   returnDate := None; pickupTime := None; returnTime := None |}
                "Asha Rao" Htrim) as H.
  cbv zeta in H. destruct H as [H _].
  refine (conj Htrim (proj2 H _)).
  split; [by vm_compute | vm_compute; repeat constructor].
Defined.

(** ** The forms the validator accepts *)

Lemma report_nonempty key msg (errs : FormErrors) : report key msg errs <> ∅.
Proof. unfold report. apply insert_non_empty. Qed.

Ltac no_report :=
  repeat match goal with
  | H : report _ _ _ = ∅ |- _ => by apply report_nonempty in H
  end.

Lemma validate_name_empty formData errs :
  validate_name formData errs = ∅ <->
  errs = ∅ /\ 2 <= strlen (trim (name formData)) <= 60 /\
  letters_and_spaces (trim (name formData)).
Proof.
  unfold validate_name. set (t := trim (name formData)).
  destruct (nonempty t) eqn:Hne; simpl.
  2:{ apply nonempty_false in Hne. rewrite Hne. unfold strlen. simpl.
      split; [intros; no_report | intros (_ & ? & _); lia]. }
  destruct (strlen t <? 2) eqn:H2; [apply Z.ltb_lt in H2 | apply Z.ltb_ge in H2].
  { split; [intros; no_report | intros (_ & ? & _); lia]. }
  destruct (60 <? strlen t) eqn:H60; [apply Z.ltb_lt in H60 | apply Z.ltb_ge in H60].
  { split; [intros; no_report | intros (_ & ? & _); lia]. }
  destruct (Regex.test re_name t) eqn:Hre; simpl.
  - apply re_name_spec in Hre as [_ Hre]. split; [intros ->; repeat split; done || lia | by intros [-> _]].
  - split; [intros; no_report |]. intros (_ & _ & H).
    assert (Regex.test re_name t = true); [| congruence].
    apply re_name_spec. split; [| done]. intros Ht.
    apply nonempty_false in Ht. congruence.
Qed.

Lemma validate_contact_empty formData errs :
  validate_contact formData errs = ∅ <->
  errs = ∅ /\ mobile_number (strip_spaces (contact formData)).
Proof.
  unfold validate_contact.
  destruct (nonempty (strip_spaces (contact formData))) eqn:Hne; simpl.
  2:{ split; [intros; no_report |]. intros [_ H%mobile_number_nonempty].
      by apply nonempty_false in Hne. }
  destruct (Regex.test re_mobile (strip_spaces (contact formData))) eqn:Hre; simpl.
  - apply re_mobile_spec in Hre. split; [by intros -> | by intros [-> _]].
  - split; [intros; no_report |]. intros [_ H%re_mobile_spec]. congruence.
Qed.

Lemma validate_address_empty formData errs :
  validate_address formData errs = ∅ <->
  errs = ∅ /\ 10 <= strlen (trim (address formData)).
Proof.
  unfold validate_address. set (t := trim (address formData)).
  destruct (nonempty t) eqn:Hne; simpl.
  2:{ apply nonempty_false in Hne. rewrite Hne. unfold strlen. simpl.
      split; [intros; no_report | intros [_ ?]; lia]. }
  destruct (strlen t <? 10) eqn:H10; [apply Z.ltb_lt in H10 | apply Z.ltb_ge in H10].
  - split; [intros; no_report | intros [_ ?]; lia].
  - split; [by intros -> | by intros [-> _]].
Qed.

Lemma validate_days_empty formData errs :
  validate_days formData errs = ∅ <-> errs = ∅ /\ 1 <= days formData <= 30.
Proof.
  unfold validate_days, truthy.
  destruct (days formData =? 0) eqn:H0; [apply Z.eqb_eq in H0 | apply Z.eqb_neq in H0];
    simpl.
  { split; [intros; no_report | intros [_ ?]; lia]. }
  destruct (days formData <? 1) eqn:H1; [apply Z.ltb_lt in H1 | apply Z.ltb_ge in H1].
  { split; [intros; no_report | intros [_ ?]; lia]. }
  destruct (30 <? days formData) eqn:H30; [apply Z.ltb_lt in H30 | apply Z.ltb_ge in H30].
  - split; [intros; no_report | intros [_ ?]; lia].
  - split; [intros ->; split; [done | lia] | by intros [-> _]].
Qed.

Lemma validate_weeks_empty formData errs :
  validate_weeks formData errs = ∅ <-> errs = ∅ /\ 1 <= weeks formData <= 12.
Proof.
  unfold validate_weeks, truthy.
  destruct (weeks formData =? 0) eqn:H0; [apply Z.eqb_eq in H0 | apply Z.eqb_neq in H0];
    simpl.
  { split; [intros; no_report | intros [_ ?]; lia]. }
  destruct (weeks formData <? 1) eqn:H1; [apply Z.ltb_lt in H1 | apply Z.ltb_ge in H1].
  { split; [intros; no_report | intros [_ ?]; lia]. }
  destruct (12 <? weeks formData) eqn:H12; [apply Z.ltb_lt in H12 | apply Z.ltb_ge in H12].
  - split; [intros; no_report | intros [_ ?]; lia].
  - split; [intros ->; split; [done | lia] | by intros [-> _]].
Qed.

Lemma validate_pickupDate_empty tz now required formData errs :
  validate_pickupDate tz now required formData errs = ∅ <->
  errs = ∅ /\
  exists pickup, pickupDate formData = Some pickup /\
                 JSDate.local_midnight tz now <= JSDate.of_date pickup.
Proof.
  unfold validate_pickupDate. destruct (pickupDate formData) as [pickup|].
  2:{ split; [intros; no_report | by intros [_ (? & ? & _)]]. }
  destruct (JSDate.of_date pickup <? JSDate.local_midnight tz now) eqn:Hlt;
    [apply Z.ltb_lt in Hlt | apply Z.ltb_ge in Hlt].
  - split; [intros; no_report |]. intros [_ (p & [= <-] & ?)]. lia.
  - split; [intros ->; eauto | by intros [-> _]].
Qed.

Lemma of_date_lt a b : JSDate.of_date a < JSDate.of_date b <-> a < b.
Proof. unfold JSDate.of_date, JSDate.MakeDate, JSDate.msPerDay. lia. Qed.

Lemma of_date_le a b : JSDate.of_date a <= JSDate.of_date b <-> a <= b.
Proof. unfold JSDate.of_date, JSDate.MakeDate, JSDate.msPerDay. lia. Qed.

Lemma validate_weekly_returnDate_empty formData errs pickup :
  pickupDate formData = Some pickup ->
  validate_weekly_returnDate formData errs = ∅ <->
  errs = ∅ /\
  exists ret, returnDate formData = Some ret /\ pickup < ret /\
              Z.abs (ret - pickup - weeks formData * 7) <= 2.
Proof.
  intros Hpickup. unfold validate_weekly_returnDate. rewrite Hpickup.
  destruct (returnDate formData) as [ret|].
  2:{ split; [intros; no_report | by intros [_ (? & ? & _)]]. }
  rewrite days_between.
  destruct (2 <? Z.abs (ret - pickup - weeks formData * 7)) eqn:Hfar;
    [apply Z.ltb_lt in Hfar | apply Z.ltb_ge in Hfar].
  { split; [intros; no_report |]. intros [_ (r & [= <-] & _ & ?)]. lia. }
  destruct (JSDate.of_date ret <=? JSDate.of_date pickup) eqn:Hle;
    [apply Z.leb_le in Hle; rewrite of_date_le in Hle
    | apply Z.leb_gt in Hle; rewrite of_date_lt in Hle].
  - split; [intros; no_report |]. intros [_ (r & [= <-] & ? & _)]. lia.
  - split; [intros ->; eauto 6 | by intros [-> _]].
Qed.

Lemma validate_daily_returnDate_empty formData errs pickup :
  pickupDate formData = Some pickup ->
  days formData <> 0 ->
  validate_daily_returnDate formData errs = ∅ <->
  errs = ∅ /\ exists ret, returnDate formData = Some ret /\ pickup <= ret.
Proof.
  intros Hpickup Hdays. unfold validate_daily_returnDate. rewrite Hpickup.
  destruct (returnDate formData) as [ret|].
  - destruct (JSDate.of_date ret <? JSDate.of_date pickup) eqn:Hlt;
      [apply Z.ltb_lt in Hlt; rewrite of_date_lt in Hlt
      | apply Z.ltb_ge in Hlt; rewrite of_date_le in Hlt].
    + split; [intros; no_report |]. intros [_ (r & [= <-] & ?)]. lia.
    + split; [intros ->; eauto | by intros [-> _]].
  - apply truthy_true in Hdays. rewrite Hdays.
    split; [intros; no_report | by intros [_ (? & ? & _)]].
Qed.

Lemma of_local_le (tz : Z) d1 t1 d2 t2 :
  JSDate.of_local tz d1 t1 <= JSDate.of_local tz d2 t2 <->
  d1 * 1440 + t1 <= d2 * 1440 + t2.
Proof.
  unfold JSDate.of_local, JSDate.UTC, JSDate.MakeDate, JSDate.msPerDay,
    JSDate.msPerMinute. cbn [JSDate.LocalTZA JSDate.fixed]. lia.
Qed.

Lemma of_local_lt (tz : Z) d1 t1 d2 t2 :
  JSDate.of_local tz d1 t1 < JSDate.of_local tz d2 t2 <->
  d1 * 1440 + t1 < d2 * 1440 + t2.
Proof.
  unfold JSDate.of_local, JSDate.UTC, JSDate.MakeDate, JSDate.msPerDay,
    JSDate.msPerMinute. cbn [JSDate.LocalTZA JSDate.fixed]. lia.
Qed.

Lemma validate_times_empty zone formData errs pickup ret :
  pickupDate formData = Some pickup ->
  returnDate formData = Some ret ->
  validate_times zone formData errs = ∅ <->
  errs = ∅ /\
  exists pt rt, pickupTime formData = Some pt /\ returnTime formData = Some rt /\
                JSDate.of_local zone pickup pt < JSDate.of_local zone ret rt.
Proof.
  intros Hpickup Hret. unfold validate_times. rewrite Hpickup, Hret.
  destruct (pickupTime formData) as [pt|], (returnTime formData) as [rt|].
  2-4: split; [intros; no_report | by intros [_ (? & ? & ? & ? & _)]].
  destruct (JSDate.of_local zone ret rt <=? JSDate.of_local zone pickup pt) eqn:Hle;
    [apply Z.leb_le in Hle | apply Z.leb_gt in Hle].
  - split; [intros; no_report |]. intros [_ (p & r & [= <-] & [= <-] & ?)]. lia.
  - split; [| by intros [-> _]]. intros ->. split; [done |].
    exists pt, rt. split; [done |]. split; [done |]. lia.
Qed.

Lemma validateForm_errors_empty zone now formData :
  validateForm_errors zone now formData = ∅ <-> checks_hold zone now formData.
Proof.
  unfold checks_hold.
  unfold validateForm_errors. destruct (bookingType formData).
  - split.
    + intros H.
      destruct (pickupDate formData) as [pickup|] eqn:Hpickup.
      2:{ unfold validate_times in H. rewrite Hpickup in H.
          unfold validate_daily_returnDate, validate_pickupDate in H.
          rewrite Hpickup in H. exfalso.
          repeat case_match; no_report. }
      destruct (returnDate formData) as [ret|] eqn:Hret.
      2:{ unfold validate_times in H. rewrite Hpickup, Hret in H.
          assert (Hd : validate_daily_returnDate formData
                    (validate_pickupDate zone now "Pickup date is required" formData
                       (validate_days formData
                          (validate_address formData
                             (validate_contact formData (validate_name formData ∅))))) = ∅).
          { repeat case_match; no_report; done. }
          unfold validate_daily_returnDate in Hd. rewrite Hpickup, Hret in Hd.
          destruct (truthy (days formData)) eqn:Ht; [no_report |].
          apply validate_pickupDate_empty in Hd as [Hd _].
          apply validate_days_empty in Hd as [_ Hd].
          unfold truthy in Ht. apply negb_false_iff, Z.eqb_eq in Ht. lia. }
      apply (validate_times_empty _ _ _ pickup ret Hpickup Hret) in H.
      destruct H as [H Htimes].
      assert (Hdays : 1 <= days formData <= 30).
      { unfold validate_daily_returnDate in H. rewrite Hpickup, Hret in H.
        case_match; no_report.
        apply validate_pickupDate_empty in H as [H _].
        by apply validate_days_empty in H as [_ H]. }
      apply (validate_daily_returnDate_empty _ _ pickup Hpickup) in H; [| lia].
      destruct H as [H (r & Hr1 & Hr)].
      assert (r = ret) as -> by congruence.
      apply validate_pickupDate_empty in H as [H (p & Hp1 & Hp)].
      assert (p = pickup) as -> by congruence.
      apply validate_days_empty in H as [H _].
      apply validate_address_empty in H as [H Haddr].
      apply validate_contact_empty in H as [H Hcontact].
      apply validate_name_empty in H as [_ Hname].
      repeat split; try tauto. exists pickup, ret. tauto.
    + intros (Hname & Hcontact & Haddr & pickup & ret & Hpickup & Hret & Hp & Hdays & Hr
              & Htimes).
      apply (validate_times_empty _ _ _ pickup ret); [done.. |]. split; [| done].
      apply (validate_daily_returnDate_empty _ _ pickup); [done | lia |].
      split; [| eauto].
      apply validate_pickupDate_empty. split; [| eauto].
      apply validate_days_empty. split; [| done].
      apply validate_address_empty. split; [| done].
      apply validate_contact_empty. split; [| done].
      by apply validate_name_empty.
  - split.
    + intros H.
      destruct (pickupDate formData) as [pickup|] eqn:Hpickup.
      2:{ unfold validate_weekly_returnDate, validate_pickupDate in H.
          rewrite Hpickup in H. exfalso. repeat case_match; no_report. }
      apply (validate_weekly_returnDate_empty _ _ pickup Hpickup) in H.
      destruct H as [H (ret & Hret & Hr)].
      apply validate_pickupDate_empty in H as [H (p & Hp1 & Hp)].
      assert (p = pickup) as -> by congruence.
      apply validate_weeks_empty in H as [H Hweeks].
      apply validate_address_empty in H as [H Haddr].
      apply validate_contact_empty in H as [H Hcontact].
      apply validate_name_empty in H as [_ Hname].
      repeat split; try tauto. exists pickup, ret. tauto.
    + intros (Hname & Hcontact & Haddr & pickup & ret & Hpickup & Hret & Hp & Hweeks & Hr).
      apply (validate_weekly_returnDate_empty _ _ pickup); [done |]. split; [| eauto].
      apply validate_pickupDate_empty. split; [| eauto].
      apply validate_weeks_empty. split; [| done].
      apply validate_address_empty. split; [| done].
      apply validate_contact_empty. split; [| done].
      by apply validate_name_empty.
Qed.

(** The validator stores messages only, never [undefined]. *)

Lemma report_defined key msg errs :
  no_undefined errs -> no_undefined (report key msg errs).
Proof.
  intros H k. unfold report. destruct (decide (k = key)) as [-> | Hne].
  - by rewrite lookup_insert_eq.
  - rewrite lookup_insert_ne by done. apply H.
Qed.

Ltac defined := intros; repeat case_match; repeat apply report_defined; assumption.

Lemma validate_name_defined formData errs :
  no_undefined errs -> no_undefined (validate_name formData errs).
Proof. unfold validate_name. defined. Qed.

Lemma validate_contact_defined formData errs :
  no_undefined errs -> no_undefined (validate_contact formData errs).
Proof. unfold validate_contact. defined. Qed.

Lemma validate_address_defined formData errs :
  no_undefined errs -> no_undefined (validate_address formData errs).
Proof. unfold validate_address. defined. Qed.

Lemma validate_days_defined formData errs :
  no_undefined errs -> no_undefined (validate_days formData errs).
Proof. unfold validate_days. defined. Qed.

Lemma validate_weeks_defined formData errs :
  no_undefined errs -> no_undefined (validate_weeks formData errs).
Proof. unfold validate_weeks. defined. Qed.

Lemma validate_pickupDate_defined tz now required formData errs :
  no_undefined errs -> no_undefined (validate_pickupDate tz now required formData errs).
Proof. unfold validate_pickupDate. defined. Qed.

Lemma validate_weekly_returnDate_defined formData errs :
  no_undefined errs -> no_undefined (validate_weekly_returnDate formData errs).
Proof. unfold validate_weekly_returnDate. defined. Qed.

Lemma validate_daily_returnDate_defined formData errs :
  no_undefined errs -> no_undefined (validate_daily_returnDate formData errs).
Proof. unfold validate_daily_returnDate. defined. Qed.

Lemma validate_times_defined tz formData errs :
  no_undefined errs -> no_undefined (validate_times tz formData errs).
Proof. unfold validate_times. defined. Qed.

Lemma validateForm_errors_message tz now formData key :
  validateForm_errors tz now formData !! key <> Some None.
Proof.
  assert (H0 : no_undefined (∅ : FormErrors)) by (intros k; by rewrite lookup_empty).
  revert key. change (no_undefined (validateForm_errors tz now formData)).
  unfold validateForm_errors. destruct (bookingType formData).
  - by apply validate_times_defined, validate_daily_returnDate_defined,
      validate_pickupDate_defined, validate_days_defined, validate_address_defined,
      validate_contact_defined, validate_name_defined.
  - by apply validate_weekly_returnDate_defined, validate_pickupDate_defined,
      validate_weeks_defined, validate_address_defined, validate_contact_defined,
      validate_name_defined.
Qed.

Lemma checks_hold_acceptable zone now formData :
  checks_hold zone now formData <-> acceptable zone now formData.
Proof.
  unfold checks_hold, acceptable. rewrite strip_spaces_spec. split.
  - intros (Hname & Hcontact & Haddr & Hrest).
    split; [exists (trim (name formData)); split; [apply trim_trimmed | done] |].
    split; [done |].
    split; [exists (trim (address formData)); split; [apply trim_trimmed | done] |].
    done.
  - intros ((fullName & ->%trimmed_unique & Hname) & Hcontact &
            (street & ->%trimmed_unique & Haddr) & Hrest).
    done.
Qed.

(** X2. [validateForm] returns true exactly for the acceptable forms, and
    false exactly when the table it stores holds a message for some field.
    The name and the address are judged without the white space at their
    ends and the contact without any.  A weekly booking is not checked for
    its days or its times, a daily one not for its weeks, and the return
    date of a daily booking is compared with the pickup date only, not with
    the number of days.  The two moments of a daily booking are the local
    date-times of the host, whatever its time zone. *)
Theorem validateForm_accepts (zone : JSDate.Zone) (now : Z) (formData : FormData) :
  (validateForm zone now formData = true <-> acceptable zone now formData) /\
  (validateForm zone now formData = false <->
   exists key message,
     validateForm_errors zone now formData !! key = Some (Some message)) /\
  (name formData = "  Asha Rao " -> contact formData = " 98765 43210" ->
   address formData = " 12 MG Road, Bengaluru  " -> bookingType formData = weekly ->
   weeks formData = 2 -> pickupDate formData = Some (ymd 2025 1 15) ->
   returnDate formData = Some (ymd 2025 1 29) ->
   JSDate.local_midnight zone now <= JSDate.of_date (ymd 2025 1 15) ->
   validateForm zone now formData = true).
Proof.
  unfold validateForm. split; [| split].
  - rewrite bool_decide_eq_true, validateForm_errors_empty.
    apply checks_hold_acceptable.
  - rewrite bool_decide_eq_false. split.
    + intros Hne. apply map_choose in Hne as (key & [message|] & Hkey); [by eauto |].
      exfalso. revert Hkey. apply validateForm_errors_message.
    + intros (key & message & Hkey) Hempty. rewrite Hempty in Hkey. done.
  - intros Hname Hcontact Haddr Htype Hweeks Hpickup Hret Htoday.
    rewrite bool_decide_eq_true, validateForm_errors_empty. unfold checks_hold.
    rewrite Hname, Hcontact, Haddr, Htype, Hweeks, Hpickup, Hret.
    split; [split; [by vm_compute | vm_compute; repeat constructor] |].
    split; [apply re_mobile_spec; by vm_compute |].
    split; [by vm_compute |].
    exists (ymd 2025 1 15), (ymd 2025 1 29).
    split; [done |]. split; [done |]. split; [done |].
    split; [lia |]. by vm_compute.
Qed.

(** ** The pickup date and today *)

Lemma validateForm_errors_pickupDate tz now formData :
  validateForm_errors tz now formData !! "pickupDate" =
  validate_pickupDate tz now "" formData ∅ !! "pickupDate" \/
  pickupDate formData = None.
Proof.
  destruct (pickupDate formData) as [pickup|] eqn:Hpickup; [left | by right].
  unfold validateForm_errors. destruct (bookingType formData).
  - rewrite validate_times_other, validate_daily_returnDate_other by done.
    unfold validate_pickupDate. rewrite Hpickup.
    case_match; rewrite ?report_same; [done |].
    by rewrite validate_days_other, validate_address_other, validate_contact_other,
      validate_name_other by done.
  - rewrite validate_weekly_returnDate_other by done.
    unfold validate_pickupDate. rewrite Hpickup.
    case_match; rewrite ?report_same; [done |].
    by rewrite validate_weeks_other, validate_address_other, validate_contact_other,
      validate_name_other by done.
Qed.

(** X3. A pickup date that is present gets no error or the message that it
    cannot be in the past.  The date is read as midnight UTC and today as
    midnight local time: in a zone at or east of Greenwich (as India) the
    error is reported exactly for the dates before today, in a zone west
    of it for today as well. *)
Theorem pickupDate_past_check (tz now : Z) (formData : FormData) (pickup : Z) :
  pickupDate formData = Some pickup ->
  let error := validateForm_errors tz now formData !! "pickupDate" in
  let today := JSDate.Day (JSDate.LocalTime tz now) in
  (error = None \/ error = Some (Some "Pickup date cannot be in the past")) /\
  (0 <= tz < JSDate.msPerDay -> (error <> None <-> pickup < today)) /\
  (- JSDate.msPerDay < tz < 0 -> (error <> None <-> pickup <= today)).
Proof.
  intros Hpickup. cbv zeta.
  destruct (validateForm_errors_pickupDate tz now formData) as [-> | H]; [| congruence].
  unfold validate_pickupDate. rewrite Hpickup.
  unfold JSDate.local_midnight, JSDate.of_date, JSDate.UTC, JSDate.MakeDate,
    JSDate.LocalTime, JSDate.msPerDay. cbn [JSDate.LocalTZA JSDate.fixed].
  set (today := JSDate.Day (JSDate.LocalTime tz now)).
  unfold JSDate.LocalTime in today. cbn [JSDate.LocalTZA JSDate.fixed] in today.
  fold today.
  destruct (pickup * 86400000 + 0 <? today * 86400000 + 0 - tz) eqn:Hlt;
    [apply Z.ltb_lt in Hlt | apply Z.ltb_ge in Hlt].
  - rewrite report_same. split; [by right |].
    split; intros Htz; (split; [intros _; lia | done]).
  - rewrite lookup_empty. split; [by left |].
    split; intros Htz; (split; [done | intros ?; lia]).
Qed.

Lemma pickupDate_past_check_witness :
  pickupDate (sample_form daily 1 1 (Some (ymd 2025 1 14)) (Some (ymd 2025 1 15)))
    = Some (ymd 2025 1 14) /\
  0 <= 19800000 < JSDate.msPerDay /\
  validateForm_errors 19800000 (JSDate.of_date (ymd 2025 1 15))
    (sample_form daily 1 1 (Some (ymd 2025 1 14)) (Some (ymd 2025 1 15)))
    !! "pickupDate" <> None.
Proof.
  assert (Htz : 0 <= 19800000 < JSDate.msPerDay) by (unfold JSDate.msPerDay; lia).
  pose proof (pickupDate_past_check 19800000 (JSDate.of_date (ymd 2025 1 15))
                (sample_form daily 1 1 (Some (ymd 2025 1 14)) (Some (ymd 2025 1 15)))
                (ymd 2025 1 14) eq_refl) as H.
  cbv zeta in H. destruct H as (_ & Heast & _).
  refine (conj eq_refl (conj Htz (proj2 (Heast Htz) _))).
  vm_compute. reflexivity.
Defined.

(** ** Return date messages *)

Lemma weekly_returnDate_message_other formData :
  weekly_returnDate_message formData <> "Return date must be after pickup date".
Proof. unfold weekly_returnDate_message. simpl. discriminate. Qed.

(** X4. For a weekly booking of one week or more the message "Return date
    must be after pickup date" is never what the validator reports: a
    return date on or before the pickup date is more than 2 days off the
    expected one, and the message about the expected number of days
    replaces it. *)
Theorem weekly_returnDate_never_after (tz now : Z) (formData : FormData) :
  bookingType formData = weekly ->
  1 <= weeks formData ->
  let error := validateForm_errors tz now formData !! "returnDate" in
  error <> Some (Some "Return date must be after pickup date") /\
  (forall pickup ret,
     pickupDate formData = Some pickup -> returnDate formData = Some ret ->
     ret <= pickup ->
     error = Some (Some (weekly_returnDate_message formData))).
Proof.
  intros Hweekly Hweeks. cbv zeta.
  rewrite validateForm_errors_weekly_returnDate by done.
  unfold validate_weekly_returnDate.
  destruct (returnDate formData) as [ret|]; [| by rewrite report_same].
  destruct (pickupDate formData) as [pickup|]; [| by rewrite lookup_empty].
  rewrite days_between.
  destruct (2 <? Z.abs (ret - pickup - weeks formData * 7)) eqn:Hfar;
    [apply Z.ltb_lt in Hfar | apply Z.ltb_ge in Hfar].
  - rewrite report_same. split.
    + pose proof (weekly_returnDate_message_other formData). congruence.
    + by intros p r [= <-] [= <-] _.
  - destruct (JSDate.of_date ret <=? JSDate.of_date pickup) eqn:Hle;
      [apply Z.leb_le in Hle; rewrite of_date_le in Hle; lia |].
    apply Z.leb_gt in Hle. rewrite of_date_lt in Hle.
    rewrite lookup_empty. split; [done |].
    intros p r [= <-] [= <-] ?. lia.
Qed.

Lemma weekly_returnDate_never_after_witness :
  bookingType (sample_form weekly 1 2 (Some (ymd 2025 1 15)) (Some (ymd 2025 1 15)))
    = weekly /\
  1 <= weeks (sample_form weekly 1 2 (Some (ymd 2025 1 15)) (Some (ymd 2025 1 15))) /\
  validateForm_errors 19800000 (JSDate.of_date (ymd 2025 1 1))
    (sample_form weekly 1 2 (Some (ymd 2025 1 15)) (Some (ymd 2025 1 15)))
    !! "returnDate" =
  Some (Some "Return date should be approximately 14 days after pickup date for 2 weeks").
Proof.
  assert (Hweeks : 1 <= weeks (sample_form weekly 1 2 (Some (ymd 2025 1 15))
                                 (Some (ymd 2025 1 15)))) by (simpl; lia).
  pose proof (weekly_returnDate_never_after 19800000 (JSDate.of_date (ymd 2025 1 1))
                (sample_form weekly 1 2 (Some (ymd 2025 1 15)) (Some (ymd 2025 1 15)))
                eq_refl Hweeks) as H.
  cbv zeta in H. destruct H as [_ H].
  exact (conj eq_refl (conj Hweeks
           (H (ymd 2025 1 15) (ymd 2025 1 15) eq_refl eq_refl (Z.le_refl _)))).
Defined.

Lemma validateForm_errors_daily_returnDate tz now formData :
  bookingType formData = daily ->
  validateForm_errors tz now formData !! "returnDate" =
  validate_daily_returnDate formData ∅ !! "returnDate".
Proof.
  intros Hdaily. unfold validateForm_errors. rewrite Hdaily.
  rewrite validate_times_other by done.
  unfold validate_daily_returnDate.
  repeat case_match;
    rewrite ?report_same, ?report_other, ?validate_pickupDate_other,
      ?validate_days_other, ?validate_address_other, ?validate_contact_other,
      ?validate_name_other by done; done.
Qed.

(** X5. For a daily booking with both dates the validator reports a return
    date error exactly when the return date is before the pickup date; the
    number of days is computed and compared, and nothing is reported for
    it. *)
Theorem daily_returnDate_check (tz now : Z) (formData : FormData) (pickup ret : Z) :
  bookingType formData = daily ->
  pickupDate formData = Some pickup ->
  returnDate formData = Some ret ->
  let error := validateForm_errors tz now formData !! "returnDate" in
  (error = None <-> pickup <= ret) /\
  (error <> None -> error = Some (Some "Return date cannot be before pickup date")).
Proof.
  intros Hdaily Hpickup Hret. cbv zeta.
  rewrite validateForm_errors_daily_returnDate by done.
  unfold validate_daily_returnDate. rewrite Hpickup, Hret.
  destruct (JSDate.of_date ret <? JSDate.of_date pickup) eqn:Hlt;
    [apply Z.ltb_lt in Hlt; rewrite of_date_lt in Hlt
    | apply Z.ltb_ge in Hlt; rewrite of_date_le in Hlt].
  - rewrite report_same. split; [split; [done | lia] | done].
  - rewrite lookup_empty. split; [done | done].
Qed.

Lemma daily_returnDate_check_witness :
  bookingType (sample_form daily 1 1 (Some (ymd 2025 1 15)) (Some (ymd 2025 1 29)))
    = daily /\
  validateForm_errors 19800000 (JSDate.of_date (ymd 2025 1 1))
    (sample_form daily 1 1 (Some (ymd 2025 1 15)) (Some (ymd 2025 1 29)))
    !! "returnDate" = None.
Proof.
  pose proof (daily_returnDate_check 19800000 (JSDate.of_date (ymd 2025 1 1))
                (sample_form daily 1 1 (Some (ymd 2025 1 15)) (Some (ymd 2025 1 29)))
                (ymd 2025 1 15) (ymd 2025 1 29) eq_refl eq_refl eq_refl) as H.
  cbv zeta in H. destruct H as [H _].
  refine (conj eq_refl (proj2 H _)). vm_compute. discriminate.
Defined.

(** ** The duration input *)

Lemma keep_digits_all s : all_digits (keep_digits s).
Proof.
  unfold all_digits. induction s as [|c s IH]; simpl; [constructor |].
  destruct (is_digit c) eqn:Hc; simpl; [by constructor | done].
Qed.

Lemma is_digit_value c :
  is_digit c = true -> digit_value c = Some (code c - 48) /\ 0 <= code c - 48 < 10.
Proof.
  unfold is_digit, digit_value. intros H. rewrite H. split; [done |].
  unfold in_range in H. apply andb_true_iff in H as [H1 H2].
  apply Z.leb_le in H1, H2. change (code "0") with 48 in H1.
  change (code "9") with 57 in H2. lia.
Qed.

Lemma parse_digits_decimal s acc :
  all_digits s ->
  parse_digits 10 s (Some acc) =
  Some (fold_left (fun acc c => acc * 10 + (code c - 48)) (list_ascii_of_string s) acc).
Proof.
  unfold all_digits. revert acc. induction s as [|c s IH]; intros acc Hall; simpl; [done |].
  inversion Hall as [|? ? Hc Hs]; subst.
  apply is_digit_value in Hc as [-> Hc].
  replace (code c - 48 <? 10) with true by (symmetry; apply Z.ltb_lt; lia).
  simpl. by rewrite IH.
Qed.

Lemma fold_decimal_nonneg l acc :
  0 <= acc -> Forall (fun c => is_digit c = true) l ->
  0 <= fold_left (fun acc c => acc * 10 + (code c - 48)) l acc.
Proof.
  revert acc. induction l as [|c l IH]; intros acc Hacc Hall; simpl; [done |].
  inversion Hall as [|? ? Hc Hs]; subst. apply is_digit_value in Hc as [_ Hc].
  apply IH; [lia | done].
Qed.

Lemma parseInt_digits s :
  all_digits s -> s <> "" -> parseInt s = Some (decimal s) /\ 0 <= decimal s.
Proof.
  intros Hall Hne. destruct s as [|c s]; [done |].
  assert (Hc : is_digit c = true) by (by inversion Hall).
  split; [| by apply fold_decimal_nonneg].
  unfold parseInt.
  assert (Hsp : is_space c = false).
  { unfold is_digit, in_range in Hc. apply andb_true_iff in Hc as [H1 H2].
    apply Z.leb_le in H1, H2. change (code "0") with 48 in H1.
    change (code "9") with 57 in H2. unfold is_space.
    repeat (apply orb_false_iff; split); try apply andb_false_iff;
      rewrite ?Z.leb_gt, ?Z.eqb_neq; lia. }
  cbn [trimStart]. rewrite Hsp.
  assert (Hsign : c <> "-"%char /\ c <> "+"%char).
  { split; intros ->; by vm_compute in Hc. }
  destruct Hsign as [Hm Hp].
  assert (Hpre : match String c s with
                 | String "-" s' => (-1, s')
                 | String "+" s' => (1, s')
                 | _ => (1, String c s)
                 end = (1, String c s)).
  { destruct c as [[] [] [] [] [] [] [] []]; try done. }
  rewrite Hpre.
  assert (Hrad : match String c s with
                 | String "0" (String "x" s') => (16, s')
                 | String "0" (String "X" s') => (16, s')
                 | _ => (10, String c s)
                 end = (10, String c s)).
  { destruct s as [|c2 s]; [by destruct c as [[] [] [] [] [] [] [] []] |].
    assert (Hc2 : is_digit c2 = true).
    { inversion Hall as [|? ? _ Hs]; subst. by inversion Hs. }
    assert (c2 <> "x"%char /\ c2 <> "X"%char) as [Hx HX].
    { split; intros ->; by vm_compute in Hc2. }
    destruct c as [[] [] [] [] [] [] [] []]; try done;
      destruct c2 as [[] [] [] [] [] [] [] []]; try done. }
  rewrite Hrad.
  cbn [parse_digits]. apply is_digit_value in Hc as [Hv Hc]. rewrite Hv.
  replace (code c - 48 <? 10) with true by (symmetry; apply Z.ltb_lt; lia).
  cbn [default]. rewrite parse_digits_decimal by (by inversion Hall).
  unfold decimal. simpl. by rewrite Z.mul_1_l.
Qed.

Lemma duration_onChange_spec formData value :
  duration_onChange formData value =
  if String.eqb (keep_digits value) "" then None
  else Some (change_duration (bookingType formData)
               (clamp 1 (maxValue (bookingType formData)) (decimal (keep_digits value)))).
Proof.
  unfold duration_onChange.
  destruct (String.eqb value "") eqn:Hv.
  { apply String.eqb_eq in Hv as ->. reflexivity. }
  destruct (String.eqb (keep_digits value) "") eqn:Hd; [done |].
  apply String.eqb_neq in Hd.
  destruct (parseInt_digits (keep_digits value) (keep_digits_all value) Hd) as [-> Hn].
  f_equal. f_equal. unfold clamp.
  set (n := decimal (keep_digits value)) in *.
  destruct (bookingType formData); simpl;
    repeat case_match; rewrite ?Z.ltb_lt, ?Z.ltb_ge in *; lia.
Qed.

Lemma updateFormData_days tz c prev :
  days (updateFormData tz c prev) =
  match c with change_days v => processedValue v | _ => days prev end.
Proof.
  unfold updateFormData. destruct c; cbn; repeat (case_match; cbn); done.
Qed.

Lemma updateFormData_weeks tz c prev :
  weeks (updateFormData tz c prev) =
  match c with change_weeks v => processedValue v | _ => weeks prev end.
Proof.
  unfold updateFormData. destruct c; cbn; repeat (case_match; cbn); done.
Qed.

Lemma updateFormData_bookingType tz c prev :
  bookingType (updateFormData tz c prev) =
  match c with change_bookingType v => v | _ => bookingType prev end.
Proof.
  unfold updateFormData. destruct c; cbn; repeat (case_match; cbn); done.
Qed.

(** X6. The duration input ignores a text without a digit; from any other
    text it takes the digits, reads them as a decimal number, brings that
    number into 1..30 (days) or 1..12 (weeks), and passes it on as the
    duration of the booking type selected: the form then has that booking
    type still, an active duration within the limits, and the other
    duration as before. *)
Theorem duration_onChange_value (formData : FormData) (value : string) :
  let t := bookingType formData in
  (duration_onChange formData value = None <-> keep_digits value = "") /\
  (keep_digits value <> "" ->
   duration_onChange formData value =
   Some (change_duration t (clamp 1 (maxValue t) (decimal (keep_digits value))))) /\
  (forall c tz,
     duration_onChange formData value = Some c ->
     let next := updateFormData tz c formData in
     bookingType next = t /\
     1 <= active_duration next <= maxValue t /\
     match t with
     | daily => weeks next = weeks formData
     | weekly => days next = days formData
     end).
Proof.
  cbv zeta. rewrite duration_onChange_spec.
  destruct (String.eqb (keep_digits value) "") eqn:Hd;
    [apply String.eqb_eq in Hd | apply String.eqb_neq in Hd].
  - split; [done |]. split; [done |]. intros c tz [=].
  - split; [split; [done | by intros ?] |]. split; [done |].
    intros c tz [= <-]. unfold active_duration.
    rewrite updateFormData_bookingType, updateFormData_days, updateFormData_weeks.
    unfold change_duration, clamp, maxValue.
    destruct (bookingType formData); cbn; (split; [done |]); (split; [lia | done]).
Qed.

Lemma ui_step_limits tz st e :
  durations_within_limits (fst st) -> durations_within_limits (fst (ui_step tz st e)).
Proof.
  unfold durations_within_limits. intros [Hd Hw].
  unfold ui_step.
  destruct e; cbn [ui_change]; try (cbn; lia);
    try (unfold handleInputChange; cbn [fst];
         rewrite updateFormData_days, updateFormData_weeks; done).
  - rewrite duration_onChange_spec.
    destruct (String.eqb (keep_digits value) ""); [done |].
    unfold handleInputChange; cbn [fst].
    rewrite updateFormData_days, updateFormData_weeks.
    unfold change_duration, clamp.
    destruct (bookingType (fst st)); cbn; lia.
  - unfold duration_onBlur.
    destruct (_ || _); [| done].
    unfold handleInputChange; cbn [fst].
    rewrite updateFormData_days, updateFormData_weeks.
    unfold change_duration. destruct (bookingType (fst st)); cbn; lia.
Qed.

Lemma validateForm_errors_days tz now formData :
  validateForm_errors tz now formData !! "days" =
  match bookingType formData with
  | daily => validate_days formData ∅ !! "days"
  | weekly => None
  end.
Proof.
  unfold validateForm_errors. destruct (bookingType formData).
  - rewrite validate_times_other, validate_daily_returnDate_other,
      validate_pickupDate_other by done.
    unfold validate_days.
    repeat case_match; rewrite ?report_same; try done;
      by rewrite validate_address_other, validate_contact_other, validate_name_other.
  - by rewrite validate_weekly_returnDate_other, validate_pickupDate_other,
      validate_weeks_other, validate_address_other, validate_contact_other,
      validate_name_other.
Qed.

Lemma validateForm_errors_weeks tz now formData :
  validateForm_errors tz now formData !! "weeks" =
  match bookingType formData with
  | weekly => validate_weeks formData ∅ !! "weeks"
  | daily => None
  end.
Proof.
  unfold validateForm_errors. destruct (bookingType formData).
  - by rewrite validate_times_other, validate_daily_returnDate_other,
      validate_pickupDate_other, validate_days_other, validate_address_other,
      validate_contact_other, validate_name_other.
  - rewrite validate_weekly_returnDate_other, validate_pickupDate_other by done.
    unfold validate_weeks.
    repeat case_match; rewrite ?report_same; try done;
      by rewrite validate_address_other, validate_contact_other, validate_name_other.
Qed.

(** X7. Whatever the user does to the form, starting from the form the
    modal opens with, the days stay within 1..30 and the weeks within
    1..12: the validator never reports a days or a weeks error. *)
Theorem durations_stay_within_limits (tz now : Z) (events : list UIEvent) :
  let formData := fst (fold_left (ui_step tz) events (initialFormData, ∅)) in
  1 <= days formData <= 30 /\
  1 <= weeks formData <= 12 /\
  validateForm_errors tz now formData !! "days" = None /\
  validateForm_errors tz now formData !! "weeks" = None.
Proof.
  cbv zeta.
  assert (H : durations_within_limits
                (fst (fold_left (ui_step tz) events (initialFormData, ∅)))).
  { assert (H0 : durations_within_limits (fst (initialFormData, ∅ : FormErrors)))
      by (unfold durations_within_limits; cbn; lia).
    revert H0. generalize (initialFormData, ∅ : FormErrors).
    induction events as [|e events IH]; intros st Hst; [done |].
    cbn [fold_left]. apply IH. by apply ui_step_limits. }
  destruct H as [Hd Hw]. split; [done |]. split; [done |].
  rewrite validateForm_errors_days, validateForm_errors_weeks.
  split; case_match; try done.
  - assert (Hv : validate_days
                   (fst (fold_left (ui_step tz) events (initialFormData, ∅))) ∅ = ∅)
      by by apply validate_days_empty.
    by rewrite Hv.
  - assert (Hv : validate_weeks
                   (fst (fold_left (ui_step tz) events (initialFormData, ∅))) ∅ = ∅)
      by by apply validate_weeks_empty.
    by rewrite Hv.
Qed.

(** ** Computed return dates *)

Lemma updateFormData_returnDate (tz : Z) c prev pickup :
  let next := updateFormData tz c prev in
  schedule_change c (bookingType next) ->
  pickupDate next = Some pickup ->
  active_duration next <> 0 ->
  returnDate next = Some (pickup + rental_days next).
Proof.
  cbv zeta.
  unfold updateFormData, schedule_change, active_duration, rental_days.
  destruct c; cbn; try done;
    destruct (bookingType prev) eqn:Hbt; cbn; try done.
  all: repeat (case_match; cbn); try done.
  all: rewrite ?date_plus_spec; intros; simplify_eq; try done.
  all: try (exfalso; match goal with
                     | H : truthy _ = false |- _ =>
                         apply not_true_iff_false in H; apply H, truthy_true
                     end; assumption).
Qed.

(** X8. The return date the form computes on a change of the pickup date or
    of the active duration, for a duration of 1 or more, is one the
    validator accepts. *)
Theorem recomputed_returnDate_accepted (tz now : Z) (c : Change) (prev : FormData)
    (pickup : Z) :
  let next := updateFormData tz c prev in
  schedule_change c (bookingType next) ->
  pickupDate next = Some pickup ->
  1 <= active_duration next ->
  validateForm_errors tz now next !! "returnDate" = None.
Proof.
  cbv zeta. intros Hchange Hpickup Hactive.
  pose proof (updateFormData_returnDate tz c prev pickup Hchange Hpickup
                ltac:(lia)) as Hret.
  cbv zeta in Hret. revert Hpickup Hactive Hret.
  generalize (updateFormData tz c prev) as next. intros next Hpickup Hactive Hret.
  unfold active_duration, rental_days in *.
  destruct (bookingType next) eqn:Htype.
  - rewrite validateForm_errors_daily_returnDate by done.
    unfold validate_daily_returnDate. rewrite Hpickup, Hret.
    replace (_ <? _) with false; [done |].
    symmetry. apply Z.ltb_ge. apply of_date_le. lia.
  - rewrite validateForm_errors_weekly_returnDate by done.
    unfold validate_weekly_returnDate. rewrite Hpickup, Hret, days_between.
    replace (_ <=? _) with false.
    2:{ symmetry. apply Z.leb_gt. apply of_date_lt. lia. }
    replace (2 <? _) with false; [done |].
    symmetry. apply Z.ltb_ge. lia.
Qed.

Lemma recomputed_returnDate_accepted_witness :
  schedule_change (change_days (inr 3))
    (bookingType (updateFormData 19800000 (change_days (inr 3))
                    (sample_form daily 1 1 (Some (ymd 2025 1 15)) None))) /\
  1 <= active_duration (updateFormData 19800000 (change_days (inr 3))
                          (sample_form daily 1 1 (Some (ymd 2025 1 15)) None)) /\
  validateForm_errors 19800000 (JSDate.of_date (ymd 2025 1 1))
    (updateFormData 19800000 (change_days (inr 3))
       (sample_form daily 1 1 (Some (ymd 2025 1 15)) None)) !! "returnDate" = None.
Proof.
  assert (Hactive : 1 <= active_duration
                           (updateFormData 19800000 (change_days (inr 3))
                              (sample_form daily 1 1 (Some (ymd 2025 1 15)) None)))
    by (vm_compute; discriminate).
  exact (conj I (conj Hactive
    (recomputed_returnDate_accepted 19800000 (JSDate.of_date (ymd 2025 1 1))
       (change_days (inr 3)) (sample_form daily 1 1 (Some (ymd 2025 1 15)) None)
       (ymd 2025 1 15) I eq_refl Hactive))).
Defined.

(** X9. Switching the booking type to daily does not compute the return
    date again: the dates and the days stay as they were, and the
    validator accepts the return date as long as it is not before the
    pickup date, so a return date left from a weekly booking goes through
    with a day count that does not match it. *)
Theorem bookingType_switch_keeps_dates (tz now : Z) (prev : FormData) (pickup ret : Z) :
  pickupDate prev = Some pickup ->
  returnDate prev = Some ret ->
  pickup <= ret ->
  let next := updateFormData tz (change_bookingType daily) prev in
  bookingType next = daily /\
  pickupDate next = Some pickup /\
  returnDate next = Some ret /\
  days next = days prev /\
  validateForm_errors tz now next !! "returnDate" = None.
Proof.
  intros Hpickup Hret Hle. cbv zeta.
  assert (Hnext : updateFormData tz (change_bookingType daily) prev =
                  assign prev (change_bookingType daily)) by reflexivity.
  rewrite Hnext. cbn [assign bookingType pickupDate returnDate days].
  repeat split; try done.
  rewrite validateForm_errors_daily_returnDate by done.
  unfold validate_daily_returnDate. cbn [assign bookingType pickupDate returnDate days].
  rewrite Hpickup, Hret.
  replace (_ <? _) with false; [done |].
  symmetry. apply Z.ltb_ge. by apply of_date_le.
Qed.

Lemma bookingType_switch_keeps_dates_witness :
  ymd 2025 1 15 <= ymd 2025 1 29 /\
  returnDate (updateFormData 19800000 (change_bookingType daily)
                (sample_form weekly 1 2 (Some (ymd 2025 1 15)) (Some (ymd 2025 1 29))))
    = Some (ymd 2025 1 29) /\
  days (updateFormData 19800000 (change_bookingType daily)
          (sample_form weekly 1 2 (Some (ymd 2025 1 15)) (Some (ymd 2025 1 29)))) = 1 /\
  validateForm_errors 19800000 (JSDate.of_date (ymd 2025 1 1))
    (updateFormData 19800000 (change_bookingType daily)
       (sample_form weekly 1 2 (Some (ymd 2025 1 15)) (Some (ymd 2025 1 29))))
    !! "returnDate" = None.
Proof.
  assert (Hle : ymd 2025 1 15 <= ymd 2025 1 29) by (vm_compute; discriminate).
  pose proof (bookingType_switch_keeps_dates 19800000 (JSDate.of_date (ymd 2025 1 1))
                (sample_form weekly 1 2 (Some (ymd 2025 1 15)) (Some (ymd 2025 1 29)))
                (ymd 2025 1 15) (ymd 2025 1 29) eq_refl eq_refl Hle) as H.
  cbv zeta in H. destruct H as (_ & _ & Hret & Hdays & Herr).
  exact (conj Hle (conj Hret (conj Hdays Herr))).
Defined.

(** ** Filling in the form *)

Lemma ui_step_fst tz st e :
  fst (ui_step tz st e) =
  match e with
  | modal_opens => initialFormData
  | _ =>
      match ui_change (fst st) e with
      | Some c => updateFormData tz c (fst st)
      | None => fst st
      end
  end.
Proof. unfold ui_step. destruct e; try done; cbn; by case_match. Qed.

(** X10. A user who opens the modal and enters a valid name, picks a
    booking type, enters a valid contact and address, types anything into
    the duration input and then picks a pickup date that is not in the
    past has a form that validates: the times the form starts with and the
    return date it computes need no correction. *)
Theorem filled_in_form_accepted (tz now : Z) (fullName phone street typed : string)
    (t : BookingType) (pickup : Z) :
  2 <= strlen (trim fullName) <= 60 ->
  letters_and_spaces (trim fullName) ->
  mobile_number (strip_spaces phone) ->
  10 <= strlen (trim street) ->
  JSDate.local_midnight tz now <= JSDate.of_date pickup ->
  let st := fold_left (ui_step tz)
              (fill_in fullName t phone street typed pickup) (initialFormData, ∅) in
  validateForm tz now (fst st) = true.
Proof.
  intros Hlen Hletters Hmobile Haddr Hpickup. cbv zeta.
  unfold fill_in. cbn [fold_left].
  set (s1 := ui_step tz (initialFormData, ∅) (input_name fullName)).
  set (s2 := ui_step tz s1 (click_bookingType t)).
  set (s3 := ui_step tz s2 (input_contact phone)).
  set (s4 := ui_step tz s3 (input_address street)).
  set (s5 := ui_step tz s4 (input_duration typed)).
  set (s6 := ui_step tz s5 (input_pickupDate (Some pickup))).
  assert (H4 : fst s4 =
               {| name := fullName; contact := phone; address := street;
                  days := 1; bookingType := t; weeks := 1;
                  pickupDate := None; returnDate := None;
                  pickupTime := Some (hm 9 0); returnTime := Some (hm 18 0) |}).
  { unfold s4, s3, s2, s1. rewrite !ui_step_fst. reflexivity. }
  assert (H5 : exists d w,
             1 <= d <= 30 /\ 1 <= w <= 12 /\
             fst s5 =
               {| name := fullName; contact := phone; address := street;
                  days := d; bookingType := t; weeks := w;
                  pickupDate := None; returnDate := None;
                  pickupTime := Some (hm 9 0); returnTime := Some (hm 18 0) |}).
  { unfold s5. rewrite ui_step_fst. cbn [ui_change].
    rewrite duration_onChange_spec, H4. cbn [bookingType].
    destruct (String.eqb (keep_digits typed) "").
    - exists 1, 1. repeat split; lia.
    - unfold change_duration, clamp, maxValue.
      destruct t.
      + eexists _, 1. split; [| split; [lia | reflexivity]]. cbn [processedValue]. lia.
      + eexists 1, _. split; [lia | split; [| reflexivity]]. cbn [processedValue]. lia. }
  destruct H5 as (d & w & Hd & Hw & H5).
  assert (H6 : fst s6 =
               {| name := fullName; contact := phone; address := street;
                  days := d; bookingType := t; weeks := w;
                  pickupDate := Some pickup;
                  returnDate := Some (pickup + match t with daily => d | weekly => w * 7 end);
                  pickupTime := Some (hm 9 0); returnTime := Some (hm 18 0) |}).
  { unfold s6. rewrite ui_step_fst. cbn [ui_change]. rewrite H5.
    assert (Hd' : truthy d = true) by (apply truthy_true; lia).
    assert (Hw' : truthy w = true) by (apply truthy_true; lia).
    unfold updateFormData. destruct t; cbn; rewrite ?Hd', ?Hw'; cbn;
      by rewrite date_plus_spec. }
  rewrite H6. unfold validateForm. apply bool_decide_eq_true.
  apply validateForm_errors_empty. unfold checks_hold.
  cbn [name contact address pickupDate returnDate bookingType days weeks pickupTime
       returnTime].
  split; [done |]. split; [done |]. split; [done |].
  exists pickup, (pickup + match t with daily => d | weekly => w * 7 end).
  split; [done |]. split; [done |]. split; [done |].
  destruct t.
  - split; [done |]. split; [lia |].
    exists (hm 9 0), (hm 18 0). split; [done |]. split; [done |].
    apply of_local_lt. unfold hm. lia.
  - split; [done |]. split; lia.
Qed.

Lemma filled_in_form_accepted_witness :
  validateForm 19800000 (JSDate.of_date (ymd 2025 1 15))
    (fst (fold_left (ui_step 19800000)
            (fill_in "Asha Rao" weekly "98765 43210" "12 MG Road, Bengaluru" "2x"
               (ymd 2025 1 15))
            (initialFormData, ∅))) = true.
Proof.
  refine (filled_in_form_accepted 19800000 (JSDate.of_date (ymd 2025 1 15))
            "Asha Rao" "98765 43210" "12 MG Road, Bengaluru" "2x" weekly (ymd 2025 1 15)
            _ _ _ _ _).
  - vm_compute. split; discriminate.
  - unfold letters_and_spaces. vm_compute. repeat constructor.
  - apply re_mobile_spec. vm_compute. reflexivity.
  - vm_compute. discriminate.
  - vm_compute. discriminate.
Defined.

(** ** Submission *)

(** X11. [handleSubmit] on a form that does not validate, or without a
    vehicle, stores the errors and does nothing else: no adapter is
    called, nothing is written to local storage, the step and the
    submitting flag stay as they are. *)
Theorem handleSubmit_invalid_sends_nothing (host : Host) (tz : Z)
    (bookingData : option BookingData) (formData : FormData) (w : World) :
  validateForm tz (Date_now host) formData = false \/ bookingData = None ->
  let w' := snd (handleSubmit host tz bookingData formData w) in
  trace w' = trace w /\
  pendingBookings w' = pendingBookings w /\
  currentStep w' = currentStep w /\
  isSubmitting w' = isSubmitting w /\
  errors w' = validateForm_errors tz (Date_now host) formData.
Proof.
  intros H. cbv zeta. unfold handleSubmit.
  assert (Hskip : negb (validateForm tz (Date_now host) formData) ||
                  negb (bool_decide (is_Some bookingData)) = true).
  { destruct H as [-> | ->]; [done |].
    rewrite bool_decide_eq_false_2; [apply orb_true_r | by intros [? ?]]. }
  unfold mbind, IO_bind, setErrors. rewrite Hskip. done.
Qed.

Lemma handleSubmit_invalid_sends_nothing_witness :
  validateForm 19800000 (Date_now offline_host)
    (sample_form daily 0 1 (Some (ymd 2025 1 15)) (Some (ymd 2025 1 16))) = false /\
  trace (snd (handleSubmit offline_host 19800000 (Some activa)
                (sample_form daily 0 1 (Some (ymd 2025 1 15)) (Some (ymd 2025 1 16)))
                initial_world)) = [] /\
  errors (snd (handleSubmit offline_host 19800000 (Some activa)
                 (sample_form daily 0 1 (Some (ymd 2025 1 15)) (Some (ymd 2025 1 16)))
                 initial_world)) !! "days" =
  Some (Some "Number of days must be at least 1").
Proof.
  assert (Hinvalid : validateForm 19800000 (Date_now offline_host)
            (sample_form daily 0 1 (Some (ymd 2025 1 15)) (Some (ymd 2025 1 16))) = false)
    by (vm_compute; reflexivity).
  pose proof (handleSubmit_invalid_sends_nothing offline_host 19800000 (Some activa)
                (sample_form daily 0 1 (Some (ymd 2025 1 15)) (Some (ymd 2025 1 16)))
                initial_world (or_introl Hinvalid)) as H.
  cbv zeta in H. destruct H as (Htrace & _ & _ & _ & Herrors).
  refine (conj Hinvalid (conj Htrace _)).
  rewrite Herrors. vm_compute. reflexivity.
Defined.

Lemma remote_events_not_support host t row :
  Forall not_support (remote_events host (remote_table t) (remote_prefix t) row).
Proof.
  unfold remote_events. destruct (credentials_missing host); [constructor |].
  constructor; [done |].
  destruct (supabase_insert host (remote_table t) row); repeat constructor.
  unfold not_support, error_alert. destruct t; simpl; discriminate.
Qed.

Lemma local_events_not_support host payload w :
  Forall not_support (local_events host payload w).
Proof.
  unfold local_events. destruct (stored (pendingBookings w)); repeat constructor. done.
Qed.

Lemma Forall_not_support_notin events :
  Forall not_support events -> Alert support_directive ∉ events.
Proof.
  intros H Hin. rewrite Forall_forall in H. by apply H in Hin.
Qed.

Lemma local_item_stored host payload w bookings :
  stored (pendingBookings w) = Some bookings ->
  exists more, stored (local_item host payload w) = Some (bookings ++ more) /\
               (length more <= 1)%nat.
Proof.
  intros Hs. unfold local_item. rewrite Hs.
  destruct (setItem_throws host).
  - exists []. rewrite app_nil_r. split; [done | simpl; lia].
  - exists [bookingWithTimestamp host payload]. split; [done | simpl; lia].
Qed.

Lemma local_item_other host payload w :
  pendingBookings w = item_other -> local_item host payload w = item_other.
Proof. intros H. unfold local_item. by rewrite H. Qed.

(** X12. Every submission ends with the submitting flag off and the error
    table untouched, and in one of two ways: on the confirmation step
    without the alert that asks to contact the shop, or on the step it
    started from, with that alert as its last event and local storage as
    it was.  The bookings stored before are still there, in order, with at
    most one more after them, and an unreadable storage item is left
    alone. *)
Theorem submitBooking_settles (host : Host) (bookingData : BookingData)
    (formData : FormData) (w : World) :
  let w' := snd (submitBooking host (Some bookingData) formData w) in
  isSubmitting w' = false /\
  errors w' = errors w /\
  (exists events,
     trace w' = trace w ++ events /\
     (currentStep w' = thank_you /\ Alert support_directive ∉ events \/
      currentStep w' = currentStep w /\ pendingBookings w' = pendingBookings w /\
      last events = Some (Alert support_directive))) /\
  (forall bookings,
     stored (pendingBookings w) = Some bookings ->
     exists more, stored (pendingBookings w') = Some (bookings ++ more) /\
                  (length more <= 1)%nat) /\
  (pendingBookings w = item_other -> pendingBookings w' = item_other).
Proof.
  cbv zeta. destruct (bookingType formData) eqn:Htype.
  - destruct (submitBooking_daily_run host bookingData formData w Htype)
      as (Htrace & Hitem & Hstep & Herrors & Hsub).
    split; [done |]. split; [done |].
    set (remote := remote_succeeds host "bookings" _) in *.
    set (relayed := relay_succeeds host _) in *.
    set (saved := local_succeeds host w) in *.
    split; [| split].
    + eexists. split; [exact Htrace |]. rewrite Hstep, Hitem.
      pose proof (remote_events_not_support host daily
                    (bookingPayload (supabasePayload bookingData formData))) as Hr.
      pose proof (local_events_not_support host
                    (commonPayload host bookingData formData) w) as Hl.
      cbn [remote_table remote_prefix] in Hr.
      destruct remote; cbn [orb].
      { left. split; [done |]. apply Forall_not_support_notin.
        rewrite app_nil_r. constructor; [done |].
        apply Forall_app. split; [done | constructor]. }
      destruct relayed; cbn [orb].
      { left. split; [done |]. apply Forall_not_support_notin.
        rewrite app_nil_r. constructor; [done |].
        apply Forall_app. split; [done |]. repeat constructor; done. }
      destruct saved eqn:Hsaved.
      { left. split; [done |]. apply Forall_not_support_notin.
        rewrite app_nil_r. constructor; [done |].
        apply Forall_app. split; [done |]. repeat (constructor; [done |]). done. }
      right. split; [done |]. split; [by apply local_item_not_saved |].
      apply last_snoc.
    + intros bookings Hs. rewrite Hitem.
      destruct (remote || relayed).
      * exists []. rewrite app_nil_r. split; [done | simpl; lia].
      * by apply local_item_stored.
    + intros Ho. rewrite Hitem. destruct (remote || relayed); [done |].
      by apply local_item_other.
  - destruct (submitBooking_weekly_run host bookingData formData w Htype)
      as (Htrace & Hitem & Hstep & Herrors & Hsub).
    split; [done |]. split; [done |].
    set (remote := remote_succeeds host "weekly_bookings" _) in *.
    set (saved := local_succeeds host w) in *.
    split; [| split].
    + eexists. split; [exact Htrace |]. rewrite Hstep, Hitem.
      pose proof (remote_events_not_support host weekly
                    (weeklyPayload bookingData formData)) as Hr.
      pose proof (local_events_not_support host
                    (weeklyLocalPayload host bookingData formData) w) as Hl.
      cbn [remote_table remote_prefix] in Hr.
      destruct remote; cbn [orb].
      { left. split; [done |]. apply Forall_not_support_notin.
        rewrite app_nil_r. constructor; [done |].
        apply Forall_app. split; [done | constructor]. }
      destruct saved eqn:Hsaved.
      { left. split; [done |]. apply Forall_not_support_notin.
        rewrite app_nil_r. constructor; [done |].
        apply Forall_app. split; [done |]. repeat (constructor; [done |]). done. }
      right. split; [done |]. split; [by apply local_item_not_saved |].
      apply last_snoc.
    + intros bookings Hs. rewrite Hitem.
      destruct remote.
      * exists []. rewrite app_nil_r. split; [done | simpl; lia].
      * by apply local_item_stored.
    + intros Ho. rewrite Hitem. destruct remote; [done |].
      by apply local_item_other.
Qed.

Lemma put_lookup_ne key k v (obj : jobject) :
  key <> k -> put k v obj !! key = obj !! key.
Proof. intros H. unfold put. destruct v; [by rewrite lookup_insert_ne | done]. Qed.

Lemma put_lookup_eq k v (obj : jobject) :
  put k v obj !! k = match v with Some x => Some x | None => obj !! k end.
Proof. unfold put. destruct v; [by rewrite lookup_insert_eq | done]. Qed.

Ltac put_lookup :=
  repeat first [ rewrite put_lookup_eq | rewrite put_lookup_ne by done
               | rewrite lookup_empty ].

Lemma bookingPayload_lookup payload :
  let row := bookingPayload payload in
  (row !! "name" = payload !! "name" /\
   row !! "contact" = payload !! "contact" /\
   row !! "address" = payload !! "address" /\
   row !! "category" = payload !! "category" /\
   row !! "model" = payload !! "model" /\
   row !! "price_per_day" = payload !! "price_per_day" /\
   row !! "days" = payload !! "days" /\
   row !! "total_price" = payload !! "total_price") /\
  (row !! "status" =
     (if jtruthy (payload !! "status") then payload !! "status"
      else Some (JStr "pending")) /\
   row !! "rental_type" =
     (if jtruthy (payload !! "rental_type") then payload !! "rental_type"
      else Some (JStr "daily"))) /\
  (row !! "pickup_date" =
     (if jtruthy (payload !! "pickup_date") then payload !! "pickup_date" else None) /\
   row !! "return_date" =
     (if jtruthy (payload !! "return_date") then payload !! "return_date" else None) /\
   row !! "pickup_time" =
     (if jtruthy (payload !! "pickup_time") then payload !! "pickup_time" else None) /\
   row !! "return_time" =
     (if jtruthy (payload !! "return_time") then payload !! "return_time" else None)).
Proof.
  cbv zeta. unfold bookingPayload.
  destruct (jtruthy (payload !! "pickup_date")) eqn:H1,
           (jtruthy (payload !! "return_date")) eqn:H2,
           (jtruthy (payload !! "pickup_time")) eqn:H3,
           (jtruthy (payload !! "return_time")) eqn:H4.
  all: repeat split; put_lookup; try done.
  all: repeat case_match; try done.
Qed.

Lemma bookingPayload_other payload key :
  key ∉ booking_columns -> bookingPayload payload !! key = None.
Proof.
  intros Hnot. unfold booking_columns in Hnot.
  repeat (apply not_elem_of_cons in Hnot as [? Hnot]).
  unfold bookingPayload. repeat case_match; put_lookup; done.
Qed.

(** X13. The row [submitToSupabase] builds has no column outside the
    fourteen of the table; a date or time that is missing or empty is left
    out; [status] and [rental_type] are never missing or empty; and
    building the row from a row changes nothing. *)
Theorem bookingPayload_row (payload : jobject) :
  let row := bookingPayload payload in
  (forall key, is_Some (row !! key) -> key ∈ booking_columns) /\
  (forall key, key ∈ ["pickup_date"; "return_date"; "pickup_time"; "return_time"] ->
     row !! key = if jtruthy (payload !! key) then payload !! key else None) /\
  jtruthy (row !! "status") = true /\
  jtruthy (row !! "rental_type") = true /\
  bookingPayload row = row.
Proof.
  cbv zeta.
  pose proof (bookingPayload_lookup payload) as Hrow. cbv zeta in Hrow.
  destruct Hrow as ((Hname & Hcontact & Haddress & Hcategory & Hmodel & Hprice & Hdays
                     & Htotal) & (Hstatus & Hrental) & (Hpd & Hrd & Hpt & Hrt)).
  assert (Hst : jtruthy (bookingPayload payload !! "status") = true).
  { rewrite Hstatus. by destruct (jtruthy (payload !! "status")) eqn:H. }
  assert (Hrt' : jtruthy (bookingPayload payload !! "rental_type") = true).
  { rewrite Hrental. by destruct (jtruthy (payload !! "rental_type")) eqn:H. }
  split; [| split; [| split; [| split]]]; try done.
  - intros key Hsome. destruct (decide (key ∈ booking_columns)) as [|Hnot]; [done |].
    rewrite (bookingPayload_other payload key Hnot) in Hsome. by destruct Hsome.
  - intros key Hkey. repeat (apply elem_of_cons in Hkey as [-> | Hkey]); try done.
    by apply elem_of_nil in Hkey.
  - apply map_eq. intros key.
    destruct (decide (key ∈ booking_columns)) as [Hin | Hnot].
    2:{ by rewrite !bookingPayload_other. }
    pose proof (bookingPayload_lookup (bookingPayload payload)) as Hrow'.
    cbv zeta in Hrow'.
    destruct Hrow' as ((Hname' & Hcontact' & Haddress' & Hcategory' & Hmodel' & Hprice'
                        & Hdays' & Htotal') & (Hstatus' & Hrental')
                       & (Hpd' & Hrd' & Hpt' & Hrt'')).
    unfold booking_columns in Hin.
    repeat (apply elem_of_cons in Hin as [-> | Hin]); try done.
    + by rewrite Hstatus', Hst.
    + by rewrite Hrental', Hrt'.
    + rewrite Hpd', Hpd. by destruct (jtruthy (payload !! "pickup_date")) eqn:H; rewrite ?H.
    + rewrite Hrd', Hrd. by destruct (jtruthy (payload !! "return_date")) eqn:H; rewrite ?H.
    + rewrite Hpt', Hpt. by destruct (jtruthy (payload !! "pickup_time")) eqn:H; rewrite ?H.
    + rewrite Hrt'', Hrt. by destruct (jtruthy (payload !! "return_time")) eqn:H; rewrite ?H.
    + by apply elem_of_nil in Hin.
Qed.

Lemma append_nonempty s c t : nonempty (s +:+ String c t) = true.
Proof. by destruct s. Qed.

Lemma date_string_nonempty d : nonempty (JSDate.date_string d) = true.
Proof.
  unfold JSDate.date_string. destruct (JSDate.civil_from_days d) as [[y m] dd].
  apply append_nonempty.
Qed.

Lemma remote_row_validated zone now bookingData formData :
  validateForm zone now formData = true ->
  validated_columns formData (remote_row bookingData formData).
Proof.
  intros Hvalid. unfold validateForm in Hvalid.
  apply bool_decide_eq_true, validateForm_errors_empty in Hvalid.
  destruct Hvalid as ((Hlen & Hletters) & Hmobile & Haddr & pickup & ret & Hpickup & Hret
                      & _ & Htype).
  unfold validated_columns, remote_row. rewrite <- strip_spaces_spec.
  exists (trim (name formData)), (trim (address formData)), pickup, ret.
  pose proof (trim_trimmed (name formData)) as Hn.
  pose proof (trim_trimmed (address formData)) as Ha.
  destruct (bookingType formData).
  - destruct Htype as (Hdays & Hle & _).
    pose proof (bookingPayload_lookup (supabasePayload bookingData formData)) as Hrow.
    cbv zeta in Hrow.
    destruct Hrow as ((-> & -> & -> & _ & _ & _ & -> & _) & (-> & _) & (-> & -> & _)).
    unfold supabasePayload. rewrite Hpickup, Hret. cbn [date_field].
    repeat (rewrite lookup_insert_eq || rewrite lookup_insert_ne by done).
    cbn [jtruthy date_field]. rewrite !date_string_nonempty.
    repeat (split; [first [exact Hn | exact Ha | done | lia] |]). lia.
  - destruct Htype as (Hweeks & Hlt & Habs).
    unfold weeklyPayload. rewrite Hpickup, Hret. cbn [date_field].
    repeat (rewrite lookup_insert_eq || rewrite lookup_insert_ne by done).
    repeat (split; [first [exact Hn | exact Ha | done | lia] |]). lia.
Qed.

(** X14. When a form validates and the credentials are set, the first
    thing [handleSubmit] does is one insert into the table of the booking
    type, of a row that holds what was validated: the name and the address
    of the form without the white space at their ends, its contact without
    any white space, a mobile number, both dates, and the duration within
    its limits. *)
Theorem validated_row_sent (host : Host) (zone : JSDate.Zone)
    (bookingData : BookingData) (formData : FormData) (w : World) :
  validateForm zone (Date_now host) formData = true ->
  credentials_missing host = false ->
  let w' := snd (handleSubmit host zone (Some bookingData) formData w) in
  exists row rest,
    trace w' =
      trace w ++ Call (remote_adapter (bookingType formData)) ::
                 Insert (remote_table (bookingType formData)) row :: rest /\
    validated_columns formData row.
Proof.
  intros Hvalid Hcred. cbv zeta.
  rewrite handleSubmit_validated by done.
  pose proof (remote_row_validated zone (Date_now host) bookingData formData Hvalid)
    as Hrow.
  exists (remote_row bookingData formData).
  unfold remote_row in *.
  destruct (bookingType formData) eqn:Htype.
  - destruct (submitBooking_daily_run host bookingData formData (snd (setErrors ∅ w)) Htype)
      as (Htrace & _). rewrite Htrace. cbn [setErrors snd trace].
    unfold remote_events. rewrite Hcred. cbn [remote_adapter remote_table].
    eexists. split; [| exact Hrow]. rewrite <- !app_comm_cons, <- app_assoc. reflexivity.
  - destruct (submitBooking_weekly_run host bookingData formData (snd (setErrors ∅ w)) Htype)
      as (Htrace & _). rewrite Htrace. cbn [setErrors snd trace].
    unfold remote_events. rewrite Hcred. cbn [remote_adapter remote_table].
    eexists. split; [| exact Hrow]. rewrite <- !app_comm_cons, <- app_assoc. reflexivity.
Qed.

(** A form typed with blanks around the name and inside the contact: the
    row holds "Asha Rao" and "9876543210". *)
Lemma validated_row_sent_witness :
  let formData :=
    {| name := "  Asha Rao "; contact := "98765 43210";
       address := "12 MG Road, Bengaluru"; days := 2; bookingType := daily; weeks := 1;
       pickupDate := Some (ymd 2025 1 15); returnDate := Some (ymd 2025 1 17);
       pickupTime := Some (hm 9 0); returnTime := Some (hm 18 0) |} in
  validateForm 19800000 (Date_now offline_host) formData = true /\
  credentials_missing offline_host = false /\
  exists row rest,
    trace (snd (handleSubmit offline_host 19800000 (Some activa) formData
                  initial_world)) =
    [] ++ Call remote_daily :: Insert "bookings" row :: rest /\
    validated_columns formData row.
Proof.
  cbv zeta.
  assert (Hvalid : validateForm 19800000 (Date_now offline_host)
            {| name := "  Asha Rao "; contact := "98765 43210";
               address := "12 MG Road, Bengaluru"; days := 2; bookingType := daily;
               weeks := 1; pickupDate := Some (ymd 2025 1 15);
               returnDate := Some (ymd 2025 1 17);
               pickupTime := Some (hm 9 0); returnTime := Some (hm 18 0) |} = true)
    by (vm_compute; reflexivity).
  exact (conj Hvalid (conj eq_refl
    (validated_row_sent offline_host 19800000 activa
       {| name := "  Asha Rao "; contact := "98765 43210";
          address := "12 MG Road, Bengaluru"; days := 2; bookingType := daily;
          weeks := 1; pickupDate := Some (ymd 2025 1 15);
          returnDate := Some (ymd 2025 1 17);
          pickupTime := Some (hm 9 0); returnTime := Some (hm 18 0) |}
       initial_world Hvalid eq_refl))).
Defined.

Ltac insert_lookup :=
  repeat first [ rewrite lookup_insert_eq | rewrite lookup_insert_ne by done
               | rewrite lookup_empty ].

(** X15. The payload a daily booking falls back on has nine fields, none
    of them a date or a time: the relay and local storage get the name,
    contact, address, category, model, days and the two prices of the row
    for the remote store, and the time of the submission as its time
    stamp.  The payload a weekly booking stores locally is its row with
    [bookingType] and the same time stamp added, and nothing else. *)
Theorem fallback_payloads (host : Host) (bookingData : BookingData)
    (formData : FormData) :
  let common := commonPayload host bookingData formData in
  let row := bookingPayload (supabasePayload bookingData formData) in
  let stored := weeklyLocalPayload host bookingData formData in
  (forall key, is_Some (common !! key) <-> key ∈ common_fields) /\
  (forall key, key ∈ ["name"; "contact"; "address"; "category"; "model"; "days"] ->
     common !! key = row !! key) /\
  common !! "pricePerDay" = row !! "price_per_day" /\
  common !! "totalPrice" = row !! "total_price" /\
  (forall key, key ∈ ["pickup_date"; "return_date"; "pickup_time"; "return_time"] ->
     common !! key = None) /\
  (forall key, key <> "bookingType" -> key <> "timestamp" ->
     stored !! key = weeklyPayload bookingData formData !! key) /\
  stored !! "bookingType" = Some (JStr "weekly") /\
  stored !! "timestamp" = Some (JStr (JSDate.toISOString (Date_now host))) /\
  common !! "timestamp" = Some (JStr (JSDate.toISOString (Date_now host))) /\
  (forall key, is_Some (stored !! key) <->
     key = "bookingType" \/ key = "timestamp" \/
     is_Some (weeklyPayload bookingData formData !! key)).
Proof.
  cbv zeta.
  pose proof (bookingPayload_lookup (supabasePayload bookingData formData)) as Hrow.
  cbv zeta in Hrow.
  destruct Hrow as ((Hname & Hcontact & Haddress & Hcategory & Hmodel & Hprice & Hdays
                     & Htotal) & _ & _).
  assert (Hother : forall key, key ∉ common_fields ->
                     commonPayload host bookingData formData !! key = None).
  { intros key Hnot. unfold common_fields in Hnot.
    repeat (apply not_elem_of_cons in Hnot as [? Hnot]).
    unfold commonPayload. by insert_lookup. }
  split; [| split; [| split; [| split; [| split; [| split; [| split; [| split; [| split]]]]]]]].
  - intros key. split.
    + intros Hsome. destruct (decide (key ∈ common_fields)) as [|Hnot]; [done |].
      rewrite (Hother key Hnot) in Hsome. by destruct Hsome.
    + unfold common_fields. intros Hin.
      repeat (apply elem_of_cons in Hin as [-> | Hin]);
        try (unfold commonPayload; insert_lookup; by eexists).
      by apply elem_of_nil in Hin.
  - intros key Hin.
    repeat (apply elem_of_cons in Hin as [-> | Hin]);
      rewrite ?Hname, ?Hcontact, ?Haddress, ?Hcategory, ?Hmodel, ?Hdays;
      try (unfold commonPayload, supabasePayload; by insert_lookup).
    by apply elem_of_nil in Hin.
  - rewrite Hprice. unfold commonPayload, supabasePayload. by insert_lookup.
  - rewrite Htotal. unfold commonPayload, supabasePayload. by insert_lookup.
  - intros key Hin.
    repeat (apply elem_of_cons in Hin as [-> | Hin]);
      try (unfold commonPayload; by insert_lookup).
    by apply elem_of_nil in Hin.
  - intros key H1 H2. unfold weeklyLocalPayload. by rewrite !lookup_insert_ne.
  - unfold weeklyLocalPayload. by insert_lookup.
  - unfold weeklyLocalPayload. by insert_lookup.
  - unfold commonPayload. by insert_lookup.
  - intros key. unfold weeklyLocalPayload.
    destruct (decide (key = "timestamp")) as [-> | Ht].
    { rewrite lookup_insert_eq. split; [by right; left | by eexists]. }
    rewrite lookup_insert_ne by done.
    destruct (decide (key = "bookingType")) as [-> | Hb].
    { rewrite lookup_insert_eq. split; [by left | by eexists]. }
    rewrite lookup_insert_ne by done. split; [by right; right | by intros [? | [? | ?]]].
Qed.

(** ** Local storage *)

(** X16. Bookings saved one after the other to a storage that takes the
    writes are all there afterwards, after the ones stored before, in the
    order they were saved. *)
Theorem local_saves_accumulate (saves : list (Host * jobject)) (w : World)
    (bookings : list jobject) :
  stored (pendingBookings w) = Some bookings ->
  Forall (fun save => setItem_throws (fst save) = false) saves ->
  stored (pendingBookings (save_all saves w)) =
  Some (bookings ++ map (fun save => bookingWithTimestamp (fst save) (snd save)) saves).
Proof.
  unfold save_all. revert w bookings.
  induction saves as [|[host payload] saves IH]; intros w bookings Hstored Hall.
  - simpl. by rewrite app_nil_r.
  - inversion Hall as [|? ? Hset Hrest]; subst. cbn [fst snd] in Hset.
    cbn [fold_left map fst snd].
    rewrite (IH _ (bookings ++ [bookingWithTimestamp host payload])); [| | done].
    + by rewrite <- app_assoc.
    + rewrite storeBookingLocally_run. cbn [snd]. unfold with_item, local_item.
      cbn [pendingBookings]. by rewrite Hstored, Hset.
Qed.

Lemma local_saves_accumulate_witness :
  stored (pendingBookings initial_world) = Some [] /\
  stored (pendingBookings
            (save_all [(offline_host, {["name" := JStr "Asha Rao"]});
                       (offline_host, {["name" := JStr "Ravi Kumar"]})]
               initial_world)) =
  Some ([] ++ [bookingWithTimestamp offline_host {["name" := JStr "Asha Rao"]};
               bookingWithTimestamp offline_host {["name" := JStr "Ravi Kumar"]}]).
Proof.
  refine (conj eq_refl
    (local_saves_accumulate
       [(offline_host, {["name" := JStr "Asha Rao"]});
        (offline_host, {["name" := JStr "Ravi Kumar"]})]
       initial_world [] eq_refl _)).
  repeat constructor.
Defined.

(** X17. [storeBookingLocally] fails exactly when the stored item is not a
    sequence or the write throws; a failure leaves local storage as it
    was, on an unreadable item nothing is written at all, and the function
    neither changes the step nor shows an alert. *)
Theorem storeBookingLocally_fails (host : Host) (payload : jobject) (w : World) :
  let result := storeBookingLocally host payload w in
  (fst result = false <->
   pendingBookings w = item_other \/ setItem_throws host = true) /\
  (fst result = false -> pendingBookings (snd result) = pendingBookings w) /\
  (pendingBookings w = item_other -> trace (snd result) = trace w ++ [Call local]) /\
  currentStep (snd result) = currentStep w /\
  Forall (fun e => forall message, e <> Alert message)
    (drop (length (trace w)) (trace (snd result))).
Proof.
  cbv zeta. rewrite storeBookingLocally_run. cbn [fst snd].
  unfold local_succeeds, local_item, local_events, with_item, after.
  cbn [pendingBookings trace currentStep].
  rewrite drop_app_length.
  destruct (pendingBookings w) as [|bookings|] eqn:Hitem; cbn [stored];
    destruct (setItem_throws host); cbn.
  all: rewrite ?bool_decide_eq_true_2 by eauto.
  all: rewrite ?bool_decide_eq_false_2 by (by intros [? ?]).
  all: repeat split; try done; try (intros [? | ?]; done); try (by left); try (by right).
  all: repeat constructor; done.
Qed.

(** ** Prices *)

Lemma round_half_up_mono x y num den :
  0 < den -> 0 <= num -> x <= y -> round_half_up x num den <= round_half_up y num den.
Proof.
  intros Hden Hnum Hxy. unfold round_half_up.
  apply Z.div_le_mono; [lia | nia].
Qed.



(** X19. For one vehicle and one booking type the total never goes down
    when the duration goes up, as long as the original price of the longer
    booking stays below 2^45 rupees. *)
Theorem quote_monotone (bookingData : BookingData) (shorter longer : FormData) :
  bookingType shorter = bookingType longer ->
  0 <= pricePerDay bookingData ->
  0 <= active_duration shorter <= active_duration longer ->
  exact_range (originalPrice (calculatePrice (Some bookingData) longer)) ->
  totalPrice (calculatePrice (Some bookingData) shorter) <=
  totalPrice (calculatePrice (Some bookingData) longer).
Proof.
  intros Htype Hprice Hdur. unfold active_duration in Hdur. rewrite <- Htype in Hdur.
  unfold calculatePrice. rewrite <- Htype.
  set (p := pricePerDay bookingData) in *.
  destruct (bookingType shorter).
  - intros Hrange.
    assert (Hl9 : exact_range (p * days longer)).
    { revert Hrange. by destruct ((days longer =? 1) && _). }
    assert (Hs9 : exact_range (p * days shorter)) by (unfold exact_range in *; nia).
    rewrite !Math_round_mul_0_9 by done.
    pose proof (round_half_up_bounds (p * days shorter) 9 10 ltac:(lia) ltac:(lia)
                  ltac:(nia)) as Hs.
    pose proof (round_half_up_bounds (p * days longer) 9 10 ltac:(lia) ltac:(lia)
                  ltac:(nia)) as Hl.
    destruct (includes (model bookingData) "Pulsar 150" ||
              includes (model bookingData) "Pulsar 125");
      rewrite ?andb_true_r, ?andb_false_r;
      destruct (days shorter =? 1) eqn:H1, (days longer =? 1) eqn:H2;
      rewrite ?Z.eqb_eq, ?Z.eqb_neq in *; cbn; try nia.
    rewrite H1, H2. lia.
  - cbn. intros Hrange.
    assert (Hs65 : exact_range (p * (weeks shorter * 7)))
      by (unfold exact_range in *; nia).
    rewrite !Math_round_mul_0_65 by done.
    apply round_half_up_mono; [lia | lia | nia].
Qed.

Lemma quote_monotone_witness :
  0 <= pricePerDay pulsar150 /\
  0 <= active_duration (sample_form daily 1 1 None None)
    <= active_duration (sample_form daily 2 1 None None) /\
  exact_range (originalPrice (calculatePrice (Some pulsar150)
                                (sample_form daily 2 1 None None))) /\
  totalPrice (calculatePrice (Some pulsar150) (sample_form daily 1 1 None None)) <=
  totalPrice (calculatePrice (Some pulsar150) (sample_form daily 2 1 None None)).
Proof.
  assert (Hp : 0 <= pricePerDay pulsar150) by (simpl; lia).
  assert (Hd : 0 <= active_duration (sample_form daily 1 1 None None)
                 <= active_duration (sample_form daily 2 1 None None))
    by (unfold active_duration; simpl; lia).
  assert (He : exact_range (originalPrice (calculatePrice (Some pulsar150)
                                             (sample_form daily 2 1 None None))))
    by (vm_compute; split; [discriminate | reflexivity]).
  exact (conj Hp (conj Hd (conj He
    (quote_monotone pulsar150 (sample_form daily 1 1 None None)
       (sample_form daily 2 1 None None) eq_refl Hp Hd He)))).
Defined.




Lemma qualifying_includes_Pulsar m :
  qualifying_model m -> includes m "Pulsar" = true.
Proof.
  intros [(before & after & ->) | (before & after & ->)]; apply includes_spec.
  - by exists before, (" 150" +:+ after).
  - by exists before, (" 125" +:+ after).
Qed.

(** X22. The summary shows the badge of the one-day discount exactly for
    a daily booking of one day of a qualifying model; the price per day
    shown beside it is then the total, and the saving shown is the
    difference.  The tip that promises the discount is never shown
    together with the badge, and it is shown on every longer or shorter
    daily booking of a qualifying model. *)
Theorem summary_consistent (bookingData : BookingData) (formData : FormData) :
  let quote := calculatePrice (Some bookingData) formData in
  (shows_discount bookingData formData = true <->
   bookingType formData = daily /\ days formData = 1 /\
   qualifying_model (model bookingData)) /\
  (shows_discount bookingData formData = true ->
   totalPrice quote = discounted_pricePerDay bookingData /\
   savings quote = pricePerDay bookingData - discounted_pricePerDay bookingData /\
   shows_tip bookingData formData = false) /\
  (bookingType formData = daily -> days formData <> 1 ->
   qualifying_model (model bookingData) ->
   shows_tip bookingData formData = true /\ discount quote = false).
Proof.
  cbv zeta. unfold shows_discount, shows_tip, discounted_pricePerDay, calculatePrice.
  pose proof (qualifying_model_spec (model bookingData)) as Hq.
  pose proof (qualifying_includes_Pulsar (model bookingData)) as Hp.
  destruct (bookingType formData); cbn [is_daily andb].
  2:{ split; [split; [done | by intros [? _]] |]. split; done. }
  destruct (days formData =? 1) eqn:Hd;
    [apply Z.eqb_eq in Hd | apply Z.eqb_neq in Hd];
    destruct (includes (model bookingData) "Pulsar 150" ||
              includes (model bookingData) "Pulsar 125") eqn:Hm; cbn.
  all: rewrite ?andb_true_r, ?andb_false_r.
  - rewrite Hd, Z.mul_1_r. cbn.
    split; [split; [intros _; split; [done |]; split; [done | by apply Hq] | done] |].
    split; [done | done].
  - split; [split; [done | intros (_ & _ & H%Hq); done] |]. split; done.
  - split; [split; [done | by intros (_ & ? & _)] |].
    split; [done |]. intros _ _ H. by rewrite (Hp H).
  - split; [split; [done | by intros (_ & ? & _)] |].
    split; [done |]. intros _ _ H. by rewrite (Hp H).
Qed.

(** ** Contact messages *)

Lemma substring_0_length n s :
  String.length (String.substring 0 n s) = Nat.min n (String.length s).
Proof.
  revert s. induction n as [|n IH]; intros s; destruct s as [|c s]; simpl; try done.
  by rewrite IH.
Qed.

Lemma substring_0_prefix n s :
  exists rest, s = String.substring 0 n s +:+ rest.
Proof.
  revert s. induction n as [|n IH]; intros s; destruct s as [|c s]; simpl.
  - by exists "".
  - by exists (String c s).
  - by exists "".
  - destruct (IH s) as [rest Hrest]. exists rest.
    change (String c s = String c (String.substring 0 n s +:+ rest)). by f_equal.
Qed.

Lemma substring_0_all n s :
  (String.length s <= n)%nat -> String.substring 0 n s = s.
Proof.
  revert s. induction n as [|n IH]; intros s Hlen; destruct s as [|c s]; simpl in *;
    try done; try lia.
  rewrite IH; [done | lia].
Qed.

(** X23. [createContactMessage] inserts into [contacts] first and into
    [bookings] only when [contacts] answered with an error, each once.  It
    resolves when one of the two inserts is accepted, and throws "Failed
    to save message: " followed by the message of the second error when
    both tables answer with an error. *)
Theorem createContactMessage_fallback (insert : string -> Contact.row -> InsertReply)
    (contactData : Contact.ContactData) :
  let result := Contact.createContactMessage insert contactData in
  let first := ("contacts", Contact.contactsRow contactData) in
  let second := ("bookings", Contact.bookingData contactData) in
  (fst result = [first] \/ fst result = [first; second]) /\
  (fst result = [first; second] <->
   exists error, insert "contacts" (Contact.contactsRow contactData) = insert_error error) /\
  (snd result = Contact.resolves <->
   insert "contacts" (Contact.contactsRow contactData) = insert_data \/
   (fst result = [first; second] /\
    insert "bookings" (Contact.bookingData contactData) = insert_data)) /\
  (forall message,
     snd result = Contact.throws message <->
     exists contactsError error,
       insert "contacts" (Contact.contactsRow contactData) = insert_error contactsError /\
       insert "bookings" (Contact.bookingData contactData) = insert_error error /\
       message = "Failed to save message: " +:+ error_message error).
Proof.
  cbv zeta. unfold Contact.createContactMessage.
  destruct (insert "contacts" (Contact.contactsRow contactData)) as [|e1|] eqn:H1;
    [| destruct (insert "bookings" (Contact.bookingData contactData)) as [|e2|] eqn:H2 |];
    cbn [fst snd].
  - split; [by left |]. split; [split; [done | by intros [? ?]] |].
    split; [split; [by left | done] |].
    intros message. split; [done | by intros (? & ? & ? & _)].
  - split; [by right |]. split; [split; [by eauto | done] |].
    split; [split; [by right | done] |].
    intros message. split; [done | by intros (? & ? & _ & ? & _)].
  - split; [by right |]. split; [split; [by eauto | done] |].
    split; [split; [done | by intros [? | [_ ?]]] |].
    intros message. split.
    + intros [= <-]. by exists e1, e2.
    + by intros (? & ? & _ & [= <-] & ->).
  - split; [by right |]. split; [split; [by eauto | done] |].
    split; [split; [done | by intros [? | [_ ?]]] |].
    intros message. split; [done | by intros (? & ? & _ & ? & _)].
  - split; [by left |]. split; [split; [done | by intros [? ?]] |].
    split; [split; [done | by intros [? | [? _]]] |].
    intros message. split; [done | by intros (? & ? & ? & _)].
Qed.

(** X24. The booking a contact message is turned into holds the first 255
    characters of the message as its address: a prefix of the message of
    255 characters, or of the length of the message when that is less (the
    whole message then); the phone number as its contact, or the e-mail address
    when there is no phone number, prices of 0, the rental type "contact"
    and the e-mail address in its status. *)
Theorem contact_bookingData_row (contactData : Contact.ContactData) :
  let row := Contact.bookingData contactData in
  (exists address,
     row !! "address" = Some (Contact.text address) /\
     String.length address = Nat.min 255 (String.length (Contact.message contactData)) /\
     (exists rest, Contact.message contactData = address +:+ rest) /\
     ((String.length (Contact.message contactData) <= 255)%nat ->
      address = Contact.message contactData)) /\
  (exists contact,
     row !! "contact" = Some (Contact.text contact) /\
     match Contact.phone contactData with
     | Some phone => if nonempty phone then contact = phone
                     else contact = Contact.email contactData
     | None => contact = Contact.email contactData
     end) /\
  row !! "price_per_day" = Some (Contact.number 0) /\
  row !! "total_price" = Some (Contact.number 0) /\
  row !! "rental_type" = Some (Contact.text "contact") /\
  row !! "status" = Some (Contact.text ("CONTACT: " +:+ Contact.email contactData)).
Proof.
  cbv zeta. unfold Contact.bookingData.
  repeat (rewrite lookup_insert_eq || rewrite lookup_insert_ne by done).
  split; [| split; [| done]].
  - eexists. split; [done |]. split; [| split].
    + apply substring_0_length.
    + apply substring_0_prefix.
    + apply substring_0_all.
  - eexists. split; [done |]. unfold Contact.phone_or.
    destruct (Contact.phone contactData) as [p|]; [| done].
    by destruct (nonempty p).
Qed.

(** ** The return date of NumberInputTest *)

(** X25. For a pickup date and a nonzero active duration, the effect of
    [NumberInputTest] computes the return date the booking form computes:
    the pickup date plus days, or plus weeks * 7. *)
Theorem NumberInputTest_agrees (tz : Z) (prev : FormData) (pickup : Z) :
  active_duration prev <> 0 ->
  NumberInputTest_returnDate tz (bookingType prev) (days prev) (weeks prev)
    (Some pickup) (returnDate prev) =
  returnDate (updateFormData tz (change_pickupDate (Some pickup)) prev) /\
  NumberInputTest_returnDate tz (bookingType prev) (days prev) (weeks prev)
    (Some pickup) (returnDate prev) = Some (pickup + rental_days prev).
Proof.
  intros Hactive.
  assert (Hvalue : NumberInputTest_returnDate tz (bookingType prev) (days prev)
                     (weeks prev) (Some pickup) (returnDate prev) =
                   Some (pickup + rental_days prev)).
  { unfold NumberInputTest_returnDate, rental_days.
    destruct (bookingType prev); rewrite setDate_getDate_plus;
      unfold JSDate.toISODate, JSDate.of_date, JSDate.MakeDate, JSDate.Day,
        JSDate.msPerDay; f_equal; Z.div_mod_to_equations; lia. }
  split; [| done]. rewrite Hvalue.
  set (next := updateFormData tz (change_pickupDate (Some pickup)) prev).
  assert (Htype : bookingType next = bookingType prev)
    by apply updateFormData_bookingType.
  assert (Hdays : days next = days prev) by apply updateFormData_days.
  assert (Hweeks : weeks next = weeks prev) by apply updateFormData_weeks.
  assert (Hpickup : pickupDate next = Some pickup).
  { unfold next, updateFormData. cbn. repeat (case_match; cbn); done. }
  assert (Hnext : active_duration next <> 0).
  { unfold active_duration in *. by rewrite Htype, Hdays, Hweeks. }
  pose proof (updateFormData_returnDate tz (change_pickupDate (Some pickup)) prev pickup
                I Hpickup Hnext) as H.
  fold next in H. rewrite H. unfold rental_days. by rewrite Htype, Hdays, Hweeks.
Qed.

Lemma NumberInputTest_agrees_witness :
  active_duration (sample_form weekly 1 2 None None) <> 0 /\
  NumberInputTest_returnDate 19800000 weekly 1 2 (Some (ymd 2025 1 15)) None =
  Some (ymd 2025 1 29).
Proof.
  assert (Hactive : active_duration (sample_form weekly 1 2 None None) <> 0)
    by (vm_compute; discriminate).
  exact (conj Hactive
    (proj2 (NumberInputTest_agrees 19800000 (sample_form weekly 1 2 None None)
              (ymd 2025 1 15) Hactive))).
Defined.

(** ** Validation and the clock *)

Lemma report_same_at key k msg errs errs' :
  same_at key errs errs' -> same_at key (report k msg errs) (report k msg errs').
Proof.
  unfold same_at, report. intros H. destruct (decide (key = k)) as [-> | Hne].
  - by rewrite !lookup_insert_eq.
  - by rewrite !lookup_insert_ne.
Qed.

Ltac same_at := intros; repeat case_match; repeat apply report_same_at; assumption.

Lemma validate_daily_returnDate_same_at key formData errs errs' :
  same_at key errs errs' ->
  same_at key (validate_daily_returnDate formData errs)
    (validate_daily_returnDate formData errs').
Proof. unfold validate_daily_returnDate. same_at. Qed.

Lemma validate_weekly_returnDate_same_at key formData errs errs' :
  same_at key errs errs' ->
  same_at key (validate_weekly_returnDate formData errs)
    (validate_weekly_returnDate formData errs').
Proof. unfold validate_weekly_returnDate. same_at. Qed.

Lemma of_local_leb (tz tz' : Z) d1 t1 d2 t2 :
  (JSDate.of_local tz d1 t1 <=? JSDate.of_local tz d2 t2) =
  (JSDate.of_local tz' d1 t1 <=? JSDate.of_local tz' d2 t2).
Proof.
  destruct (JSDate.of_local tz' d1 t1 <=? JSDate.of_local tz' d2 t2) eqn:H;
    [apply Z.leb_le in H; apply Z.leb_le | apply Z.leb_gt in H; apply Z.leb_gt];
    pose proof (of_local_le tz d1 t1 d2 t2); pose proof (of_local_le tz' d1 t1 d2 t2);
    pose proof (of_local_le tz d2 t2 d1 t1); pose proof (of_local_le tz' d2 t2 d1 t1);
    lia.
Qed.

Lemma validate_times_same_at key (tz tz' : Z) formData errs errs' :
  same_at key errs errs' ->
  same_at key (validate_times tz formData errs) (validate_times tz' formData errs').
Proof.
  unfold validate_times. intros H.
  destruct (pickupDate formData) as [pd|], (returnDate formData) as [rd|],
    (pickupTime formData) as [pt|], (returnTime formData) as [rt|];
    rewrite ?(of_local_leb tz tz'); same_at.
Qed.

Lemma validate_pickupDate_same_at key tz now tz' now' required formData errs :
  key <> "pickupDate" ->
  same_at key (validate_pickupDate tz now required formData errs)
    (validate_pickupDate tz' now' required formData errs).
Proof.
  intros Hkey. unfold same_at. by rewrite !validate_pickupDate_other.
Qed.

Lemma validate_pickupDate_midnight tz now tz' now' required formData errs :
  JSDate.local_midnight tz now = JSDate.local_midnight tz' now' ->
  validate_pickupDate tz now required formData errs =
  validate_pickupDate tz' now' required formData errs.
Proof. intros H. unfold validate_pickupDate. by rewrite H. Qed.

(** X26. Of all the checks only the one that the pickup date is not in the
    past looks at the clock and at the time zone: every other entry of the
    error table is the same at any time in any zone, and the whole table
    is the same whenever today's local midnight is the same moment. *)
Theorem validation_and_the_clock (tz now tz' now' : Z) (formData : FormData) :
  (forall key, key <> "pickupDate" ->
     validateForm_errors tz now formData !! key =
     validateForm_errors tz' now' formData !! key) /\
  (JSDate.local_midnight tz now = JSDate.local_midnight tz' now' ->
   validateForm_errors tz now formData = validateForm_errors tz' now' formData).
Proof.
  split.
  - intros key Hkey. change (same_at key (validateForm_errors tz now formData)
                               (validateForm_errors tz' now' formData)).
    unfold validateForm_errors. destruct (bookingType formData).
    + by apply validate_times_same_at, validate_daily_returnDate_same_at,
        validate_pickupDate_same_at.
    + by apply validate_weekly_returnDate_same_at, validate_pickupDate_same_at.
  - intros Hmid. apply map_eq. intros key.
    change (same_at key (validateForm_errors tz now formData)
              (validateForm_errors tz' now' formData)).
    unfold validateForm_errors. destruct (bookingType formData).
    + apply validate_times_same_at, validate_daily_returnDate_same_at.
      by rewrite (validate_pickupDate_midnight tz now tz' now').
    + apply validate_weekly_returnDate_same_at.
      by rewrite (validate_pickupDate_midnight tz now tz' now').
Qed.
